(** * Predictive analytics engine for vehicle emissions

    A shallow embedding of [predictive_engine.py]: the loader [load_dataset],
    the cleaning function [basic_preprocess], the grid search and refit of
    [train_xgboost], [incremental_update], [build_anomaly_detector],
    [train_maintenance_tree], [evaluate_on_test], the per-record decision
    pipeline [process_realtime_record] and the training branch of the command
    line.

    Python floats are IEEE binary64 values, modelled by Rocq's primitive
    [float]; dictionaries are finite maps; a pandas frame is an index of labels
    with an ordered list of named columns; the persisted artifacts live in a
    finite map from paths to objects.  The fitted scikit-learn and XGBoost
    estimators are external to the repository: they are taken as an interface
    ([MLLib]) whose calls are recorded in a call log; the CSV reader, the
    split, the fit of the tree and the metrics are a second interface
    ([Toolkit]). *)

From Stdlib Require Import ZArith Lia List String Floats.
From stdpp Require Import base option list gmap strings pretty.

#[local] Set Warnings "-inexact-float".
#[local] Open Scope Z_scope.

(** ** Python values, exceptions and conversions *)

Module Py.

(** An exception is identified by the name of its class. *)
Inductive exn : Type :=
| Raise (cls : string).

Definition TypeError : exn := Raise "TypeError".
Definition ValueError : exn := Raise "ValueError".
Definition OverflowError : exn := Raise "OverflowError".
Definition KeyError : exn := Raise "KeyError".
Definition IndexError : exn := Raise "IndexError".
Definition AttributeError : exn := Raise "AttributeError".
Definition FileNotFoundError : exn := Raise "FileNotFoundError".
Definition XGBoostError : exn := Raise "XGBoostError".

Definition exn_class (e : exn) : string :=
  match e with Raise c => c end.

(** A computation that returns or raises. *)
Inductive result (A : Type) : Type :=
| Ok (a : A)
| Err (e : exn).

Arguments Ok {A} a.
Arguments Err {A} e.

#[export] Instance result_ret : MRet result := fun A a => Ok a.
#[export] Instance result_bind : MBind result := fun A B f r =>
  match r with
  | Ok a => f a
  | Err e => Err e
  end.

(** The values a record field or a frame cell may hold. *)
Inductive value : Type :=
| VNone
| VFloat (f : float)
| VInt (z : Z)
| VStr (s : string).

(** The float nearest to an integer (round to nearest, ties to even);
    infinite when the integer is out of range. *)
Definition Z2float (z : Z) : float :=
  SF2Prim (binary_normalize prec emax z 0 false).

(** [float(v)]: [parse] stands for the parser of [float(str)], which answers
    [None] where Python raises [ValueError]. *)
Definition py_float (parse : string -> option float) (v : value) : result float :=
  match v with
  | VFloat f => Ok f
  | VInt z =>
      let f := Z2float z in
      if PrimFloat.is_infinity f then Err OverflowError else Ok f
  | VStr s =>
      match parse s with
      | Some f => Ok f
      | None => Err ValueError
      end
  | VNone => Err TypeError
  end.

(** [int(f)] on a float: truncation toward zero; NaN and the infinities
    raise. *)
Definition py_int (f : float) : result Z :=
  match Prim2SF f with
  | S754_nan => Err ValueError
  | S754_infinity _ => Err OverflowError
  | S754_zero _ => Ok 0
  | S754_finite s m e =>
      let a := Z.shiftl (Z.pos m) e in
      Ok (if s then - a else a)
  end.

(** [dict.get(key, default)]. *)
Definition dict_get (d : gmap string value) (k : string) (default : value) : value :=
  match d !! k with
  | Some v => v
  | None => default
  end.

End Py.

Export Py.

(** ** The fragment of pandas the engine uses *)

Module Pandas.

Record Series : Type := mkSeries {
  s_index : list Z;
  s_values : list value
}.

(** Columns are kept in order: a new column is appended, an existing one is
    replaced in place. *)
Record DataFrame : Type := mkFrame {
  df_index : list Z;
  df_columns : list (string * list value)
}.

(** What an expression over a frame may evaluate to: [df.get] answers a
    column or its default, which may be a scalar. *)
Inductive pyobj : Type :=
| Scalar (v : value)
| Ser (s : Series).

Definition RangeIndex (n : nat) : list Z := map Z.of_nat (seq 0 n).

Definition len (df : DataFrame) : nat := length (df_index df).

(** [pd.Series([v] * n)]. *)
Definition Series_const (v : value) (n : nat) : Series :=
  mkSeries (RangeIndex n) (replicate n v).

Fixpoint lookup_col (c : string) (cols : list (string * list value)) : option (list value) :=
  match cols with
  | [] => None
  | (k, vs) :: rest => if bool_decide (k = c) then Some vs else lookup_col c rest
  end.

Fixpoint set_col (c : string) (vs : list value) (cols : list (string * list value))
  : list (string * list value) :=
  match cols with
  | [] => [(c, vs)]
  | (k, ws) :: rest =>
      if bool_decide (k = c) then (c, vs) :: rest else (k, ws) :: set_col c vs rest
  end.

Definition has_col (df : DataFrame) (c : string) : bool :=
  bool_decide (is_Some (lookup_col c (df_columns df))).

(** [df[c]]. *)
Definition getitem (df : DataFrame) (c : string) : result Series :=
  match lookup_col c (df_columns df) with
  | Some vs => Ok (mkSeries (df_index df) vs)
  | None => Err KeyError
  end.

(** [df.get(c, default)]. *)
Definition get (df : DataFrame) (c : string) (default : pyobj) : pyobj :=
  match lookup_col c (df_columns df) with
  | Some vs => Ser (mkSeries (df_index df) vs)
  | None => default
  end.

(** The value a series holds at a label; NaN when the label is absent. *)
Fixpoint label_lookup (l : Z) (idx : list Z) (vals : list value) : value :=
  match idx, vals with
  | i :: idx', v :: vals' => if Z.eqb i l then v else label_lookup l idx' vals'
  | _, _ => VFloat nan
  end.

(** [Series.reindex(index)]. *)
Definition reindex (s : Series) (idx : list Z) : result (list value) :=
  if bool_decide (NoDup (s_index s))
  then Ok (map (fun l => label_lookup l (s_index s) (s_values s)) idx)
  else Err ValueError.

(** The values [df[c] = s] stores for a series: those of [s] as they are when
    its index is the frame's (or the frame is empty), and otherwise the values
    found label by label. *)
Definition reindex_for_setitem (s : Series) (df : DataFrame) : result (list value) :=
  if bool_decide (s_index s = df_index df) || bool_decide (len df = 0%nat)
  then Ok (s_values s)
  else reindex s (df_index df).

(** [df[c] = o]. *)
Definition setitem (df : DataFrame) (c : string) (o : pyobj) : result DataFrame :=
  match o with
  | Scalar v => Ok (mkFrame (df_index df) (set_col c (replicate (len df) v) (df_columns df)))
  | Ser s =>
      vs ← reindex_for_setitem s df;
      if bool_decide (length vs = len df)
      then Ok (mkFrame (df_index df) (set_col c vs (df_columns df)))
      else Err ValueError
  end.

Definition isna (v : value) : bool :=
  match v with
  | VNone => true
  | VFloat f => PrimFloat.is_nan f
  | _ => false
  end.

Definition fillna_cell (fill v : value) : value :=
  if isna v then fill else v.

(** [s.fillna(fill)]. *)
Definition fillna (fill : value) (s : Series) : Series :=
  mkSeries (s_index s) (map (fillna_cell fill) (s_values s)).

(** [o.fillna(fill)]: a scalar has no such method. *)
Definition obj_fillna (fill : value) (o : pyobj) : result Series :=
  match o with
  | Ser s => Ok (fillna fill s)
  | Scalar _ => Err AttributeError
  end.

(** [pd.to_numeric(., errors="coerce")] on one cell: what does not read as a
    number becomes NaN.  [parse] stands for the reading of a string cell.
    Numeric cells are kept as float64 values. *)
Definition to_numeric_cell (parse : string -> option float) (v : value) : value :=
  VFloat match v with
         | VNone => nan
         | VFloat f => f
         | VInt z => Z2float z
         | VStr s => default nan (parse s)
         end.

Definition to_numeric (parse : string -> option float) (o : pyobj) : pyobj :=
  match o with
  | Scalar v => Scalar (to_numeric_cell parse v)
  | Ser s => Ser (mkSeries (s_index s) (map (to_numeric_cell parse) (s_values s)))
  end.

(** [s == 0], cell by cell. *)
Definition eq_zero_cell (v : value) : bool :=
  match v with
  | VFloat f => PrimFloat.eqb f 0
  | VInt z => Z.eqb z 0
  | _ => false
  end.

(** [df.loc[mask, c] = v] on the values of column [c]. *)
Fixpoint loc_set (mask : list bool) (v : value) (vs : list value) : list value :=
  match mask, vs with
  | b :: mask', x :: vs' => (if b then v else x) :: loc_set mask' v vs'
  | _, _ => vs
  end.

(** The numeric, non-NaN values of a column. *)
Fixpoint non_nan (vs : list value) : list float :=
  match vs with
  | [] => []
  | VFloat f :: rest => if PrimFloat.is_nan f then non_nan rest else f :: non_nan rest
  | _ :: rest => non_nan rest
  end.

Fixpoint insert_sorted (x : float) (l : list float) : list float :=
  match l with
  | [] => [x]
  | y :: rest => if PrimFloat.leb x y then x :: l else y :: insert_sorted x rest
  end.

Definition sort_floats (l : list float) : list float :=
  foldr insert_sorted [] l.

(** [s.median()]: NaN is skipped; the middle value, or the mean of the two
    middle values; NaN when nothing is left. *)
Definition median (s : Series) : float :=
  let xs := sort_floats (non_nan (s_values s)) in
  let n := length xs in
  if bool_decide (n = 0%nat) then nan
  else if Nat.odd n then nth (n / 2) xs nan
  else ((nth (n / 2 - 1) xs nan + nth (n / 2) xs nan) / 2)%float.

Definition clip_lower_cell (lower : float) (v : value) : value :=
  match v with
  | VFloat f => if PrimFloat.is_nan f || PrimFloat.leb lower f then VFloat f else VFloat lower
  | _ => v
  end.

(** [s.clip(lower=lower)]. *)
Definition clip_lower (lower : float) (s : Series) : Series :=
  mkSeries (s_index s) (map (clip_lower_cell lower) (s_values s)).

(** [df[cols]]: the named columns, in the order asked for. *)
Fixpoint select_cols (cols : list string) (all : list (string * list value))
  : result (list (string * list value)) :=
  match cols with
  | [] => Ok []
  | c :: rest =>
      match lookup_col c all with
      | Some vs => r ← select_cols rest all; Ok ((c, vs) :: r)
      | None => Err KeyError
      end
  end.

Definition select (df : DataFrame) (cols : list string) : result DataFrame :=
  cs ← select_cols cols (df_columns df); Ok (mkFrame (df_index df) cs).

(** [df.fillna(fill)]: every column. *)
Definition df_fillna (fill : value) (df : DataFrame) : DataFrame :=
  mkFrame (df_index df)
          (map (fun kv => (fst kv, map (fillna_cell fill) (snd kv))) (df_columns df)).

Fixpoint keep {A : Type} (mask : list bool) (l : list A) : list A :=
  match mask, l with
  | b :: mask', x :: l' => if b then x :: keep mask' l' else keep mask' l'
  | _, _ => []
  end.

(** [df[mask]]: the rows where the mask holds, with their labels. *)
Definition filter_rows (df : DataFrame) (mask : list bool) : DataFrame :=
  mkFrame (keep mask (df_index df))
          (map (fun kv => (fst kv, keep mask (snd kv))) (df_columns df)).

(** [s.astype(float)]. *)
Definition astype_float_cell (parse : string -> option float) (v : value) : result float :=
  match v with
  | VNone => Ok nan
  | VFloat f => Ok f
  | VInt z => Ok (Z2float z)
  | VStr s =>
      match parse s with
      | Some f => Ok f
      | None => Err ValueError
      end
  end.

Fixpoint astype_float (parse : string -> option float) (vs : list value) : result (list float) :=
  match vs with
  | [] => Ok []
  | v :: rest =>
      f ← astype_float_cell parse v;
      fs ← astype_float parse rest;
      Ok (f :: fs)
  end.

(** [pd.DataFrame([row])]: one row, labelled 0. *)
Definition from_record (row : list (string * value)) : DataFrame :=
  mkFrame [0] (map (fun kv => (fst kv, [snd kv])) row).

End Pandas.

Export Pandas.

(** ** Configuration *)

Definition MODEL_DIR : string := "models".
Definition NUMERIC_FEATURES : list string := ["engine_size_cm3"; "power_ps"].
Definition CATEGORICAL_FEATURES : list string :=
  ["fuel_type"; "transmission_type"; "manufacturer"].
Definition TARGET : string := "co2_emissions_gPERkm".

(** [os.path.join(dir, name)]. *)
Definition path_join (dir name : string) : string := dir +:+ "/" +:+ name.

(** ** Cleaning *)

(** The body of the loop that closes [basic_preprocess]: a column that is
    present is read as numbers, its nulls become 0.0 and it is clipped at 0.0. *)
Definition clean_numeric (parse : string -> option float) (df : DataFrame) (c : string)
  : result DataFrame :=
  if has_col df c then
    s ← getitem df c;
    x ← obj_fillna (VFloat 0) (to_numeric parse (Ser s));
    setitem df c (Ser (clip_lower 0 x))
  else Ok df.

(** [df.loc[mask, c] = v] for a column that exists; on a missing column pandas
    creates it, NaN where the mask does not hold. *)
Definition loc_setitem (df : DataFrame) (mask : list bool) (c : string) (v : value)
  : DataFrame :=
  let old := default (replicate (len df) (VFloat nan)) (lookup_col c (df_columns df)) in
  mkFrame (df_index df) (set_col c (loc_set mask v old) (df_columns df)).

Definition basic_preprocess (parse : string -> option float) (df : DataFrame)
  : result DataFrame :=
  (* transmission_type *)
  df ← setitem df "transmission_type"
         (get df "transmission_type" (Ser (Series_const (VStr "Automatic") (len df))));
  s ← getitem df "transmission_type";
  df ← setitem df "transmission_type" (Ser (fillna (VStr "Automatic") s));
  (* engine_size_cm3 *)
  e ← obj_fillna (VFloat 0) (to_numeric parse (get df "engine_size_cm3" (Scalar (VFloat 0))));
  df ← setitem df "engine_size_cm3" (Ser e);
  (* power_ps *)
  df ← setitem df "power_ps" (to_numeric parse (get df "power_ps" (Scalar (VFloat 0))));
  p ← getitem df "power_ps";
  t ← getitem df TARGET;
  let mask := zip_with andb (map isna (s_values p)) (map eq_zero_cell (s_values t)) in
  let df := loc_setitem df mask "power_ps" (VFloat 0) in
  p ← getitem df "power_ps";
  p' ← getitem df "power_ps";
  df ← setitem df "power_ps" (Ser (fillna (VFloat (median p')) p));
  (* fuel_type *)
  f ← obj_fillna (VStr "Petrol")
        (get df "fuel_type" (Ser (Series_const (VStr "Petrol") (len df))));
  df ← setitem df "fuel_type" (Ser f);
  (* negative values *)
  foldl (fun acc c => df ← acc; clean_numeric parse df c) (Ok df)
        [TARGET; "engine_size_cm3"; "power_ps"].

(** ** The estimators and their persisted state *)

Definition matrix : Type := list (list float).

(** [xgb.DMatrix(data, label=...)]. *)
Record DMatrix : Type := mkDMatrix {
  dm_data : matrix;
  dm_label : option (list float)
}.

(** The [params] dictionary of the grid search: its keys are fixed. *)
Record params : Type := mkParams {
  objective : string;
  eta : float;
  max_depth : Z;
  subsample : float;
  colsample_bytree : float;
  tree_method : string;
  verbosity : Z
}.

(** What the engine asks of Python's number parser, scikit-learn and XGBoost.
    Each estimator call may raise; [xgb_cv] answers the [test-rmse-mean]
    column of the table [xgb.cv] returns, one row per boosting round kept. *)
Class MLLib : Type := {
  Preproc : Type;
  Booster : Type;
  IsoForest : Type;
  DTree : Type;
  parse_float : string -> option float;
  parse_numeric : string -> option float;
  fit_transform : DataFrame -> result (Preproc * matrix);
  transform : Preproc -> DataFrame -> result matrix;
  iso_fit : DataFrame -> result IsoForest;
  iso_predict : IsoForest -> DataFrame -> result (list Z);
  booster_predict : Booster -> DMatrix -> result (list float);
  tree_predict : DTree -> matrix -> result (list float);
  xgb_cv : params -> DMatrix -> result (list float);
  xgb_train : params -> DMatrix -> nat -> option Booster -> result Booster
}.

Section Engine.

Context {L : MLLib}.

(** The [artifacts] dictionary written by training. *)
Record artifacts : Type := mkArtifacts {
  art_preprocessor : Preproc;
  art_best_params : params;
  art_num_boost_round : nat
}.

(** What a file of the model directory holds. *)
Inductive obj : Type :=
| OPreproc (p : Preproc)
| OBooster (b : Booster)
| OIso (i : IsoForest)
| OTree (t : DTree)
| OArtifacts (a : artifacts).

(** The calls made to the estimators, with their arguments. *)
Inductive call : Type :=
| CallFitTransform (X : DataFrame)
| CallTransform (X : DataFrame)
| CallIsoFit (X : DataFrame)
| CallIsoPredict (X : DataFrame)
| CallBoosterPredict (d : DMatrix)
| CallTreePredict (X : matrix)
| CallCv (p : params) (d : DMatrix)
| CallTrain (p : params) (d : DMatrix) (rounds : nat) (xgb_model : option Booster).

(** The state a call runs in: the files of the model directory and the log
    of estimator calls, oldest first. *)
Record world : Type := mkWorld {
  files : gmap string obj;
  calls : list call
}.

(** A computation over the world that returns or raises. *)
Definition M (A : Type) : Type := world -> result A * world.

#[export] Instance M_ret : MRet M := fun A a w => (Ok a, w).
#[export] Instance M_bind : MBind M := fun A B f m w =>
  match m w with
  | (Ok a, w') => f a w'
  | (Err e, w') => (Err e, w')
  end.

Definition lift {A : Type} (r : result A) : M A := fun w => (r, w).

Definition log (c : call) : M unit :=
  fun w => (Ok tt, mkWorld (files w) (calls w ++ [c])).

(** A logged estimator call. *)
Definition invoke {A : Type} (c : call) (r : result A) : M A :=
  _ ← log c; lift r.

(** [joblib.load(path)]. *)
Definition joblib_load (path : string) : M obj := fun w =>
  match files w !! path with
  | Some o => (Ok o, w)
  | None => (Err FileNotFoundError, w)
  end.

(** [joblib.dump(o, path)]. *)
Definition joblib_dump (o : obj) (path : string) : M unit := fun w =>
  (Ok tt, mkWorld (<[path := o]> (files w)) (calls w)).

(** [booster = xgb.Booster(); booster.load_model(path)]. *)
Definition load_model (path : string) : M Booster := fun w =>
  match files w !! path with
  | Some (OBooster b) => (Ok b, w)
  | _ => (Err XGBoostError, w)
  end.

(** [booster.save_model(path)]. *)
Definition save_model (b : Booster) (path : string) : M unit :=
  joblib_dump (OBooster b) path.

(** Method calls on a loaded object: an object of another class has no such
    method. *)
Definition preproc_transform (o : obj) (X : DataFrame) : M matrix :=
  match o with
  | OPreproc p => invoke (CallTransform X) (transform p X)
  | _ => lift (Err AttributeError)
  end.

Definition iso_predict_call (o : obj) (X : DataFrame) : M (list Z) :=
  match o with
  | OIso i => invoke (CallIsoPredict X) (iso_predict i X)
  | _ => lift (Err AttributeError)
  end.

Definition tree_predict_call (o : obj) (X : matrix) : M (list float) :=
  match o with
  | OTree t => invoke (CallTreePredict X) (tree_predict t X)
  | _ => lift (Err AttributeError)
  end.

(** [artifacts["best_params"]]. *)
Definition artifacts_best_params (o : obj) : result params :=
  match o with
  | OArtifacts a => Ok (art_best_params a)
  | _ => Err TypeError
  end.

(** [a[0]]. *)
Definition item0 {A : Type} (l : list A) : result A :=
  match l with
  | x :: _ => Ok x
  | [] => Err IndexError
  end.

(** [for x in l: body], threading the loop's variables. *)
Fixpoint for_each {A S : Type} (l : list A) (body : A -> S -> M S) (s : S) : M S :=
  match l with
  | [] => mret s
  | x :: rest => s' ← body x s; for_each rest body s'
  end.

(** ** Real-time processing *)

Record inference : Type := mkInference {
  anomaly : bool;
  action : string;
  predicted_co2 : option float;
  maintenance_days : option Z
}.

Definition thresholds : gmap string float :=
  list_to_map [("Diesel", 1500%float); ("Petrol", 1200%float); ("CNG", 1000%float)].

(** [thresholds.get(fuel, fallback)]: only a string can be one of the keys. *)
Definition thresholds_get (fuel : value) (fallback : float) : float :=
  match fuel with
  | VStr s => default fallback (thresholds !! s)
  | _ => fallback
  end.

Definition ANOMALY_ACTION : string := "ANOMALY: request more samples or flag MVI".
Definition ALERT_ACTION : string := "ALERT: predicted non-compliance -> notify user + MVI".
Definition NOTICE_ACTION (days : Z) : string :=
  "NOTICE: recommend maintenance within " +:+ pretty days +:+ " days".
Definition OK_ACTION : string := "OK".

(** The one-row frame built from a record; a field that [float] rejects
    raises. *)
Definition record_frame (record : gmap string value) : result DataFrame :=
  engine ← py_float parse_float (dict_get record "engine_size_cm3" (VFloat 0));
  power ← py_float parse_float (dict_get record "power_ps" (VFloat 0));
  let fuel := dict_get record "fuel_type" (VStr "Petrol") in
  let trans := dict_get record "transmission_type" (VStr "Automatic") in
  let manu := dict_get record "manufacturer" (VStr "Unknown") in
  co2 ← py_float parse_float (dict_get record "co2" (VFloat 0));
  Ok (from_record [("engine_size_cm3", VFloat engine);
                   ("power_ps", VFloat power);
                   ("fuel_type", fuel);
                   ("transmission_type", trans);
                   ("manufacturer", manu);
                   (TARGET, VFloat co2)]).

(** The rule that turns the two predictions into an action. *)
Definition decide_action (pred_co2 : float) (maint_days : Z) (limit : float) : string :=
  let compliance := PrimFloat.leb pred_co2 limit in
  if negb compliance then ALERT_ACTION
  else if maint_days <=? 14 then NOTICE_ACTION maint_days
  else OK_ACTION.

Definition process_realtime_record (record : gmap string value) : M inference :=
  (* load preproc and models *)
  preproc ← joblib_load (path_join MODEL_DIR "preproc.joblib");
  booster ← load_model (path_join MODEL_DIR "xgb_co2_model.json");
  iso ← joblib_load (path_join MODEL_DIR "anomaly_if.joblib");
  tree ← joblib_load (path_join MODEL_DIR "maintenance_tree.joblib");
  (* create dataframe from record *)
  df ← lift (record_frame record);
  (* anomaly check using numeric features *)
  X_num ← lift (select df NUMERIC_FEATURES);
  let X_num := df_fillna (VFloat 0) X_num in
  flags ← iso_predict_call iso X_num;
  flag ← lift (item0 flags);
  if flag =? -1 then
    mret (mkInference true ANOMALY_ACTION None None)
  else
    (* predict co2 (use preproc) *)
    X ← lift (select df (NUMERIC_FEATURES ++ CATEGORICAL_FEATURES));
    X_trans ← preproc_transform preproc X;
    let dtest := mkDMatrix X_trans None in
    preds ← invoke (CallBoosterPredict dtest) (booster_predict booster dtest);
    pred_co2 ← lift (item0 preds);
    (* maintenance days prediction *)
    days ← tree_predict_call tree X_trans;
    raw_days ← lift (item0 days);
    maint_days ← lift (py_int raw_days);
    (* compare predicted_co2 to threshold *)
    let fuel := dict_get record "fuel_type" (VStr "Petrol") in
    let limit := thresholds_get fuel 1200 in
    mret (mkInference false (decide_action pred_co2 maint_days limit)
                      (Some pred_co2) (Some maint_days)).

(** ** Training *)

Definition param_grid_eta : list float := [0.01; 0.05; 0.1]%float.
Definition param_grid_max_depth : list Z := [4; 6; 8].
Definition param_grid_subsample : list float := [0.7; 0.9]%float.
Definition param_grid_colsample_bytree : list float := [0.6; 0.8]%float.

Definition fmin (acc x : float) : float :=
  if PrimFloat.ltb x acc then x else acc.

(** [column.min()]: NaN is skipped; NaN when nothing is left. *)
Definition min_skipna (l : list float) : float :=
  match filter (fun x => negb (PrimFloat.is_nan x)) l with
  | [] => nan
  | x :: rest => foldl fmin x rest
  end.

(** The variables the search loop updates: [best_rmse], and [best_params]
    with its [num_boost_round] entry. *)
Definition search_state : Type := float * option (params * nat).

(** The body of the innermost loop of the grid search. *)
Definition grid_step (dtrain : DMatrix) (eta : float) (md : Z) (ss cs : float)
  (st : search_state) : M search_state :=
  let params := mkParams "reg:squarederror" eta md ss cs "hist" 0 in
  cv_results ← invoke (CallCv params dtrain) (xgb_cv params dtrain);
  let rmse := min_skipna cv_results in
  let rounds := length cv_results in
  if PrimFloat.ltb rmse (fst st)
  then mret (rmse, Some (params, rounds))
  else mret st.

Definition grid_search (dtrain : DMatrix) : M search_state :=
  for_each param_grid_eta (fun eta =>
    for_each param_grid_max_depth (fun md =>
      for_each param_grid_subsample (fun ss =>
        for_each param_grid_colsample_bytree (fun cs =>
          grid_step dtrain eta md ss cs))))
    (infinity, None).

(** The cleaned frame without the rows whose target is null, its feature
    columns and its target as floats. *)
Definition training_frame (df : DataFrame) : result (DataFrame * list float) :=
  df ← basic_preprocess parse_numeric df;
  t ← getitem df TARGET;
  let df := filter_rows df (map (fun v => negb (isna v)) (s_values t)) in
  X ← select df (NUMERIC_FEATURES ++ CATEGORICAL_FEATURES);
  t ← getitem df TARGET;
  y ← astype_float parse_float (s_values t);
  Ok (X, y).

Definition train_xgboost (df : DataFrame) (model_path : option string)
  : M (Booster * artifacts) :=
  '(X, y) ← lift (training_frame df);
  (* preprocessor + design matrix *)
  '(preproc, X_trans) ← invoke (CallFitTransform X) (fit_transform X);
  let dtrain := mkDMatrix X_trans (Some y) in
  (* manual grid search with cross validation *)
  '(best_rmse, best_params) ← grid_search dtrain;
  (* final booster on the full training set with the best params *)
  match best_params with
  | None => lift (Err AttributeError)
  | Some (full_params, num_boost) =>
      booster ← invoke (CallTrain full_params dtrain num_boost None)
                       (xgb_train full_params dtrain num_boost None);
      let artifacts := mkArtifacts preproc full_params num_boost in
      let model_path := default (path_join MODEL_DIR "xgb_co2_model.json") model_path in
      _ ← joblib_dump (OPreproc preproc) (path_join MODEL_DIR "preproc.joblib");
      _ ← save_model booster model_path;
      _ ← joblib_dump (OArtifacts artifacts) (path_join MODEL_DIR "artifacts.joblib");
      mret (booster, artifacts)
  end.

(** ** Incremental update *)

Definition incremental_update (new_df : DataFrame)
  (existing_model_path artifacts_path : string) : M Booster :=
  (* load preprocessor / artifacts *)
  preproc ← joblib_load (path_join MODEL_DIR "preproc.joblib");
  artifacts ← joblib_load artifacts_path;
  booster ← load_model existing_model_path;
  (* preprocess new data *)
  '(X, y) ← lift (training_frame new_df);
  X_trans ← preproc_transform preproc X;
  let dnew := mkDMatrix X_trans (Some y) in
  params ← lift (artifacts_best_params artifacts);
  (* continue for a small number of rounds *)
  booster_updated ← invoke (CallTrain params dnew 50 (Some booster))
                           (xgb_train params dnew 50 (Some booster));
  _ ← save_model booster_updated existing_model_path;
  mret booster_updated.

(** ** Anomaly detection *)

Definition build_anomaly_detector (train_df : DataFrame) : M IsoForest :=
  df ← lift (basic_preprocess parse_numeric train_df);
  X ← lift (select df NUMERIC_FEATURES);
  let X := df_fillna (VFloat 0) X in
  iso ← invoke (CallIsoFit X) (iso_fit X);
  _ ← joblib_dump (OIso iso) (path_join MODEL_DIR "anomaly_if.joblib");
  mret iso.

End Engine.

Arguments M {L} A.
Arguments world {L}.
Arguments obj {L}.
Arguments call {L}.
Arguments artifacts {L}.

(** ** A small instance of the interface, for the examples below *)

Module Toy.

Definition cell_float (v : value) : float :=
  match v with
  | VFloat f => f
  | _ => nan
  end.

Definition column (X : DataFrame) (c : string) : list value :=
  default [] (lookup_col c (df_columns X)).

Definition onehot (category : string) (v : value) : float :=
  match v with
  | VStr s => if bool_decide (s = category) then 1%float else 0%float
  | _ => 0%float
  end.

(** A transform fitted once: engine size and power are standardized with
    means 1000 and 100 and scales 500 and 50; the fuel type is one-hot encoded
    over Diesel and Petrol, an unseen category giving zeros.  A null fuel
    type is rejected. *)
Definition scaler_row (e p fuel : value) : list float :=
  [((cell_float e - 1000) / 500)%float; ((cell_float p - 100) / 50)%float;
   onehot "Diesel" fuel; onehot "Petrol" fuel].

Definition scaler_transform (X : DataFrame) : result matrix :=
  if forallb (fun v => negb (isna v)) (column X "fuel_type")
  then Ok (zip_with (fun ep fuel => scaler_row (fst ep) (snd ep) fuel)
             (zip (column X "engine_size_cm3") (column X "power_ps"))
             (column X "fuel_type"))
  else Err ValueError.

(** An outlier detector that flags an engine size above its cut-off. *)
Definition cutoff_predict (cutoff : float) (X : DataFrame) : result (list Z) :=
  Ok (map (fun e => if PrimFloat.ltb cutoff (cell_float e) then -1 else 1)
          (column X "engine_size_cm3")).

(** Cross-validation tables that depend on the depth alone: depth 4 stops
    after two rounds at 5.0, the deeper trees after three rounds at 3.0. *)
Definition cv_rows (p : params) : list float :=
  if max_depth p =? 4 then [9; 5]%float else [9; 4; 3]%float.

Definition cv_table (p : params) (d : DMatrix) : result (list float) :=
  Ok (cv_rows p).

(** The regressor and the tree are constants; training answers the number of
    rounds it was asked for; no string is read as a number. *)
#[export] Instance lib : MLLib := {|
  Preproc := unit;
  Booster := float;
  IsoForest := float;
  DTree := float;
  parse_float := fun _ => None;
  parse_numeric := fun _ => None;
  fit_transform := fun X => t ← scaler_transform X; Ok (tt, t);
  transform := fun _ X => scaler_transform X;
  iso_fit := fun _ => Ok 10000%float;
  iso_predict := cutoff_predict;
  booster_predict := fun b d => Ok (map (fun _ => b) (dm_data d));
  tree_predict := fun t X => Ok (map (fun _ => t) X);
  xgb_cv := cv_table;
  xgb_train := fun p d n _ => Ok (Z2float (Z.of_nat n))
|}.

(** A model directory holding the four artifacts: the regressor predicts
    [co2] and the tree [days] for every record. *)
Definition model_dir (co2 days : float) : gmap string obj :=
  list_to_map [("models/preproc.joblib", OPreproc tt);
               ("models/xgb_co2_model.json", OBooster co2);
               ("models/anomaly_if.joblib", OIso 10000%float);
               ("models/maintenance_tree.joblib", OTree days)].

Definition start (co2 days : float) : world := mkWorld (model_dir co2 days) [].

(** A model directory after training: the transform, a regressor and the
    record of its parameters. *)
Definition trained : world :=
  mkWorld (list_to_map
             [("models/preproc.joblib", OPreproc tt);
              ("models/xgb_co2_model.json", OBooster 3%float);
              ("models/artifacts.joblib",
               OArtifacts (mkArtifacts tt
                 (mkParams "reg:squarederror" 0.01 6 0.7 0.6 "hist" 0) 3))]) [].

(** A reading of a small car, with a given fuel type. *)
Definition reading (fuel : string) : gmap string value :=
  list_to_map [("engine_size_cm3", VFloat 1200); ("power_ps", VFloat 90);
               ("fuel_type", VStr fuel); ("transmission_type", VStr "Manual");
               ("co2", VFloat 110)].

(** The same reading with an engine size far beyond the detector's cut-off. *)
Definition outlier : gmap string value :=
  <["engine_size_cm3" := VFloat 50000]> (reading "Petrol").

(** A frame without a fuel-type column whose labels are not 0, 1: what is
    left of a longer frame after its first rows were filtered out. *)
Definition filtered_batch : DataFrame :=
  mkFrame [5; 6]
    [("engine_size_cm3", [VFloat 1200; VFloat 1600]);
     ("power_ps", [VFloat 90; VFloat 120]);
     (TARGET, [VFloat 110; VFloat 150])].

(** The same rows with their manufacturer: a batch for an update. *)
Definition stale_batch : DataFrame :=
  mkFrame [5; 6]
    [("engine_size_cm3", [VFloat 1200; VFloat 1600]);
     ("power_ps", [VFloat 90; VFloat 120]);
     ("manufacturer", [VStr "A"; VStr "B"]);
     (TARGET, [VFloat 110; VFloat 150])].

(** The feature frame cleaning makes of [stale_batch]: the fuel type is
    null. *)
Definition stale_X : DataFrame :=
  mkFrame [5; 6]
    [("engine_size_cm3", [VFloat 1200; VFloat 1600]);
     ("power_ps", [VFloat 90; VFloat 120]);
     ("fuel_type", [VFloat nan; VFloat nan]);
     ("transmission_type", [VStr "Automatic"; VStr "Automatic"]);
     ("manufacturer", [VStr "A"; VStr "B"])].

(** What cleaning makes of [filtered_batch], up to its fuel-type column. *)
Definition cleaned (fuel : list value) : DataFrame :=
  mkFrame [5; 6]
    [("engine_size_cm3", [VFloat 1200; VFloat 1600]);
     ("power_ps", [VFloat 90; VFloat 120]);
     (TARGET, [VFloat 110; VFloat 150]);
     ("transmission_type", [VStr "Automatic"; VStr "Automatic"]);
     ("fuel_type", fuel)].

(** A training batch with every feature column. *)
Definition training_batch : DataFrame :=
  mkFrame [0; 1]
    [("engine_size_cm3", [VFloat 1200; VFloat 1600]);
     ("power_ps", [VFloat 90; VFloat 120]);
     ("fuel_type", [VStr "Petrol"; VStr "Diesel"]);
     ("manufacturer", [VStr "A"; VStr "B"]);
     (TARGET, [VFloat 110; VFloat 150])].

(** The frame the call builds from [reading fuel] and from [outlier]. *)
Definition reading_frame (engine : float) (fuel : string) : DataFrame :=
  mkFrame [0]
    [("engine_size_cm3", [VFloat engine]); ("power_ps", [VFloat 90]);
     ("fuel_type", [VStr fuel]); ("transmission_type", [VStr "Manual"]);
     ("manufacturer", [VStr "Unknown"]); (TARGET, [VFloat 110])].

Definition reading_numeric (engine : float) : DataFrame :=
  mkFrame [0] [("engine_size_cm3", [VFloat engine]); ("power_ps", [VFloat 90])].

(** Whether the first cell of the first column is the float 1200. *)
Definition first_cell_is_1200 (cols : list (list value)) : bool :=
  match cols with
  | (VFloat f :: _) :: _ => PrimFloat.eqb f 1200
  | _ => false
  end.

(** The feature frame and the target of [training_batch] once cleaned. *)
Definition training_X : DataFrame :=
  mkFrame [0; 1]
    [("engine_size_cm3", [VFloat 1200; VFloat 1600]);
     ("power_ps", [VFloat 90; VFloat 120]);
     ("fuel_type", [VStr "Petrol"; VStr "Diesel"]);
     ("transmission_type", [VStr "Automatic"; VStr "Automatic"]);
     ("manufacturer", [VStr "A"; VStr "B"])].

Definition training_y : list float := [110; 150]%float.

End Toy.

(** ** The runs of the inference call *)

Section Runs.

Context {L : MLLib}.

(** The four artifacts load: the regressor file holds a booster, the others
    hold some object. *)
Definition artifacts_load (w : world) (pre : obj) (b : Booster) (iso tree : obj) : Prop :=
  files w !! path_join MODEL_DIR "preproc.joblib" = Some pre /\
  files w !! path_join MODEL_DIR "xgb_co2_model.json" = Some (OBooster b) /\
  files w !! path_join MODEL_DIR "anomaly_if.joblib" = Some iso /\
  files w !! path_join MODEL_DIR "maintenance_tree.joblib" = Some tree.

(** The call reaches the gate, which is handed [X_num] and answers [flag]
    for the record. *)
Inductive gated (record : gmap string value) (w : world)
  (df X_num : DataFrame) (flag : Z) : Prop :=
| Gated (pre : obj) (b : Booster) (i : IsoForest) (tree : obj)
    (X0 : DataFrame) (flags : list Z) :
    artifacts_load w pre b (OIso i) tree ->
    record_frame record = Ok df ->
    select df NUMERIC_FEATURES = Ok X0 ->
    X_num = df_fillna (VFloat 0) X0 ->
    iso_predict i X_num = Ok (flag :: flags) ->
    gated record w df X_num flag.

(** The record is not flagged, and the transform, the regressor and the tree
    answer: the regressor predicts [pred_co2], the tree [raw_days], which
    [int] turns into [maint_days]. *)
Inductive non_anomalous_run (record : gmap string value) (w : world)
  (pred_co2 raw_days : float) (maint_days : Z) : Prop :=
| NonAnomalous (p : Preproc) (b : Booster) (iso : obj) (t : DTree)
    (df X_num X : DataFrame) (flag : Z) (X_trans : matrix)
    (preds days : list float) :
    artifacts_load w (OPreproc p) b iso (OTree t) ->
    gated record w df X_num flag ->
    flag <> -1 ->
    select df (NUMERIC_FEATURES ++ CATEGORICAL_FEATURES) = Ok X ->
    transform p X = Ok X_trans ->
    booster_predict b (mkDMatrix X_trans None) = Ok (pred_co2 :: preds) ->
    tree_predict t X_trans = Ok (raw_days :: days) ->
    py_int raw_days = Ok maint_days ->
    non_anomalous_run record w pred_co2 raw_days maint_days.

(** The compliance limit the call uses for a record. *)
Definition limit_of (record : gmap string value) : float :=
  thresholds_get (dict_get record "fuel_type" (VStr "Petrol")) 1200.

End Runs.

(** ** Statements about the calls *)

Section Statements.

Context {L : MLLib}.

(** The computation leaves the files as they are. *)
Definition read_only {A : Type} (m : M A) : Prop :=
  forall w, files (snd (m w)) = files w.

(** The computation only adds calls at the end of the log. *)
Definition appends {A : Type} (m : M A) : Prop :=
  forall w, exists cs, calls (snd (m w)) = calls w ++ cs.

(** A computation that, when it raises, has left the files as they were. *)
Definition failure_keeps_files {A : Type} (m : M A) : Prop :=
  forall w e w', m w = (Err e, w') -> files w' = files w.

(** The numeric part of a transformed matrix, as columns: the standardized
    engine size and power come first in the output of the transform. *)
Definition numeric_projection (X_trans : matrix) : list (list value) :=
  [map (fun row => VFloat (nth 0 row nan)) X_trans;
   map (fun row => VFloat (nth 1 row nan)) X_trans].

(** The reading under which the gate is handed the numeric projection of the
    transform: every frame passed to the gate holds the first two columns of
    what the persisted transform makes of the record. *)
Definition gate_gets_transformed_input (record : gmap string value) (w : world) : Prop :=
  forall X_gate, CallIsoPredict X_gate ∈ calls (snd (process_realtime_record record w)) ->
  exists p df X X_trans,
    files w !! path_join MODEL_DIR "preproc.joblib" = Some (OPreproc p) /\
    record_frame record = Ok df /\
    select df (NUMERIC_FEATURES ++ CATEGORICAL_FEATURES) = Ok X /\
    transform p X = Ok X_trans /\
    map snd (df_columns X_gate) = numeric_projection X_trans.

(** The two numeric fields of a record as they are, NaN replaced by 0.0. *)
Definition raw_numeric (engine power : float) : DataFrame :=
  mkFrame [0] [("engine_size_cm3", [fillna_cell (VFloat 0) (VFloat engine)]);
               ("power_ps", [fillna_cell (VFloat 0) (VFloat power)])].

(** The reading under which the observed CO2 plays no part: two records that
    agree on every other field get the same answer. *)
Definition co2_blind (r1 r2 : gmap string value) (w : world) : Prop :=
  delete "co2" r1 = delete "co2" r2 ->
  process_realtime_record r1 w = process_realtime_record r2 w.

(** What is left of the call once the record has passed the gate. *)
Definition after_flag (record : gmap string value) (pre : obj) (b : Booster)
  (tree : obj) (df : DataFrame) : M inference :=
  X ← lift (select df (NUMERIC_FEATURES ++ CATEGORICAL_FEATURES));
  X_trans ← preproc_transform pre X;
  let dtest := mkDMatrix X_trans None in
  preds ← invoke (CallBoosterPredict dtest) (booster_predict b dtest);
  pred_co2 ← lift (item0 preds);
  days ← tree_predict_call tree X_trans;
  raw_days ← lift (item0 days);
  maint_days ← lift (py_int raw_days);
  mret (mkInference false (decide_action pred_co2 maint_days (limit_of record))
                    (Some pred_co2) (Some maint_days)).

(** What is left of the call once the gate has been handed its input. *)
Definition after_gate (record : gmap string value) (pre : obj) (b : Booster)
  (i : IsoForest) (tree : obj) (df X_num : DataFrame) : M inference :=
  flags ← lift (iso_predict i X_num);
  flag ← lift (item0 flags);
  if flag =? -1 then
    mret (mkInference true ANOMALY_ACTION None None)
  else
    after_flag record pre b tree df.

(** The reading under which a transform that is missing, or that rejects
    the batch, is reported by an exception of its own: the update raises
    [StaleTransformError] and leaves the files as they were. *)
Definition stale_transform_reported (new_df : DataFrame)
  (existing_model_path artifacts_path : string) (w : world) : Prop :=
  files w !! path_join MODEL_DIR "preproc.joblib" = None \/
  (exists p X y e,
     files w !! path_join MODEL_DIR "preproc.joblib" = Some (OPreproc p) /\
     training_frame new_df = Ok (X, y) /\ transform p X = Err e) ->
  fst (incremental_update new_df existing_model_path artifacts_path w) =
    Err (Raise "StaleTransformError") /\
  files (snd (incremental_update new_df existing_model_path artifacts_path w)) = files w.

(** The parameters of one combination. *)
Definition combination (eta : float) (md : Z) (ss cs : float) : params :=
  mkParams "reg:squarederror" eta md ss cs "hist" 0.

(** The grid, in the order of the four nested loops: the learning rate
    varies slowest, the column subsample fastest. *)
Definition grid : list params :=
  eta ← param_grid_eta; md ← param_grid_max_depth;
  ss ← param_grid_subsample; cs ← param_grid_colsample_bytree;
  [combination eta md ss cs].

(** What one iteration does to the loop's variables, given the
    cross-validation table of each combination. *)
Definition search_step (cv : params -> list float) (st : search_state) (p : params)
  : search_state :=
  if PrimFloat.ltb (min_skipna (cv p)) (fst st)
  then (min_skipna (cv p), Some (p, length (cv p)))
  else st.

Definition search (cv : params -> list float) (l : list params) : search_state :=
  foldl (search_step cv) (infinity, None) l.

(** The loop's variables after a prefix [seen] of the grid: nothing seen
    scores below [best_rmse], and [best_params] is the first combination seen
    that reached it. *)
Definition search_invariant (cv : params -> list float) (seen : list params)
  (st : search_state) : Prop :=
  (forall q, q ∈ seen -> PrimFloat.ltb (min_skipna (cv q)) (fst st) = false) /\
  match snd st with
  | None => fst st = infinity
  | Some (p, rounds) =>
      fst st = min_skipna (cv p) /\ rounds = length (cv p) /\
      exists before after,
        seen = before ++ p :: after /\
        forall q, q ∈ before ->
          PrimFloat.leb (min_skipna (cv q)) (min_skipna (cv p)) = false
  end.

End Statements.

(** ** Clean frames *)

(** A cell that is not null. *)
Definition notna (v : value) : bool := negb (isna v).

(** A cell that holds a number, neither NaN nor below zero. *)
Definition nonneg (v : value) : bool :=
  match v with
  | VFloat f => negb (PrimFloat.is_nan f) && PrimFloat.leb 0 f
  | _ => false
  end.

(** Column [c] of the frame is as long as the index and every cell of it
    satisfies [ok]. *)
Definition column_ok (ok : value -> bool) (c : string) (df : DataFrame) : Prop :=
  exists vs, lookup_col c (df_columns df) = Some vs /\
             length vs = len df /\ forallb ok vs = true.

(** What cleaning establishes. *)
Definition is_clean (df : DataFrame) : Prop :=
  column_ok notna "transmission_type" df /\
  column_ok notna "fuel_type" df /\
  column_ok nonneg "engine_size_cm3" df /\
  column_ok nonneg "power_ps" df /\
  column_ok nonneg TARGET df.

(** What the closing loop makes of one cell. *)
Definition clean_cell (parse : string -> option float) (v : value) : value :=
  clip_lower_cell 0 (fillna_cell (VFloat 0) (to_numeric_cell parse v)).

(** The frame [df'] is [df] with column [c] replaced or added. *)
Definition updates (c : string) (df df' : DataFrame) : Prop :=
  df_index df' = df_index df /\
  exists vs, df_columns df' = set_col c vs (df_columns df).

(** The mantissas of 15.0 and 14.0, whose exponent is -49. *)
Definition m15 : positive := 8444249301319680.
Definition m14 : positive := 7881299347898368.

(** ** Further statements about the inference call *)

Section InferenceStatements.

Context {L : MLLib}.

(** Every value the computation returns satisfies [P]. *)
Definition returns {A : Type} (m : M A) (P : A -> Prop) : Prop :=
  forall w a w', m w = (Ok a, w') -> P a.

(** The two shapes of a result: the anomaly result without predictions, or
    the full result whose action is decided from its two predictions. *)
Definition result_shape (record : gmap string value) (res : inference) : Prop :=
  (anomaly res = true /\ action res = ANOMALY_ACTION /\
   predicted_co2 res = None /\ maintenance_days res = None) \/
  (anomaly res = false /\
   exists pred_co2 maint_days,
     predicted_co2 res = Some pred_co2 /\ maintenance_days res = Some maint_days /\
     action res = decide_action pred_co2 maint_days (limit_of record)).

(** The fields the call reads, each with the value it takes when the key is
    absent. *)
Definition record_defaults : list (string * value) :=
  [("engine_size_cm3", VFloat 0); ("power_ps", VFloat 0);
   ("fuel_type", VStr "Petrol"); ("transmission_type", VStr "Automatic");
   ("manufacturer", VStr "Unknown"); ("co2", VFloat 0)].

(** The frame the transform is handed for a record: its five feature values
    as given, the two numeric ones as [float] read them. *)
Definition record_features (record : gmap string value) (engine power : float)
  : DataFrame :=
  from_record [("engine_size_cm3", VFloat engine);
               ("power_ps", VFloat power);
               ("fuel_type", dict_get record "fuel_type" (VStr "Petrol"));
               ("transmission_type",
                dict_get record "transmission_type" (VStr "Automatic"));
               ("manufacturer", dict_get record "manufacturer" (VStr "Unknown"))].

(** The paths of the four artifacts the call loads. *)
Definition artifact_paths : list string :=
  [path_join MODEL_DIR "preproc.joblib"; path_join MODEL_DIR "xgb_co2_model.json";
   path_join MODEL_DIR "anomaly_if.joblib"; path_join MODEL_DIR "maintenance_tree.joblib"].

End InferenceStatements.

(** ** Statements about cleaning *)

(** Every column is as long as the index and no two columns share a name:
    the frames on which a column read by its name is a series. *)
Definition well_formed (df : DataFrame) : Prop :=
  Forall (fun kv => length (snd kv) = len df) (df_columns df) /\
  NoDup (map fst (df_columns df)).

(** The label is one of 0, ..., n-1. *)
Definition in_range (n : nat) (l : Z) : bool := (0 <=? l) && (l <? Z.of_nat n).

(** The column a constant series labelled 0, ..., n-1 leaves in the frame:
    its value at the labels it has, NaN at the others. *)
Definition aligned_const (df : DataFrame) (v : value) : list value :=
  map (fun l => if in_range (len df) l then v else VFloat nan) (df_index df).

(** The five columns of a cleaned frame, from the columns of the frame that
    was cleaned. *)
Definition transmission_cleaned (df : DataFrame) : list value :=
  match lookup_col "transmission_type" (df_columns df) with
  | Some tr => map (fillna_cell (VStr "Automatic")) tr
  | None => replicate (len df) (VStr "Automatic")
  end.

Definition fuel_cleaned (df : DataFrame) : list value :=
  match lookup_col "fuel_type" (df_columns df) with
  | Some fu => map (fillna_cell (VStr "Petrol")) fu
  | None => aligned_const df (VStr "Petrol")
  end.

(** The power column before the closing loop: read as numbers, 0.0 where it
    is null and the target is zero, the median of what is then there where it
    is still null. *)
Definition power_numeric (parse : string -> option float) (df : DataFrame) : list value :=
  match lookup_col "power_ps" (df_columns df) with
  | Some po => map (to_numeric_cell parse) po
  | None => replicate (len df) (VFloat 0)
  end.

Definition power_zeroed (parse : string -> option float) (df : DataFrame)
  (target : list value) : list value :=
  let p := power_numeric parse df in
  loc_set (zip_with andb (map isna p) (map eq_zero_cell target)) (VFloat 0) p.

Definition power_cleaned (parse : string -> option float) (df : DataFrame)
  (target : list value) : list value :=
  let p := power_zeroed parse df target in
  map (clean_cell parse)
      (map (fillna_cell (VFloat (median (mkSeries (df_index df) p)))) p).

(** The columns cleaning reads or writes. *)
Definition cleaned_names : list string :=
  ["transmission_type"; "engine_size_cm3"; "power_ps"; "fuel_type"; TARGET].

(** What cleaning makes of a frame whose engine-size and target columns are
    [engine] and [target]. *)
Definition cleaned_as (parse : string -> option float) (df : DataFrame)
  (engine target : list value) (out : DataFrame) : Prop :=
  df_index out = df_index df /\
  well_formed out /\
  lookup_col "transmission_type" (df_columns out) = Some (transmission_cleaned df) /\
  lookup_col "fuel_type" (df_columns out) = Some (fuel_cleaned df) /\
  lookup_col "engine_size_cm3" (df_columns out) = Some (map (clean_cell parse) engine) /\
  lookup_col "power_ps" (df_columns out) = Some (power_cleaned parse df target) /\
  lookup_col TARGET (df_columns out) = Some (map (clean_cell parse) target) /\
  forall c, c ∉ cleaned_names ->
            lookup_col c (df_columns out) = lookup_col c (df_columns df).

(** ** Loading a dataset *)

(** The column mapping, in the order of its entries. *)
Definition COL_MAP : list (string * string) :=
  [("car_id", "car_id"); ("manufacturer", "manufacturer"); ("model", "model");
   ("transmission_type", "transmission_type"); ("engine_size_cm3", "engine_size_cm3");
   ("fuel_type", "fuel_type"); ("power_ps", "power_ps"); ("co2", TARGET)].

(** [df.rename(columns={k: v}, inplace=True)]: every column named [k] is
    named [v]; the values and the order stay. *)
Definition rename (df : DataFrame) (k v : string) : DataFrame :=
  mkFrame (df_index df)
          (map (fun kv => (if bool_decide (fst kv = k) then v else fst kv, snd kv))
               (df_columns df)).

(** The loop over the mapping. *)
Definition rename_columns (df : DataFrame) : DataFrame :=
  foldl (fun df kv =>
           if has_col df (fst kv) && negb (has_col df (snd kv))
           then rename df (fst kv) (snd kv)
           else df)
        df COL_MAP.

(** ** The maintenance labels *)

Definition fmax (acc x : float) : float :=
  if PrimFloat.ltb acc x then x else acc.

(** [column.max()]: NaN is skipped; NaN when nothing is left. *)
Definition max_skipna (l : list float) : float :=
  match filter (fun x => negb (PrimFloat.is_nan x)) l with
  | [] => nan
  | x :: rest => foldl fmax x rest
  end.

(** [np.maximum(a, b)] on two floats: NaN if either is NaN. *)
Definition np_maximum (a b : float) : float :=
  if PrimFloat.is_nan a || PrimFloat.is_nan b then nan
  else if PrimFloat.ltb a b then b else a.

(** A cell as an operand of float arithmetic.  The columns the engine
    computes with hold floats once cleaned; a string is no operand. *)
Definition operand (v : value) : result float :=
  match v with
  | VFloat f => Ok f
  | VInt z => Ok (Z2float z)
  | VNone => Ok nan
  | VStr _ => Err TypeError
  end.

Fixpoint operands (vs : list value) : result (list float) :=
  match vs with
  | [] => Ok []
  | v :: rest => f ← operand v; fs ← operands rest; Ok (f :: fs)
  end.

(** [np.maximum(7, 180 - (t / t.max()) * 180)]. *)
Definition maintenance_labels (t : list float) : list float :=
  let top := max_skipna t in
  map (fun x => np_maximum 7 (180 - (x / top) * 180)%float) t.

(** ** The rest of the pipeline *)

(** What the pipeline takes from its libraries besides the estimators of
    [MLLib]: the CSV reader, the split, the fit of the tree and the two
    metrics. *)
Class Toolkit (L : MLLib) : Type := {
  read_csv : string -> result DataFrame;
  train_test_split : DataFrame -> result (DataFrame * DataFrame);
  tree_fit : matrix -> list float -> result DTree;
  mean_squared_error : list float -> list float -> result float;
  r2_score : list float -> list float -> result float
}.

Definition SystemExit : exn := Raise "SystemExit".

Section Pipeline.

Context {L : MLLib} {T : Toolkit L}.

Definition load_dataset (path : string) : result DataFrame :=
  df ← read_csv path;
  Ok (rename_columns df).

Definition train_maintenance_tree (df : DataFrame) : M DTree :=
  df ← lift (basic_preprocess parse_numeric df);
  X ← lift (select df (NUMERIC_FEATURES ++ CATEGORICAL_FEATURES));
  (* labels: higher co2, shorter interval *)
  t ← lift (getitem df TARGET);
  t ← lift (operands (s_values t));
  let y := maintenance_labels t in
  (* preprocess features *)
  preproc ← joblib_load (path_join MODEL_DIR "preproc.joblib");
  X_trans ← preproc_transform preproc X;
  tree ← lift (tree_fit X_trans y);
  _ ← joblib_dump (OTree tree) (path_join MODEL_DIR "maintenance_tree.joblib");
  mret tree.

Definition evaluate_on_test (booster : Booster) (df_test : DataFrame) : M (float * float) :=
  preproc ← joblib_load (path_join MODEL_DIR "preproc.joblib");
  X_test ← lift (select df_test (NUMERIC_FEATURES ++ CATEGORICAL_FEATURES));
  t ← lift (getitem df_test TARGET);
  y_test ← lift (astype_float parse_float (s_values t));
  Xt ← preproc_transform preproc X_test;
  let dtest := mkDMatrix Xt None in
  preds ← invoke (CallBoosterPredict dtest) (booster_predict booster dtest);
  mse ← lift (mean_squared_error y_test preds);
  let rmse := PrimFloat.sqrt mse in
  r2 ← lift (r2_score y_test preds);
  mret (rmse, r2).

(** The training branch of the command line: [train_csv] is the value of
    [--train_csv], [do_anomaly] that of [--do_anomaly]. *)
Definition do_train (train_csv : option string) (do_anomaly : bool) : M unit :=
  match train_csv with
  | None => lift (Err SystemExit)
  | Some path =>
      df ← lift (load_dataset path);
      df ← lift (basic_preprocess parse_numeric df);
      (* split *)
      '(train_df, test_df) ← lift (train_test_split df);
      '(booster, artifacts) ← train_xgboost train_df None;
      _ ← joblib_dump (OArtifacts artifacts) (path_join MODEL_DIR "artifacts.joblib");
      _ ← evaluate_on_test booster test_df;
      _ ← (if do_anomaly
           then _ ← build_anomaly_detector train_df; mret tt
           else mret tt);
      (* train maintenance tree *)
      _ ← train_maintenance_tree train_df;
      mret tt
  end.

End Pipeline.

(** ** A small fleet, for the examples below *)

Module Fleet.

(** Five cars as a file has them: the first is electric, without a power
    and with zero emissions; the third has no power; the last has no
    emissions reading; one fuel type is missing and there is no
    transmission-type column. *)
Definition columns (co2 : string) : list (string * list value) :=
  [("engine_size_cm3", [VFloat 0; VFloat 1600; VFloat 2000; VFloat 1000; VFloat 1400]);
   ("power_ps", [VNone; VFloat 120; VFloat nan; VFloat 80; VFloat 100]);
   ("fuel_type", [VStr "Electric"; VStr "Diesel"; VNone; VStr "Petrol"; VStr "Petrol"]);
   ("manufacturer", [VStr "A"; VStr "B"; VStr "C"; VStr "D"; VStr "E"]);
   (co2, [VFloat 0; VFloat 150; VFloat 200; VFloat 100; VNone])].

(** The frame as read from the file, with a "co2" column, and as loaded. *)
Definition file : DataFrame := mkFrame [0; 1; 2; 3; 4] (columns "co2").
Definition fleet : DataFrame := mkFrame [0; 1; 2; 3; 4] (columns TARGET).

Definition target : list value := [VFloat 0; VFloat 150; VFloat 200; VFloat 100; VNone].

(** The fleet once cleaned. *)
Definition cleaned : DataFrame :=
  mkFrame [0; 1; 2; 3; 4]
    [("engine_size_cm3", [VFloat 0; VFloat 1600; VFloat 2000; VFloat 1000; VFloat 1400]);
     ("power_ps", [VFloat 0; VFloat 120; VFloat 90; VFloat 80; VFloat 100]);
     ("fuel_type", [VStr "Electric"; VStr "Diesel"; VStr "Petrol"; VStr "Petrol";
                    VStr "Petrol"]);
     ("manufacturer", [VStr "A"; VStr "B"; VStr "C"; VStr "D"; VStr "E"]);
     (TARGET, [VFloat 0; VFloat 150; VFloat 200; VFloat 100; VFloat 0]);
     ("transmission_type", [VStr "Automatic"; VStr "Automatic"; VStr "Automatic";
                            VStr "Automatic"; VStr "Automatic"])].

(** Its feature columns, in the order training asks for them. *)
Definition features : DataFrame :=
  mkFrame [0; 1; 2; 3; 4]
    [("engine_size_cm3", [VFloat 0; VFloat 1600; VFloat 2000; VFloat 1000; VFloat 1400]);
     ("power_ps", [VFloat 0; VFloat 120; VFloat 90; VFloat 80; VFloat 100]);
     ("fuel_type", [VStr "Electric"; VStr "Diesel"; VStr "Petrol"; VStr "Petrol";
                    VStr "Petrol"]);
     ("transmission_type", [VStr "Automatic"; VStr "Automatic"; VStr "Automatic";
                            VStr "Automatic"; VStr "Automatic"]);
     ("manufacturer", [VStr "A"; VStr "B"; VStr "C"; VStr "D"; VStr "E"])].

(** A split that keeps the last row for the test. *)
Definition split (df : DataFrame) : result (DataFrame * DataFrame) :=
  let n := len df in
  if bool_decide (n < 2)%nat then Err ValueError
  else Ok (filter_rows df (replicate (n - 1) true ++ [false]),
           filter_rows df (replicate (n - 1) false ++ [true])).

(** The rest of the pipeline for [Toy.lib]: one file, the split above, a tree
    that answers its least label, and constant metrics. *)
#[export] Instance tools : Toolkit Toy.lib := {|
  read_csv := fun path =>
    if bool_decide (path = "fleet.csv") then Ok file else Err FileNotFoundError;
  train_test_split := split;
  tree_fit := fun _ y => Ok (min_skipna y : @DTree Toy.lib);
  mean_squared_error := fun _ _ => Ok 4%float;
  r2_score := fun _ _ => Ok 1%float
|}.

(** Estimators as in [Toy.lib], but for a cross-validation that never gives
    a score. *)
Definition scoreless : MLLib := {|
  Preproc := @Preproc Toy.lib;
  Booster := @Booster Toy.lib;
  IsoForest := @IsoForest Toy.lib;
  DTree := @DTree Toy.lib;
  parse_float := @parse_float Toy.lib;
  parse_numeric := @parse_numeric Toy.lib;
  fit_transform := @fit_transform Toy.lib;
  transform := @transform Toy.lib;
  iso_fit := @iso_fit Toy.lib;
  iso_predict := @iso_predict Toy.lib;
  booster_predict := @booster_predict Toy.lib;
  tree_predict := @tree_predict Toy.lib;
  xgb_cv := fun _ _ => Ok [nan];
  xgb_train := @xgb_train Toy.lib
|}.

End Fleet.

(** * Properties *)

(** ** The order of binary64 values *)

Module FloatOrder.

Ltac compare_cases :=
  repeat match goal with
  | |- context [PosDef.Pos.compare_cont Eq ?a ?b] =>
      change (PosDef.Pos.compare_cont Eq a b) with (Pos.compare a b)
  | H : context [PosDef.Pos.compare_cont Eq ?a ?b] |- _ =>
      change (PosDef.Pos.compare_cont Eq a b) with (Pos.compare a b) in H
  | |- context [Z.compare ?a ?b] => destruct (Z.compare_spec a b)
  | H : context [Z.compare ?a ?b] |- _ => destruct (Z.compare_spec a b)
  | |- context [Pos.compare ?a ?b] => destruct (Pos.compare_spec a b)
  | H : context [Pos.compare ?a ?b] |- _ => destruct (Pos.compare_spec a b)
  end.

Ltac spec_order :=
  unfold SFltb, SFleb, SFeqb, SFcompare; intros;
  repeat match goal with x : spec_float |- _ => destruct x as [[]|[]| |[] ? ?] end;
  try discriminate; try reflexivity;
  compare_cases; simpl in *; try discriminate; try reflexivity; try lia.

Lemma SFltb_trans (a b c : spec_float) :
  SFltb a b = true -> SFltb b c = true -> SFltb a c = true.
Proof. revert a b c. spec_order. Qed.

Lemma SFleb_ltb_trans (a b c : spec_float) :
  SFleb a b = true -> SFltb b c = true -> SFltb a c = true.
Proof. revert a b c. spec_order. Qed.

Lemma SFltb_leb_false (a b : spec_float) :
  SFltb a b = true -> SFleb b a = false.
Proof. revert a b. spec_order. Qed.

Lemma SFltb_irrefl (a : spec_float) : SFltb a a = false.
Proof. revert a. spec_order. Qed.

Lemma SFeqb_leb (a b : spec_float) : SFeqb a b = true -> SFleb a b = true.
Proof. unfold SFeqb, SFleb. destruct (SFcompare a b) as [[]|]; congruence. Qed.

Lemma ltb_trans (x y z : float) :
  PrimFloat.ltb x y = true -> PrimFloat.ltb y z = true -> PrimFloat.ltb x z = true.
Proof. rewrite !FloatAxioms.ltb_spec. apply SFltb_trans. Qed.

Lemma leb_ltb_trans (x y z : float) :
  PrimFloat.leb x y = true -> PrimFloat.ltb y z = true -> PrimFloat.ltb x z = true.
Proof. rewrite FloatAxioms.leb_spec, !FloatAxioms.ltb_spec. apply SFleb_ltb_trans. Qed.

Lemma ltb_leb_false (x y : float) :
  PrimFloat.ltb x y = true -> PrimFloat.leb y x = false.
Proof. rewrite FloatAxioms.ltb_spec, FloatAxioms.leb_spec. apply SFltb_leb_false. Qed.

Lemma ltb_irrefl (x : float) : PrimFloat.ltb x x = false.
Proof. rewrite FloatAxioms.ltb_spec. apply SFltb_irrefl. Qed.

Lemma eqb_leb (x y : float) :
  PrimFloat.eqb x y = true -> PrimFloat.leb x y = true.
Proof. rewrite FloatAxioms.eqb_spec, FloatAxioms.leb_spec. apply SFeqb_leb. Qed.

End FloatOrder.

(** ** Stepping through a computation *)

Section Steps.

Context {L : MLLib}.

Lemma bind_ok {A B : Type} (m : M A) (f : A -> M B) (w w' : world) (a : A) :
  m w = (Ok a, w') -> (m ≫= f) w = f a w'.
Proof. intros H. unfold mbind, M_bind. now rewrite H. Qed.

Lemma bind_err {A B : Type} (m : M A) (f : A -> M B) (w w' : world) (e : exn) :
  m w = (Err e, w') -> (m ≫= f) w = (Err e, w').
Proof. intros H. unfold mbind, M_bind. now rewrite H. Qed.

Lemma joblib_load_ok (path : string) (w : world) (o : obj) :
  files w !! path = Some o -> joblib_load path w = (Ok o, w).
Proof. intros H. unfold joblib_load. now rewrite H. Qed.

Lemma load_model_ok (path : string) (w : world) (b : Booster) :
  files w !! path = Some (OBooster b) -> load_model path w = (Ok b, w).
Proof. intros H. unfold load_model. now rewrite H. Qed.

Lemma lift_ok {A : Type} (r : result A) (a : A) (w : world) :
  r = Ok a -> lift r w = (Ok a, w).
Proof. now intros ->. Qed.

Lemma invoke_ok {A : Type} (c : call) (r : result A) (a : A) (w : world) :
  r = Ok a -> invoke c r w = (Ok a, mkWorld (files w) (calls w ++ [c])).
Proof. now intros ->. Qed.

Lemma invoke_err {A : Type} (c : call) (r : result A) (e : exn) (w : world) :
  r = Err e -> invoke c r w = (Err e, mkWorld (files w) (calls w ++ [c])).
Proof. now intros ->. Qed.

(** The four loads and the hand-over to the gate. *)
Lemma process_to_gate (record : gmap string value) (w : world)
  (pre : obj) (b : Booster) (i : IsoForest) (tree : obj) (df X0 : DataFrame) :
  artifacts_load w pre b (OIso i) tree ->
  record_frame record = Ok df ->
  select df NUMERIC_FEATURES = Ok X0 ->
  process_realtime_record record w =
    after_gate record pre b i tree df (df_fillna (VFloat 0) X0)
      (mkWorld (files w) (calls w ++ [CallIsoPredict (df_fillna (VFloat 0) X0)])).
Proof.
  intros (Hp & Hb & Hi & Ht) Hdf HX0.
  unfold process_realtime_record.
  rewrite (bind_ok _ _ _ _ _ (joblib_load_ok _ _ _ Hp)).
  rewrite (bind_ok _ _ _ _ _ (load_model_ok _ _ _ Hb)).
  rewrite (bind_ok _ _ _ _ _ (joblib_load_ok _ _ _ Hi)).
  rewrite (bind_ok _ _ _ _ _ (joblib_load_ok _ _ _ Ht)).
  rewrite (bind_ok _ _ _ _ _ (lift_ok _ _ _ Hdf)).
  rewrite (bind_ok _ _ _ _ _ (lift_ok _ _ _ HX0)).
  reflexivity.
Qed.

(** The call up to the test of the flag. *)
Lemma process_gate (record : gmap string value) (w : world)
  (df X_num : DataFrame) (flag : Z) :
  gated record w df X_num flag ->
  exists pre b i tree,
    artifacts_load w pre b (OIso i) tree /\
    process_realtime_record record w =
    (if flag =? -1 then mret (mkInference true ANOMALY_ACTION None None)
     else after_flag record pre b tree df)
      (mkWorld (files w) (calls w ++ [CallIsoPredict X_num])).
Proof.
  intros [pre b i tree X0 flags Hload Hdf HX0 -> Hflag].
  exists pre, b, i, tree. split; [exact Hload|].
  rewrite (process_to_gate _ _ _ _ _ _ _ _ Hload Hdf HX0). unfold after_gate.
  rewrite (bind_ok _ _ _ _ _ (lift_ok _ _ _ Hflag)).
  rewrite (bind_ok _ _ _ _ flag (lift_ok (item0 (flag :: flags)) _ _ eq_refl)).
  reflexivity.
Qed.

Lemma artifacts_load_inj (w : world) (pre pre' : obj) (b b' : Booster)
  (iso iso' tree tree' : obj) :
  artifacts_load w pre b iso tree -> artifacts_load w pre' b' iso' tree' ->
  pre = pre' /\ b = b' /\ iso = iso' /\ tree = tree'.
Proof.
  intros (H1 & H2 & H3 & H4) (H1' & H2' & H3' & H4').
  rewrite H1 in H1'. rewrite H2 in H2'. rewrite H3 in H3'. rewrite H4 in H4'.
  repeat split; congruence.
Qed.

(** The result and the calls of a run that is not flagged. *)
Lemma process_non_anomalous (record : gmap string value) (w : world)
  (pred_co2 raw_days : float) (maint_days : Z) :
  non_anomalous_run record w pred_co2 raw_days maint_days ->
  exists w',
    process_realtime_record record w =
      (Ok (mkInference false (decide_action pred_co2 maint_days (limit_of record))
                       (Some pred_co2) (Some maint_days)), w') /\
    files w' = files w.
Proof.
  intros [p b iso t df X_num X flag X_trans preds days Hload Hg Hflag HX Ht Hb Hd Hint].
  destruct (process_gate _ _ _ _ _ Hg) as (pre & b' & i & tree & Hload' & ->).
  destruct (artifacts_load_inj _ _ _ _ _ _ _ _ _ Hload Hload') as (<- & <- & _ & <-).
  destruct (Z.eqb_spec flag (-1)) as [|_]; [contradiction|].
  unfold after_flag.
  rewrite (bind_ok _ _ _ _ _ (lift_ok _ _ _ HX)).
  unfold preproc_transform, tree_predict_call.
  rewrite (bind_ok _ _ _ _ _ (invoke_ok _ _ _ _ Ht)).
  cbv zeta.
  rewrite (bind_ok _ _ _ _ _ (invoke_ok _ _ _ _ Hb)).
  rewrite (bind_ok _ _ _ _ pred_co2 (lift_ok (item0 (pred_co2 :: preds)) _ _ eq_refl)).
  rewrite (bind_ok _ _ _ _ _ (invoke_ok _ _ _ _ Hd)).
  rewrite (bind_ok _ _ _ _ raw_days (lift_ok (item0 (raw_days :: days)) _ _ eq_refl)).
  rewrite (bind_ok _ _ _ _ _ (lift_ok _ _ _ Hint)).
  eexists. split; reflexivity.
Qed.

End Steps.

(** ** Truncation of a float *)

Module Truncation.

Lemma digits2_pos_bound (m : positive) : Z.pos m < 2 ^ Z.pos (digits2_pos m).
Proof.
  induction m as [m IH|m IH|]; simpl digits2_pos;
    rewrite ?Pos2Z.inj_succ, ?Z.pow_succ_r by lia; lia.
Qed.

(** The mantissa of a binary64 value has at most 53 bits. *)
Lemma valid_mantissa_bound (s : bool) (m : positive) (e : Z) :
  valid_binary (S754_finite s m e) = true -> Z.pos m < 2 ^ 53.
Proof.
  unfold SpecFloat.valid_binary, bounded, canonical_mantissa, fexp.
  intros H. apply andb_prop in H as [H _]. apply Z.eqb_eq in H.
  pose proof (digits2_pos_bound m) as Hm.
  assert (Z.pos (digits2_pos m) <= 53) as Hd by (unfold prec in H; lia).
  eapply Z.lt_le_trans; [exact Hm|]. apply Z.pow_le_mono_r; lia.
Qed.

Lemma SF_15 : Prim2SF 15 = S754_finite false m15 (-49).
Proof. reflexivity. Qed.

Lemma SF_14 : Prim2SF 14 = S754_finite false m14 (-49).
Proof. reflexivity. Qed.

Lemma m15_eq : Z.pos m15 = 15 * 2 ^ 49.
Proof. reflexivity. Qed.

Lemma m14_eq : Z.pos m14 = 14 * 2 ^ 49.
Proof. reflexivity. Qed.

#[local] Opaque m15 m14.

Lemma compare_cont_eq (a b : positive) :
  PosDef.Pos.compare_cont Eq a b = Pos.compare a b.
Proof. reflexivity. Qed.

(** A float below 15.0 truncates to at most 14. *)
Lemma py_int_below_15 (raw : float) (d : Z) :
  py_int raw = Ok d -> PrimFloat.ltb raw 15 = true -> d <= 14.
Proof.
  unfold py_int. rewrite FloatAxioms.ltb_spec, SF_15.
  pose proof (Prim2SF_valid raw) as Hv.
  destruct (Prim2SF raw) as [s|s| |s m e]; try discriminate.
  - intros [= <-] _. clear. lia.
  - intros [= <-]. pose proof (valid_mantissa_bound _ _ _ Hv) as Hm. clear Hv.
    assert (0 <= Z.shiftl (Z.pos m) e) as Hpos by (apply Z.shiftl_nonneg; lia).
    destruct s; [intros _; lia|].
    unfold SFltb, SFcompare. rewrite compare_cont_eq.
    destruct (Z.compare_spec e (-49)) as [->|He|He]; try discriminate.
    + destruct (Pos.compare_spec m m15) as [|Hlt|]; try discriminate.
      intros _. rewrite Z.shiftl_div_pow2 by lia.
      change (- (-49)) with 49.
      assert (Z.pos m / 2 ^ 49 < 15); [|lia].
      apply Z.div_lt_upper_bound; [reflexivity|].
      pose proof m15_eq. lia.
    + intros _. rewrite Z.shiftl_div_pow2 by lia.
      assert (Z.pos m / 2 ^ (- e) < 8); [|lia].
      apply Z.div_lt_upper_bound; [apply Z.pow_pos_nonneg; lia|].
      assert (2 ^ 50 <= 2 ^ (- e)) by (apply Z.pow_le_mono_r; lia).
      change (2 ^ 53) with (2 ^ 50 * 8) in Hm. lia.
Qed.

(** A float in [14.0, 15.0) truncates to 14. *)
Lemma py_int_between_14_15 (raw : float) (d : Z) :
  py_int raw = Ok d -> PrimFloat.leb 14 raw = true -> PrimFloat.ltb raw 15 = true ->
  d = 14.
Proof.
  intros Hint Hle Hlt. pose proof (py_int_below_15 _ _ Hint Hlt) as Hd.
  revert Hd Hint Hle Hlt. unfold py_int.
  rewrite FloatAxioms.ltb_spec, FloatAxioms.leb_spec, SF_15, SF_14.
  destruct (Prim2SF raw) as [s|s| |s m e]; try discriminate.
  intros Hd [= <-]. destruct s; [unfold SFleb, SFcompare; discriminate|].
  unfold SFltb, SFleb, SFcompare. rewrite !compare_cont_eq.
  destruct (Z.compare_spec e (-49)) as [->|He|He]; try discriminate.
  - rewrite Z.compare_refl.
    destruct (Pos.compare_spec m14 m) as [<-|Hge|]; try discriminate.
    + intros _ _. rewrite Z.shiftl_div_pow2, m14_eq by lia.
      change (- (-49)) with 49. now rewrite Z.div_mul.
    + intros _ _. rewrite Z.shiftl_div_pow2 in * by lia.
      change (- (-49)) with 49 in *.
      assert (14 <= Z.pos m / 2 ^ 49); [|lia].
      apply Z.div_le_lower_bound; [reflexivity|].
      pose proof m14_eq. lia.
  - destruct (Z.compare_spec (-49) e); try discriminate; lia.
Qed.

(** [int] keeps the sign and the whole part of the magnitude [m * 2 ^ e]
    of a finite float: it truncates toward zero. *)
Lemma py_int_truncates (f : float) (s : bool) (m : positive) (e d : Z) :
  Prim2SF f = S754_finite s m e -> py_int f = Ok d ->
  (if s then d <= 0 else 0 <= d) /\
  (0 <= e -> Z.abs d = Z.pos m * 2 ^ e) /\
  (e < 0 -> Z.abs d * 2 ^ (- e) <= Z.pos m < (Z.abs d + 1) * 2 ^ (- e)).
Proof.
  unfold py_int. intros -> [= <-].
  assert (0 <= Z.shiftl (Z.pos m) e) as Hpos by (apply Z.shiftl_nonneg; lia).
  assert (Z.abs (if s then - Z.shiftl (Z.pos m) e else Z.shiftl (Z.pos m) e) =
          Z.shiftl (Z.pos m) e) as -> by (destruct s; lia).
  split; [destruct s; lia|]. split.
  - intros He. now rewrite Z.shiftl_mul_pow2.
  - intros He. rewrite Z.shiftl_div_pow2 by lia.
    assert (0 < 2 ^ (- e)) as Hpow by (apply Z.pow_pos_nonneg; lia).
    pose proof (Z.mul_div_le (Z.pos m) (2 ^ (- e)) Hpow).
    pose proof (Z.mul_succ_div_gt (Z.pos m) (2 ^ (- e)) Hpow).
    lia.
Qed.

Example py_int_14_9 : py_int 14.9 = Ok 14.
Proof. reflexivity. Qed.

Example py_int_toward_zero : py_int (-14.9) = Ok (-14).
Proof. reflexivity. Qed.

Example py_int_nan : py_int nan = Err ValueError.
Proof. reflexivity. Qed.

End Truncation.

(** ** The decision rule *)

Section Decision.

Lemma decide_action_alert (pred_co2 limit : float) (days : Z) :
  PrimFloat.leb pred_co2 limit = false -> decide_action pred_co2 days limit = ALERT_ACTION.
Proof. unfold decide_action. now intros ->. Qed.

Lemma decide_action_compliant (pred_co2 limit : float) (days : Z) :
  PrimFloat.leb pred_co2 limit = true ->
  decide_action pred_co2 days limit =
    if days <=? 14 then NOTICE_ACTION days else OK_ACTION.
Proof. unfold decide_action. now intros ->. Qed.

Lemma notice_is_not_alert (days : Z) : NOTICE_ACTION days <> ALERT_ACTION.
Proof. discriminate. Qed.

Lemma ok_is_not_alert : OK_ACTION <> ALERT_ACTION.
Proof. discriminate. Qed.

Lemma compliant_is_not_alert (pred_co2 limit : float) (days : Z) :
  PrimFloat.leb pred_co2 limit = true -> decide_action pred_co2 days limit <> ALERT_ACTION.
Proof.
  intros H. rewrite (decide_action_compliant _ _ _ H).
  destruct (days <=? 14); [apply notice_is_not_alert | apply ok_is_not_alert].
Qed.

Lemma thresholds_unknown (s : string) :
  s <> "Diesel" -> s <> "Petrol" -> s <> "CNG" -> thresholds !! s = None.
Proof.
  intros H1 H2 H3. unfold thresholds. simpl.
  rewrite !lookup_insert_ne by congruence. apply lookup_empty.
Qed.

(** The table holds three limits, and 1200 stands in for any other fuel. *)
Lemma thresholds_get_values (fuel : value) :
  thresholds_get fuel 1200 = 1500%float \/ thresholds_get fuel 1200 = 1200%float \/
  thresholds_get fuel 1200 = 1000%float.
Proof.
  destruct fuel as [| | |s]; simpl; auto.
  unfold thresholds. simpl.
  destruct (decide (s = "Diesel")) as [->|H1]; [left; reflexivity|].
  destruct (decide (s = "Petrol")) as [->|H2]; [right; left; reflexivity|].
  destruct (decide (s = "CNG")) as [->|H3]; [right; right; reflexivity|].
  rewrite !lookup_insert_ne by congruence. rewrite lookup_empty. auto.
Qed.

Lemma limit_leb_refl (fuel : value) :
  PrimFloat.leb (thresholds_get fuel 1200) (thresholds_get fuel 1200) = true.
Proof. destruct (thresholds_get_values fuel) as [->|[->| ->]]; reflexivity. Qed.

End Decision.

(** ** The inference call *)

Section Inference.

Context {L : MLLib}.

(** C1: when the gate flags the record, the call returns at once with the
    anomaly action and no predictions, and the only estimator called is the
    gate: neither the regressor nor the maintenance tree is invoked. *)
Theorem anomaly_short_circuit (record : gmap string value) (w : world)
  (df X_num : DataFrame) :
  gated record w df X_num (-1) ->
  process_realtime_record record w =
    (Ok (mkInference true ANOMALY_ACTION None None),
     mkWorld (files w) (calls w ++ [CallIsoPredict X_num])).
Proof.
  intros Hg.
  destruct (process_gate _ _ _ _ _ Hg) as (pre & b & i & tree & _ & ->).
  reflexivity.
Qed.

(** C3: for a record that is not flagged, a predicted CO2 equal to the limit
    of its fuel type (the same float, or one that [==] holds equal) is
    compliant, so the action is not the alert; a predicted CO2 strictly above
    the limit gives the alert. *)
Theorem compliance_limit_inclusive (record : gmap string value) (w : world)
  (pred_co2 raw_days : float) (maint_days : Z) :
  non_anomalous_run record w pred_co2 raw_days maint_days ->
  exists res,
    fst (process_realtime_record record w) = Ok res /\
    anomaly res = false /\
    predicted_co2 res = Some pred_co2 /\
    (pred_co2 = limit_of record -> action res <> ALERT_ACTION) /\
    (PrimFloat.eqb pred_co2 (limit_of record) = true -> action res <> ALERT_ACTION) /\
    (PrimFloat.ltb (limit_of record) pred_co2 = true -> action res = ALERT_ACTION).
Proof.
  intros Hrun. destruct (process_non_anomalous _ _ _ _ _ Hrun) as (w' & -> & _).
  eexists. split; [reflexivity|]. simpl. repeat split.
  - intros ->. apply compliant_is_not_alert, limit_leb_refl.
  - intros Heq. apply compliant_is_not_alert. now apply FloatOrder.eqb_leb.
  - intros Hlt. apply decide_action_alert. now apply FloatOrder.ltb_leb_false.
Qed.

(** C4: for a record that is not flagged and is compliant, at most 14
    maintenance days give the notice that carries the day count, and 15 days
    or more give "OK". *)
Theorem maintenance_notice_boundary (record : gmap string value) (w : world)
  (pred_co2 raw_days : float) (maint_days : Z) :
  non_anomalous_run record w pred_co2 raw_days maint_days ->
  PrimFloat.leb pred_co2 (limit_of record) = true ->
  exists res,
    fst (process_realtime_record record w) = Ok res /\
    maintenance_days res = Some maint_days /\
    (maint_days <= 14 ->
     action res = "NOTICE: recommend maintenance within " +:+ pretty maint_days +:+ " days") /\
    (15 <= maint_days -> action res = "OK").
Proof.
  intros Hrun Hle. destruct (process_non_anomalous _ _ _ _ _ Hrun) as (w' & -> & _).
  eexists. split; [reflexivity|]. simpl. rewrite (decide_action_compliant _ _ _ Hle).
  repeat split.
  - intros H. apply Z.leb_le in H. now rewrite H.
  - intros H. destruct (Z.leb_spec maint_days 14); [lia|reflexivity].
Qed.

(** C5: when the fuel type of the record is not a key of the threshold table,
    the compliance check is made against 1200, the Petrol limit. *)
Theorem unknown_fuel_uses_petrol_limit (record : gmap string value) (w : world)
  (pred_co2 raw_days : float) (maint_days : Z) (fuel : value) :
  non_anomalous_run record w pred_co2 raw_days maint_days ->
  record !! "fuel_type" = Some fuel ->
  (forall s, fuel = VStr s -> s <> "Diesel" /\ s <> "Petrol" /\ s <> "CNG") ->
  limit_of record = 1200%float /\
  thresholds !! "Petrol" = Some 1200%float /\
  exists res,
    fst (process_realtime_record record w) = Ok res /\
    action res = decide_action pred_co2 maint_days 1200 /\
    (action res = ALERT_ACTION <-> PrimFloat.leb pred_co2 1200 = false).
Proof.
  intros Hrun Hfuel Hunknown.
  assert (limit_of record = 1200%float) as Hlimit.
  { unfold limit_of, dict_get. rewrite Hfuel. destruct fuel as [| | |s]; try reflexivity.
    destruct (Hunknown s eq_refl) as (H1 & H2 & H3).
    unfold thresholds_get. now rewrite thresholds_unknown. }
  split; [exact Hlimit|]. split; [reflexivity|].
  destruct (process_non_anomalous _ _ _ _ _ Hrun) as (w' & -> & _).
  eexists. split; [reflexivity|]. simpl. rewrite Hlimit. split; [reflexivity|].
  split.
  - intros Hact. destruct (PrimFloat.leb pred_co2 1200) eqn:Hle; [|reflexivity].
    now apply compliant_is_not_alert in Hact.
  - apply decide_action_alert.
Qed.

(** C10: in a full result the maintenance days are the tree's prediction
    turned into an integer by [int], which keeps the sign and the whole part
    of the magnitude (truncation toward zero); the 14-day test is made on that
    integer, so a raw prediction below 15.0 gives at most 14 days and the
    notice when the record is compliant, and a raw prediction from 14.0 up to
    but excluding 15.0 gives exactly 14 days. *)
Theorem maintenance_days_truncated (record : gmap string value) (w : world)
  (pred_co2 raw_days : float) (maint_days : Z) :
  non_anomalous_run record w pred_co2 raw_days maint_days ->
  exists res,
    fst (process_realtime_record record w) = Ok res /\
    py_int raw_days = Ok maint_days /\
    maintenance_days res = Some maint_days /\
    (forall s m e, Prim2SF raw_days = S754_finite s m e ->
       (if s then maint_days <= 0 else 0 <= maint_days) /\
       (0 <= e -> Z.abs maint_days = Z.pos m * 2 ^ e) /\
       (e < 0 -> Z.abs maint_days * 2 ^ (- e) <= Z.pos m
                 < (Z.abs maint_days + 1) * 2 ^ (- e))) /\
    (PrimFloat.ltb raw_days 15 = true ->
     maint_days <= 14 /\
     (PrimFloat.leb pred_co2 (limit_of record) = true ->
      action res = NOTICE_ACTION maint_days)) /\
    (PrimFloat.leb 14 raw_days = true -> PrimFloat.ltb raw_days 15 = true ->
     maint_days = 14).
Proof.
  intros Hrun. assert (py_int raw_days = Ok maint_days) as Hint by now destruct Hrun.
  destruct (process_non_anomalous _ _ _ _ _ Hrun) as (w' & -> & _).
  eexists. split; [reflexivity|]. split; [exact Hint|]. simpl.
  split; [reflexivity|]. split.
  { intros s m e Hsf. exact (Truncation.py_int_truncates _ _ _ _ _ Hsf Hint). }
  repeat split.
  - now apply (Truncation.py_int_below_15 raw_days).
  - intros Hle. rewrite (decide_action_compliant _ _ _ Hle).
    pose proof (Truncation.py_int_below_15 _ _ Hint H) as Hd.
    apply Z.leb_le in Hd. now rewrite Hd.
  - now apply Truncation.py_int_between_14_15.
Qed.

End Inference.

(** ** The inference call on the small instance *)

Section ToyRuns.

Import Toy.


Lemma reading_gated (fuel : string) (co2 days : float) :
  gated (L := lib) (reading fuel) (start co2 days)
        (reading_frame 1200 fuel) (reading_numeric 1200) 1.
Proof.
  eapply (Gated (L := lib) _ _ _ _ _ (OPreproc (L := lib) tt) co2 10000%float
            (OTree (L := lib) days) (reading_numeric 1200) []).
  - repeat split.
  - reflexivity.
  - reflexivity.
  - reflexivity.
  - reflexivity.
Qed.

Lemma outlier_gated (co2 days : float) :
  gated (L := lib) outlier (start co2 days)
        (reading_frame 50000 "Petrol") (reading_numeric 50000) (-1).
Proof.
  eapply (Gated (L := lib) _ _ _ _ _ (OPreproc (L := lib) tt) co2 10000%float
            (OTree (L := lib) days) (reading_numeric 50000) []).
  - repeat split.
  - reflexivity.
  - reflexivity.
  - reflexivity.
  - reflexivity.
Qed.

Lemma reading_run (fuel : string) (co2 days : float) (d : Z) :
  py_int days = Ok d ->
  non_anomalous_run (L := lib) (reading fuel) (start co2 days) co2 days d.
Proof.
  intros Hd.
  eapply (NonAnomalous (L := lib) _ _ _ _ _ (tt : @Preproc lib) co2
            (OIso (L := lib) 10000%float) days
            (reading_frame 1200 fuel) (reading_numeric 1200) _ 1 _ [] []).
  - repeat split.
  - apply reading_gated.
  - discriminate.
  - reflexivity.
  - reflexivity.
  - reflexivity.
  - reflexivity.
  - exact Hd.
Qed.

End ToyRuns.

Section ToyWitnesses.

Import Toy.

Lemma anomaly_short_circuit_witness :
  gated (L := lib) outlier (start 1200 30)
        (reading_frame 50000 "Petrol") (reading_numeric 50000) (-1) /\
  process_realtime_record outlier (start 1200 30) =
    (Ok (mkInference true ANOMALY_ACTION None None),
     mkWorld (files (start 1200 30)) [CallIsoPredict (reading_numeric 50000)]).
Proof.
  split.
  - apply outlier_gated.
  - exact (anomaly_short_circuit outlier (start 1200 30) _ _ (outlier_gated 1200 30)).
Defined.

Lemma compliance_limit_inclusive_witness :
  non_anomalous_run (L := lib) (reading "Petrol") (start 1200 30) 1200 30 30 /\
  exists res,
    fst (process_realtime_record (reading "Petrol") (start 1200 30)) = Ok res /\
    anomaly res = false /\
    predicted_co2 res = Some 1200%float /\
    (1200%float = limit_of (reading "Petrol") -> action res <> ALERT_ACTION) /\
    (PrimFloat.eqb 1200 (limit_of (reading "Petrol")) = true -> action res <> ALERT_ACTION) /\
    (PrimFloat.ltb (limit_of (reading "Petrol")) 1200 = true -> action res = ALERT_ACTION).
Proof.
  split.
  - apply reading_run. reflexivity.
  - exact (compliance_limit_inclusive (reading "Petrol") (start 1200 30) 1200 30 30
             (reading_run "Petrol" 1200 30 30 eq_refl)).
Defined.

Lemma maintenance_notice_boundary_witness :
  non_anomalous_run (L := lib) (reading "Petrol") (start 1000 14) 1000 14 14 /\
  PrimFloat.leb 1000 (limit_of (reading "Petrol")) = true /\
  exists res,
    fst (process_realtime_record (reading "Petrol") (start 1000 14)) = Ok res /\
    maintenance_days res = Some 14 /\
    (14 <= 14 ->
     action res = "NOTICE: recommend maintenance within " +:+ pretty 14 +:+ " days") /\
    (15 <= 14 -> action res = "OK").
Proof.
  split; [|split].
  - apply reading_run. reflexivity.
  - reflexivity.
  - exact (maintenance_notice_boundary (reading "Petrol") (start 1000 14) 1000 14 14
             (reading_run "Petrol" 1000 14 14 eq_refl) eq_refl).
Defined.

Lemma hydrogen_is_unknown (s : string) :
  VStr "Hydrogen" = VStr s -> s <> "Diesel" /\ s <> "Petrol" /\ s <> "CNG".
Proof. intros [= <-]. repeat split; discriminate. Qed.

Lemma unknown_fuel_uses_petrol_limit_witness :
  non_anomalous_run (L := lib) (reading "Hydrogen") (start 1200.5 30) 1200.5 30 30 /\
  reading "Hydrogen" !! "fuel_type" = Some (VStr "Hydrogen") /\
  limit_of (reading "Hydrogen") = 1200%float /\
  thresholds !! "Petrol" = Some 1200%float /\
  exists res,
    fst (process_realtime_record (reading "Hydrogen") (start 1200.5 30)) = Ok res /\
    action res = decide_action 1200.5 30 1200 /\
    (action res = ALERT_ACTION <-> PrimFloat.leb 1200.5 1200 = false).
Proof.
  split; [|split].
  - apply reading_run. reflexivity.
  - reflexivity.
  - exact (unknown_fuel_uses_petrol_limit (reading "Hydrogen") (start 1200.5 30)
             1200.5 30 30 (VStr "Hydrogen")
             (reading_run "Hydrogen" 1200.5 30 30 eq_refl) eq_refl hydrogen_is_unknown).
Defined.

Lemma maintenance_days_truncated_witness :
  non_anomalous_run (L := lib) (reading "Petrol") (start 1000 14.9) 1000 14.9 14 /\
  exists res,
    fst (process_realtime_record (reading "Petrol") (start 1000 14.9)) = Ok res /\
    py_int 14.9 = Ok 14 /\
    maintenance_days res = Some 14 /\
    (forall s m e, Prim2SF 14.9 = S754_finite s m e ->
       (if s then 14 <= 0 else 0 <= 14) /\
       (0 <= e -> Z.abs 14 = Z.pos m * 2 ^ e) /\
       (e < 0 -> Z.abs 14 * 2 ^ (- e) <= Z.pos m < (Z.abs 14 + 1) * 2 ^ (- e))) /\
    (PrimFloat.ltb 14.9 15 = true ->
     14 <= 14 /\
     (PrimFloat.leb 1000 (limit_of (reading "Petrol")) = true ->
      action res = NOTICE_ACTION 14)) /\
    (PrimFloat.leb 14 14.9 = true -> PrimFloat.ltb 14.9 15 = true -> 14 = 14).
Proof.
  split.
  - apply reading_run. reflexivity.
  - exact (maintenance_days_truncated (reading "Petrol") (start 1000 14.9) 1000 14.9 14
             (reading_run "Petrol" 1000 14.9 14 eq_refl)).
Defined.

(** The reading with a tree that answers 14.9: the result carries 14 days and
    the notice. *)
Example reading_14_9_days :
  fst (process_realtime_record (reading "Petrol") (start 1000 14.9)) =
    Ok (mkInference false "NOTICE: recommend maintenance within 14 days"
                    (Some 1000%float) (Some 14)).
Proof. reflexivity. Qed.

(** A prediction equal to the limit is compliant, the next float above it is
    not. *)
Example reading_at_limit :
  fst (process_realtime_record (reading "Petrol") (start 1200 30)) =
    Ok (mkInference false "OK" (Some 1200%float) (Some 30)).
Proof. reflexivity. Qed.

Example reading_above_limit :
  fst (process_realtime_record (reading "Petrol") (start (next_up 1200) 30)) =
    Ok (mkInference false ALERT_ACTION (Some (next_up 1200)) (Some 30)).
Proof. reflexivity. Qed.

End ToyWitnesses.

(** ** What a computation does to the world *)

Section Effects.

Context {L : MLLib}.


Lemma read_only_ret {A : Type} (a : A) : read_only (mret a).
Proof. intros w. reflexivity. Qed.

Lemma read_only_lift {A : Type} (r : result A) : read_only (lift r).
Proof. intros w. reflexivity. Qed.

Lemma read_only_log (c : call) : read_only (log c).
Proof. intros w. reflexivity. Qed.

Lemma read_only_bind {A B : Type} (m : M A) (f : A -> M B) :
  read_only m -> (forall a, read_only (f a)) -> read_only (m ≫= f).
Proof.
  intros Hm Hf w. unfold mbind, M_bind. specialize (Hm w).
  destruct (m w) as [[a|e] w1]; simpl in *; [|exact Hm].
  now rewrite Hf.
Qed.

Lemma read_only_invoke {A : Type} (c : call) (r : result A) : read_only (invoke c r).
Proof. intros w. unfold invoke. now destruct r. Qed.

Lemma read_only_joblib_load (path : string) : read_only (joblib_load path).
Proof. intros w. unfold joblib_load. now destruct (files w !! path). Qed.

Lemma read_only_load_model (path : string) : read_only (load_model path).
Proof. intros w. unfold load_model. now destruct (files w !! path) as [[]|]. Qed.

Lemma read_only_preproc_transform (o : obj) (X : DataFrame) :
  read_only (preproc_transform o X).
Proof. destruct o; simpl; auto using read_only_invoke, read_only_lift. Qed.

Lemma read_only_tree_predict_call (o : obj) (X : matrix) :
  read_only (tree_predict_call o X).
Proof. destruct o; simpl; auto using read_only_invoke, read_only_lift. Qed.

Lemma read_only_iso_predict_call (o : obj) (X : DataFrame) :
  read_only (iso_predict_call o X).
Proof. destruct o; simpl; auto using read_only_invoke, read_only_lift. Qed.

Lemma appends_ret {A : Type} (a : A) : appends (mret a).
Proof. intros w. exists []. simpl. now rewrite app_nil_r. Qed.

Lemma appends_lift {A : Type} (r : result A) : appends (lift r).
Proof. intros w. exists []. simpl. now rewrite app_nil_r. Qed.

Lemma appends_invoke {A : Type} (c : call) (r : result A) : appends (invoke c r).
Proof. intros w. exists [c]. unfold invoke. now destruct r. Qed.

Lemma appends_bind {A B : Type} (m : M A) (f : A -> M B) :
  appends m -> (forall a, appends (f a)) -> appends (m ≫= f).
Proof.
  intros Hm Hf w. unfold mbind, M_bind. destruct (Hm w) as [cs Hcs].
  destruct (m w) as [[a|e] w1]; simpl in *; [|now exists cs].
  destruct (Hf a w1) as [cs' Hcs']. exists (cs ++ cs').
  now rewrite Hcs', Hcs, app_assoc.
Qed.

Lemma appends_preproc_transform (o : obj) (X : DataFrame) :
  appends (preproc_transform o X).
Proof. destruct o; simpl; auto using appends_invoke, appends_lift. Qed.

Lemma appends_tree_predict_call (o : obj) (X : matrix) :
  appends (tree_predict_call o X).
Proof. destruct o; simpl; auto using appends_invoke, appends_lift. Qed.

End Effects.

Create HintDb effects.

#[export] Hint Resolve read_only_ret read_only_lift read_only_log read_only_invoke
  read_only_joblib_load read_only_load_model read_only_preproc_transform
  read_only_tree_predict_call read_only_iso_predict_call
  appends_ret appends_lift appends_invoke appends_preproc_transform
  appends_tree_predict_call : effects.

(** Splits a goal about a sequence into goals about its steps. *)
Ltac effects :=
  repeat first
    [ solve [auto with effects]
    | progress cbv zeta
    | apply read_only_bind; [|intros ?]
    | apply appends_bind; [|intros ?]
    | match goal with |- read_only (if ?b then _ else _) => destruct b end
    | match goal with |- appends (if ?b then _ else _) => destruct b end
    | match goal with |- read_only (match ?x with _ => _ end) => destruct x end
    | match goal with |- appends (match ?x with _ => _ end) => destruct x end ].

Section GateInput.

Context {L : MLLib}.


Lemma record_frame_fields (record : gmap string value) (engine power co2 : float) :
  py_float parse_float (dict_get record "engine_size_cm3" (VFloat 0)) = Ok engine ->
  py_float parse_float (dict_get record "power_ps" (VFloat 0)) = Ok power ->
  py_float parse_float (dict_get record "co2" (VFloat 0)) = Ok co2 ->
  record_frame record =
    Ok (from_record [("engine_size_cm3", VFloat engine);
                     ("power_ps", VFloat power);
                     ("fuel_type", dict_get record "fuel_type" (VStr "Petrol"));
                     ("transmission_type",
                      dict_get record "transmission_type" (VStr "Automatic"));
                     ("manufacturer", dict_get record "manufacturer" (VStr "Unknown"));
                     (TARGET, VFloat co2)]).
Proof. intros He Hp Hc. unfold record_frame. now rewrite He, Hp, Hc. Qed.


Lemma after_gate_appends (record : gmap string value) (pre : obj) (b : Booster)
  (i : IsoForest) (tree : obj) (df X_num : DataFrame) :
  appends (after_gate record pre b i tree df X_num).
Proof. unfold after_gate, after_flag. effects. Qed.

(** C2, as the code has it: the gate is the first estimator called, and it is
    handed the engine size and the power of the record as [float] read them,
    NaN replaced by 0.0; the persisted transform has no part in it. *)
Theorem gate_input_is_raw (record : gmap string value) (w : world)
  (pre : obj) (b : Booster) (i : IsoForest) (tree : obj) (engine power co2 : float) :
  artifacts_load w pre b (OIso i) tree ->
  py_float parse_float (dict_get record "engine_size_cm3" (VFloat 0)) = Ok engine ->
  py_float parse_float (dict_get record "power_ps" (VFloat 0)) = Ok power ->
  py_float parse_float (dict_get record "co2" (VFloat 0)) = Ok co2 ->
  exists rest,
    calls (snd (process_realtime_record record w)) =
      calls w ++ CallIsoPredict (raw_numeric engine power) :: rest.
Proof.
  intros Hload He Hp Hc.
  rewrite (process_to_gate _ _ _ _ _ _ _ _ Hload
             (record_frame_fields _ _ _ _ He Hp Hc) eq_refl).
  destruct (after_gate_appends record pre b i tree
              (from_record [("engine_size_cm3", VFloat engine);
                     ("power_ps", VFloat power);
                     ("fuel_type", dict_get record "fuel_type" (VStr "Petrol"));
                     ("transmission_type",
                      dict_get record "transmission_type" (VStr "Automatic"));
                     ("manufacturer", dict_get record "manufacturer" (VStr "Unknown"));
                     (TARGET, VFloat co2)])
              (raw_numeric engine power)
              (mkWorld (files w) (calls w ++ [CallIsoPredict (raw_numeric engine power)])))
    as [cs Hcs].
  exists cs. etransitivity; [exact Hcs|]. simpl. now rewrite <- app_assoc.
Qed.

(** The detector is fitted on the same untransformed columns. *)
Lemma build_anomaly_detector_input (train_df df X : DataFrame) (w : world) :
  basic_preprocess parse_numeric train_df = Ok df ->
  select df NUMERIC_FEATURES = Ok X ->
  exists rest,
    calls (snd (build_anomaly_detector train_df w)) =
      calls w ++ CallIsoFit (df_fillna (VFloat 0) X) :: rest.
Proof.
  intros Hdf HX. unfold build_anomaly_detector.
  rewrite (bind_ok _ _ _ _ _ (lift_ok _ _ _ Hdf)).
  rewrite (bind_ok _ _ _ _ _ (lift_ok _ _ _ HX)).
  cbv zeta. unfold invoke, mbind, M_bind, log, lift, joblib_dump, mret, M_ret.
  destruct (iso_fit (df_fillna (VFloat 0) X)); simpl; now exists [].
Qed.

Lemma bind_ext {A B : Type} (m : M A) (f g : A -> M B) (w : world) :
  (forall a w', f a w' = g a w') -> (m ≫= f) w = (m ≫= g) w.
Proof.
  intros H. unfold mbind, M_bind. destruct (m w) as [[a|e] w']; [apply H|reflexivity].
Qed.

Lemma dict_get_off_co2 (r1 r2 : gmap string value) (k : string) (d : value) :
  delete "co2" r1 = delete "co2" r2 -> k <> "co2" -> dict_get r1 k d = dict_get r2 k d.
Proof.
  intros Heq Hk. unfold dict_get.
  rewrite <- (lookup_delete_ne r1 "co2" k), <- (lookup_delete_ne r2 "co2" k) by congruence.
  now rewrite Heq.
Qed.

(** C9, as the code has it: two records that agree on every field but "co2",
    each with a "co2" that is absent or that [float] accepts, get the same
    answer, with the same calls to the estimators. *)
Theorem co2_does_not_influence (r1 r2 : gmap string value) (w : world) (c1 c2 : float) :
  delete "co2" r1 = delete "co2" r2 ->
  py_float parse_float (dict_get r1 "co2" (VFloat 0)) = Ok c1 ->
  py_float parse_float (dict_get r2 "co2" (VFloat 0)) = Ok c2 ->
  process_realtime_record r1 w = process_realtime_record r2 w.
Proof.
  intros Heq H1 H2. unfold process_realtime_record, record_frame.
  rewrite H1, H2.
  rewrite !(dict_get_off_co2 r1 r2) by (assumption || discriminate).
  do 4 (apply bind_ext; intros ? ?).
  destruct (py_float parse_float (dict_get r2 "engine_size_cm3" (VFloat 0))) as [engine|e];
    [|reflexivity].
  destruct (py_float parse_float (dict_get r2 "power_ps" (VFloat 0))) as [power|e];
    reflexivity.
Qed.

End GateInput.

Section ToyCounterexamples.

Import Toy.


(** C2, as stated, fails on the reading: the gate is handed 1200 and 90, and
    the transform of the toy instance would make 0.4 and -0.2 of them. *)
Lemma gate_input_is_not_transformed :
  ~ gate_gets_transformed_input (L := lib) (reading "Petrol") (start 1000 30).
Proof.
  intros H.
  destruct (H (reading_numeric 1200)) as (p & df & X & X_trans & _ & Hdf & HX & Ht & Hproj).
  { replace (calls (snd (process_realtime_record (reading "Petrol") (start 1000 30))))
      with (CallIsoPredict (L := lib) (reading_numeric 1200) ::
            tail (calls (snd (process_realtime_record (reading "Petrol") (start 1000 30)))))
      by reflexivity.
    left. }
  vm_compute in Hdf. injection Hdf as <-.
  vm_compute in HX. injection HX as <-.
  vm_compute in Ht. injection Ht as <-.
  apply (f_equal first_cell_is_1200) in Hproj. vm_compute in Hproj. discriminate.
Qed.

Lemma gate_input_is_raw_witness :
  artifacts_load (start 1000 30) (OPreproc (L := lib) tt) 1000%float
                 (OIso (L := lib) 10000%float) (OTree (L := lib) 30%float) /\
  exists rest,
    calls (snd (process_realtime_record (reading "Petrol") (start 1000 30))) =
      calls (start 1000 30) ++ CallIsoPredict (raw_numeric 1200 90) :: rest.
Proof.
  split.
  - repeat split.
  - exact (gate_input_is_raw (reading "Petrol") (start 1000 30) (OPreproc (L := lib) tt)
             1000%float 10000%float (OTree (L := lib) 30%float) 1200 90 110
             (conj eq_refl (conj eq_refl (conj eq_refl eq_refl))) eq_refl eq_refl eq_refl).
Defined.

(** C9, as stated, fails when the "co2" field is null: the reading is
    answered, the same record with a null "co2" raises. *)
Lemma co2_influences_outcome :
  ~ co2_blind (L := lib) (reading "Petrol") (<["co2" := VNone]> (reading "Petrol"))
      (start 1000 30).
Proof.
  intros H. unfold co2_blind in H.
  assert (delete "co2" (reading "Petrol") =
          delete "co2" (<["co2" := VNone]> (reading "Petrol"))) as Hagree
    by now rewrite delete_insert_eq.
  apply H in Hagree. apply (f_equal fst) in Hagree.
  vm_compute in Hagree. discriminate.
Qed.

Example null_co2_raises :
  fst (process_realtime_record (<["co2" := VNone]> (reading "Petrol")) (start 1000 30)) =
    Err TypeError.
Proof. reflexivity. Qed.

Lemma co2_does_not_influence_witness :
  delete "co2" (reading "Petrol") =
    delete "co2" (<["co2" := VFloat 5000]> (reading "Petrol")) /\
  process_realtime_record (reading "Petrol") (start 1000 30) =
    process_realtime_record (<["co2" := VFloat 5000]> (reading "Petrol")) (start 1000 30).
Proof.
  split.
  - now rewrite delete_insert_eq.
  - exact (co2_does_not_influence (L := lib) (reading "Petrol")
             (<["co2" := VFloat 5000]> (reading "Petrol")) (start 1000 30) 110 5000
             (eq_sym (delete_insert_eq (reading "Petrol") "co2" (VFloat 5000)))
             eq_refl eq_refl).
Defined.

End ToyCounterexamples.

(** ** Incremental update *)

Section IncrementalUpdate.

Context {L : MLLib}.




Lemma failure_keeps_files_bind {A B : Type} (m : M A) (f : A -> M B) :
  read_only m -> (forall a, failure_keeps_files (f a)) -> failure_keeps_files (m ≫= f).
Proof.
  intros Hm Hf w e w'. unfold mbind, M_bind. specialize (Hm w).
  destruct (m w) as [[a|e1] w1]; simpl in Hm.
  - intros H. apply Hf in H. congruence.
  - intros [= <- <-]. exact Hm.
Qed.

Lemma save_never_fails (b : Booster) (path : string) :
  failure_keeps_files (_ ← save_model b path; mret b).
Proof. intros w e w'. discriminate. Qed.

Lemma incremental_update_failure_keeps_files (new_df : DataFrame)
  (existing_model_path artifacts_path : string) :
  failure_keeps_files (incremental_update new_df existing_model_path artifacts_path).
Proof.
  unfold incremental_update.
  repeat first
    [ apply save_never_fails
    | apply failure_keeps_files_bind; [solve [auto with effects]|intros ?]
    | match goal with |- failure_keeps_files (let 'pair _ _ := ?x in _) => destruct x end
    | progress cbv zeta ].
Qed.

(** C7, as the code has it: an update that raises has left every file of the
    model directory, the regressor among them, as it was; with no transform
    file the exception is the loader's [FileNotFoundError], and a batch the
    transform rejects raises the transform's own exception. *)
Theorem incremental_update_failure (new_df : DataFrame)
  (existing_model_path artifacts_path : string) (w w' : world) (e : exn) :
  incremental_update new_df existing_model_path artifacts_path w = (Err e, w') ->
  files w' = files w /\
  (files w !! path_join MODEL_DIR "preproc.joblib" = None -> e = FileNotFoundError) /\
  (forall p arts b X y e',
     files w !! path_join MODEL_DIR "preproc.joblib" = Some (OPreproc p) ->
     files w !! artifacts_path = Some arts ->
     files w !! existing_model_path = Some (OBooster b) ->
     training_frame new_df = Ok (X, y) ->
     transform p X = Err e' ->
     e = e').
Proof.
  intros H. split; [|split].
  - exact (incremental_update_failure_keeps_files _ _ _ _ _ _ H).
  - intros Hnone. revert H. unfold incremental_update.
    unfold mbind at 1. unfold M_bind, joblib_load at 1. rewrite Hnone. congruence.
  - intros p arts b X y e' Hp Ha Hb Hframe Ht. revert H. unfold incremental_update.
    rewrite (bind_ok _ _ _ _ _ (joblib_load_ok _ _ _ Hp)).
    rewrite (bind_ok _ _ _ _ _ (joblib_load_ok _ _ _ Ha)).
    rewrite (bind_ok _ _ _ _ _ (load_model_ok _ _ _ Hb)).
    rewrite (bind_ok _ _ _ _ _ (lift_ok _ _ _ Hframe)).
    unfold preproc_transform.
    rewrite (bind_err _ _ _ _ _ (invoke_err _ _ _ _ Ht)). congruence.
Qed.

End IncrementalUpdate.

Section ToyUpdate.

Import Toy.

(** C7, as stated, fails on an empty model directory: the update raises
    [FileNotFoundError], not [StaleTransformError]. *)
Lemma missing_transform_is_not_stale_error :
  ~ stale_transform_reported (L := lib) training_batch
      "models/xgb_co2_model.json" "models/artifacts.joblib" (mkWorld ∅ []).
Proof.
  intros H. destruct H as [H _]; [left; reflexivity|].
  vm_compute in H. discriminate.
Qed.

(** It fails as well when the transform rejects the batch: the update raises
    the transform's [ValueError]. *)
Example rejected_batch_is_not_stale_error :
  ~ stale_transform_reported (L := lib) stale_batch
      "models/xgb_co2_model.json" "models/artifacts.joblib" trained.
Proof.
  intros H. destruct H as [H _].
  - right. exists tt, stale_X, [110; 150]%float, ValueError.
    split; [reflexivity|]. split; reflexivity.
  - vm_compute in H. discriminate.
Qed.

Lemma incremental_update_failure_witness :
  incremental_update (L := lib) stale_batch
      "models/xgb_co2_model.json" "models/artifacts.joblib" trained =
    (Err ValueError, mkWorld (files trained) [CallTransform stale_X]) /\
  files (mkWorld (L := lib) (files trained) [CallTransform stale_X]) = files trained /\
  (files trained !! path_join MODEL_DIR "preproc.joblib" = None ->
   ValueError = FileNotFoundError) /\
  (forall p arts b X y e',
     files trained !! path_join MODEL_DIR "preproc.joblib" = Some (OPreproc p) ->
     files trained !! "models/artifacts.joblib" = Some arts ->
     files trained !! "models/xgb_co2_model.json" = Some (OBooster b) ->
     training_frame stale_batch = Ok (X, y) ->
     transform p X = Err e' ->
     ValueError = e').
Proof.
  assert (incremental_update (L := lib) stale_batch
            "models/xgb_co2_model.json" "models/artifacts.joblib" trained =
          (Err ValueError, mkWorld (files trained) [CallTransform stale_X])) as Hrun
    by reflexivity.
  split; [exact Hrun|].
  exact (incremental_update_failure (L := lib) stale_batch
           "models/xgb_co2_model.json" "models/artifacts.joblib"
           trained (mkWorld (files trained) [CallTransform stale_X]) ValueError Hrun).
Defined.

(** After training, an update succeeds and overwrites the regressor. *)
Example update_after_training :
  incremental_update (L := lib) training_batch "models/xgb_co2_model.json"
    "models/artifacts.joblib" trained =
    (Ok 50%float,
     mkWorld (<["models/xgb_co2_model.json" := OBooster 50%float]> (files trained))
       [CallTransform training_X;
        CallTrain (mkParams "reg:squarederror" 0.01 6 0.7 0.6 "hist" 0)
          (mkDMatrix [[0.4; -0.2; 0; 1]; [1.2; 0.4; 1; 0]]%float (Some training_y))
          50 (Some 3%float)]).
Proof. reflexivity. Qed.

End ToyUpdate.

(** ** The grid search *)

Section GridSearch.

Context {L : MLLib}.


Lemma search_step_invariant (cv : params -> list float) (seen : list params)
  (st : search_state) (p : params) :
  search_invariant cv seen st -> search_invariant cv (seen ++ [p]) (search_step cv st p).
Proof.
  intros [Hmin Hwin]. unfold search_step.
  destruct (PrimFloat.ltb (min_skipna (cv p)) (fst st)) eqn:Hlt.
  - split; simpl.
    + intros q Hq. apply elem_of_app in Hq as [Hq|Hq].
      * destruct (PrimFloat.ltb (min_skipna (cv q)) (min_skipna (cv p))) eqn:Hqp;
          [|reflexivity].
        rewrite <- (Hmin q Hq). symmetry. eapply FloatOrder.ltb_trans; eassumption.
      * apply list_elem_of_singleton in Hq as ->. apply FloatOrder.ltb_irrefl.
    + split; [reflexivity|]. split; [reflexivity|].
      exists seen, []. split; [reflexivity|].
      intros q Hq.
      destruct (PrimFloat.leb (min_skipna (cv q)) (min_skipna (cv p))) eqn:Hqp;
        [|reflexivity].
      rewrite <- (Hmin q Hq). symmetry. eapply FloatOrder.leb_ltb_trans; eassumption.
  - split.
    + intros q Hq. apply elem_of_app in Hq as [Hq|Hq]; [now apply Hmin|].
      now apply list_elem_of_singleton in Hq as ->.
    + destruct (snd st) as [[w rounds]|]; [|exact Hwin].
      destruct Hwin as (Hbest & Hrounds & before & after & -> & Hfirst).
      split; [exact Hbest|]. split; [exact Hrounds|].
      exists before, (after ++ [p]). split; [|exact Hfirst].
      now rewrite <- app_assoc.
Qed.

Lemma search_invariant_foldl (cv : params -> list float) (l seen : list params)
  (st : search_state) :
  search_invariant cv seen st ->
  search_invariant cv (seen ++ l) (foldl (search_step cv) st l).
Proof.
  revert seen st. induction l as [|p l IH]; intros seen st Hinv; simpl.
  - now rewrite app_nil_r.
  - replace (seen ++ p :: l) with ((seen ++ [p]) ++ l) by now rewrite <- app_assoc.
    apply IH. now apply search_step_invariant.
Qed.

(** The search ends on the first combination that reaches the least score,
    as long as some combination scores below infinity. *)
Lemma search_first_minimum (cv : params -> list float) (l : list params) :
  (exists p, p ∈ l /\ PrimFloat.ltb (min_skipna (cv p)) infinity = true) ->
  exists before winner after,
    l = before ++ winner :: after /\
    search cv l = (min_skipna (cv winner), Some (winner, length (cv winner))) /\
    (forall q, q ∈ l ->
       PrimFloat.ltb (min_skipna (cv q)) (min_skipna (cv winner)) = false) /\
    (forall q, q ∈ before ->
       PrimFloat.leb (min_skipna (cv q)) (min_skipna (cv winner)) = false).
Proof.
  intros (p & Hp & Hfinite).
  assert (search_invariant cv [] (infinity, None)) as Hinit.
  { split; [|reflexivity]. intros q Hq. now apply elem_of_nil in Hq. }
  apply (search_invariant_foldl cv l) in Hinit. simpl in Hinit.
  unfold search.
  destruct (foldl (search_step cv) (infinity, None) l) as [best [[winner rounds]|]];
    destruct Hinit as [Hmin Hwin]; simpl in *.
  - destruct Hwin as (-> & -> & before & after & -> & Hfirst).
    exists before, winner, after. repeat split; assumption.
  - subst best. rewrite (Hmin p Hp) in Hfinite. discriminate.
Qed.

(** A loop whose body always succeeds, updates the variables by [pure] and
    logs [evs] runs as a fold. *)
Lemma for_each_pure {A S : Type} (l : list A) (body : A -> S -> M S)
  (pure : S -> A -> S) (evs : A -> list call) (s : S) (w : world) :
  (forall x s w, x ∈ l ->
     body x s w = (Ok (pure s x), mkWorld (files w) (calls w ++ evs x))) ->
  for_each l body s w = (Ok (foldl pure s l), mkWorld (files w) (calls w ++ (l ≫= evs))).
Proof.
  revert s w. induction l as [|x l IH]; intros s w Hbody; simpl.
  - unfold mret, M_ret. rewrite app_nil_r. now destruct w.
  - rewrite (bind_ok _ _ _ _ _ (Hbody x s w (list_elem_of_here _ _))).
    rewrite IH by (intros; apply Hbody; now right).
    simpl. now rewrite <- app_assoc.
Qed.

Lemma grid_step_pure (dtrain : DMatrix) (cv : params -> list float)
  (eta : float) (md : Z) (ss cs : float) (st : search_state) (w : world) :
  xgb_cv (combination eta md ss cs) dtrain = Ok (cv (combination eta md ss cs)) ->
  grid_step dtrain eta md ss cs st w =
    (Ok (search_step cv st (combination eta md ss cs)),
     mkWorld (files w) (calls w ++ [CallCv (combination eta md ss cs) dtrain])).
Proof.
  intros Hcv. unfold grid_step. cbv zeta. fold (combination eta md ss cs).
  rewrite (bind_ok _ _ _ _ _ (invoke_ok _ _ _ _ Hcv)).
  unfold search_step. now destruct (PrimFloat.ltb _ _).
Qed.

Lemma grid_member (eta : float) (md : Z) (ss cs : float) :
  eta ∈ param_grid_eta -> md ∈ param_grid_max_depth ->
  ss ∈ param_grid_subsample -> cs ∈ param_grid_colsample_bytree ->
  combination eta md ss cs ∈ grid.
Proof.
  intros H1 H2 H3 H4. unfold grid.
  apply list_elem_of_bind. exists eta. split; [|exact H1].
  apply list_elem_of_bind. exists md. split; [|exact H2].
  apply list_elem_of_bind. exists ss. split; [|exact H3].
  apply list_elem_of_bind. exists cs. split; [|exact H4].
  left.
Qed.

Lemma foldl_bind {A B S : Type} (f : S -> B -> S) (g : A -> list B) (l : list A) (s : S) :
  foldl f s (l ≫= g) = foldl (fun s a => foldl f s (g a)) s l.
Proof.
  revert s. induction l as [|a l IH]; intros s; [reflexivity|].
  change ((a :: l) ≫= g) with (g a ++ (l ≫= g)). now rewrite foldl_app, IH.
Qed.

(** The search loop tries the combinations in the order of [grid] and ends
    in the state of [search]. *)
Lemma grid_search_runs (dtrain : DMatrix) (cv : params -> list float) (w : world) :
  (forall p, p ∈ grid -> xgb_cv p dtrain = Ok (cv p)) ->
  grid_search dtrain w =
    (Ok (search cv grid),
     mkWorld (files w) (calls w ++ map (fun p => CallCv p dtrain) grid)).
Proof.
  intros Hcv. unfold grid_search, search, grid.
  rewrite (for_each_pure param_grid_eta _
             (fun st eta => foldl (search_step cv) st
                (md ← param_grid_max_depth; ss ← param_grid_subsample;
                 cs ← param_grid_colsample_bytree; [combination eta md ss cs]))
             (fun eta => md ← param_grid_max_depth; ss ← param_grid_subsample;
                 cs ← param_grid_colsample_bytree;
                 [CallCv (combination eta md ss cs) dtrain])).
  - rewrite foldl_bind. reflexivity.
  - intros eta st1 w1 Heta.
    rewrite (for_each_pure param_grid_max_depth _
               (fun st md => foldl (search_step cv) st
                  (ss ← param_grid_subsample; cs ← param_grid_colsample_bytree;
                   [combination eta md ss cs]))
               (fun md => ss ← param_grid_subsample; cs ← param_grid_colsample_bytree;
                   [CallCv (combination eta md ss cs) dtrain])).
    + rewrite foldl_bind. reflexivity.
    + intros md st2 w2 Hmd.
      rewrite (for_each_pure param_grid_subsample _
                 (fun st ss => foldl (search_step cv) st
                    (cs ← param_grid_colsample_bytree; [combination eta md ss cs]))
                 (fun ss => cs ← param_grid_colsample_bytree;
                    [CallCv (combination eta md ss cs) dtrain])).
      * rewrite foldl_bind. reflexivity.
      * intros ss st3 w3 Hss.
        rewrite (for_each_pure param_grid_colsample_bytree _
                   (fun st cs => search_step cv st (combination eta md ss cs))
                   (fun cs => [CallCv (combination eta md ss cs) dtrain])).
        -- rewrite foldl_bind. reflexivity.
        -- intros cs st4 w4 Hcs. apply grid_step_pure, Hcv. now apply grid_member.
Qed.

End GridSearch.

Section Training.

Context {L : MLLib}.

(** The position of a combination in the grid: the learning rate is the
    outermost loop, then the depth, the row subsample and the column
    subsample. *)
Lemma grid_nested_order (i j k l : nat) (eta : float) (md : Z) (ss cs : float) :
  param_grid_eta !! i = Some eta ->
  param_grid_max_depth !! j = Some md ->
  param_grid_subsample !! k = Some ss ->
  param_grid_colsample_bytree !! l = Some cs ->
  grid !! (((i * 3 + j) * 2 + k) * 2 + l)%nat = Some (combination eta md ss cs).
Proof.
  destruct i as [|[|[|i]]]; try discriminate; intros [= <-];
    (destruct j as [|[|[|j]]]; try discriminate; intros [= <-]);
    (destruct k as [|[|k]]; try discriminate; intros [= <-]);
    (destruct l as [|[|l]]; try discriminate; intros [= <-]); reflexivity.
Qed.

(** C8: the search visits the grid in the order of [grid] (learning rate,
    then depth, then row subsample, then column subsample); the winner is the
    first combination that reaches the least mean test RMSE; its round count
    is the number of rows of its cross-validation table; and the final model
    is trained on the whole training matrix with the winner's parameters and
    that round count. *)
Theorem train_xgboost_grid_search (df : DataFrame) (model_path : option string)
  (w : world) (X : DataFrame) (y : list float) (preproc : Preproc) (X_trans : matrix)
  (cv : params -> list float) (booster : params -> nat -> Booster) :
  training_frame df = Ok (X, y) ->
  fit_transform X = Ok (preproc, X_trans) ->
  (forall p, p ∈ grid -> xgb_cv p (mkDMatrix X_trans (Some y)) = Ok (cv p)) ->
  (exists p, p ∈ grid /\ PrimFloat.ltb (min_skipna (cv p)) infinity = true) ->
  (forall p n, p ∈ grid ->
     xgb_train p (mkDMatrix X_trans (Some y)) n None = Ok (booster p n)) ->
  exists before winner after,
    grid = before ++ winner :: after /\
    (forall q, q ∈ grid ->
       PrimFloat.ltb (min_skipna (cv q)) (min_skipna (cv winner)) = false) /\
    (forall q, q ∈ before ->
       PrimFloat.leb (min_skipna (cv q)) (min_skipna (cv winner)) = false) /\
    let dtrain := mkDMatrix X_trans (Some y) in
    let rounds := length (cv winner) in
    train_xgboost df model_path w =
      (Ok (booster winner rounds, mkArtifacts preproc winner rounds),
       mkWorld
         (<[path_join MODEL_DIR "artifacts.joblib" :=
              OArtifacts (mkArtifacts preproc winner rounds)]>
            (<[default (path_join MODEL_DIR "xgb_co2_model.json") model_path :=
                 OBooster (booster winner rounds)]>
               (<[path_join MODEL_DIR "preproc.joblib" := OPreproc preproc]> (files w))))
         (calls w ++ CallFitTransform X :: map (fun p => CallCv p dtrain) grid ++
            [CallTrain winner dtrain rounds None])).
Proof.
  intros Hframe Hfit Hcv Hfinite Htrain.
  destruct (search_first_minimum cv grid Hfinite)
    as (before & winner & after & Hgrid & Hsearch & Hmin & Hfirst).
  exists before, winner, after. repeat (split; [assumption|]).
  cbv zeta. unfold train_xgboost.
  rewrite (bind_ok _ _ _ _ _ (lift_ok _ _ _ Hframe)).
  rewrite (bind_ok _ _ _ _ _ (invoke_ok _ _ _ _ Hfit)).
  cbv zeta.
  rewrite (bind_ok _ _ _ _ _ (grid_search_runs _ cv _ Hcv)).
  rewrite Hsearch.
  assert (winner ∈ grid) as Hin.
  { rewrite Hgrid. apply elem_of_app. right. left. }
  rewrite (bind_ok _ _ _ _ _ (invoke_ok _ _ _ _ (Htrain winner (length (cv winner)) Hin))).
  unfold mbind, M_bind, joblib_dump, save_model, joblib_dump, mret, M_ret. simpl.
  rewrite <- !app_assoc. reflexivity.
Qed.

End Training.

Section ToyTraining.

Import Toy.

Lemma toy_cv_rows (p : params) (d : DMatrix) : xgb_cv (MLLib := lib) p d = Ok (cv_rows p).
Proof. reflexivity. Qed.

Lemma toy_grid_is_finite :
  exists p, p ∈ grid /\ PrimFloat.ltb (min_skipna (cv_rows p)) infinity = true.
Proof.
  exists (combination 0.01 4 0.7 0.6). split; [|reflexivity].
  apply grid_member; repeat constructor.
Qed.

Lemma train_xgboost_grid_search_witness :
  training_frame (L := lib) training_batch = Ok (training_X, training_y) /\
  exists before winner after,
    grid = before ++ winner :: after /\
    (forall q, q ∈ grid ->
       PrimFloat.ltb (min_skipna (cv_rows q)) (min_skipna (cv_rows winner)) = false) /\
    (forall q, q ∈ before ->
       PrimFloat.leb (min_skipna (cv_rows q)) (min_skipna (cv_rows winner)) = false) /\
    let dtrain := mkDMatrix [[0.4; -0.2; 0; 1]; [1.2; 0.4; 1; 0]]%float (Some training_y) in
    let rounds := length (cv_rows winner) in
    train_xgboost (L := lib) training_batch None (mkWorld ∅ []) =
      (Ok (Z2float (Z.of_nat rounds), mkArtifacts tt winner rounds),
       mkWorld
         (<[path_join MODEL_DIR "artifacts.joblib" :=
              OArtifacts (mkArtifacts tt winner rounds)]>
            (<[default (path_join MODEL_DIR "xgb_co2_model.json") None :=
                 OBooster (Z2float (Z.of_nat rounds))]>
               (<[path_join MODEL_DIR "preproc.joblib" := OPreproc tt]> ∅)))
         ([] ++ CallFitTransform training_X :: map (fun p => CallCv p dtrain) grid ++
            [CallTrain winner dtrain rounds None])).
Proof.
  split; [reflexivity|].
  exact (train_xgboost_grid_search (L := lib) training_batch None (mkWorld ∅ [])
           training_X training_y tt [[0.4; -0.2; 0; 1]; [1.2; 0.4; 1; 0]]%float cv_rows
           (fun _ n => Z2float (Z.of_nat n))
           eq_refl eq_refl (fun p _ => toy_cv_rows p _) toy_grid_is_finite
           (fun _ _ _ => eq_refl)).
Defined.

(** On the toy tables every combination of depth 6 or 8 reaches 3.0: the
    first of them in loop order wins, with the three rounds of its table. *)
Example toy_winner :
  fst (train_xgboost (L := lib) training_batch None (mkWorld ∅ [])) =
    Ok (3%float, mkArtifacts tt (combination 0.01 6 0.7 0.6) 3).
Proof. reflexivity. Qed.

End ToyTraining.

(** ** Cleaning a cleaned frame *)

Section Idempotence.

Variable parse : string -> option float.

Lemma lookup_set_col_eq (c : string) (vs : list value) (cols : list (string * list value)) :
  lookup_col c (set_col c vs cols) = Some vs.
Proof.
  induction cols as [|[k ws] cols IH]; simpl.
  - now rewrite bool_decide_eq_true_2.
  - destruct (bool_decide (k = c)) eqn:Hk; simpl.
    + now rewrite bool_decide_eq_true_2.
    + now rewrite Hk.
Qed.

Lemma lookup_set_col_ne (c c' : string) (vs : list value)
  (cols : list (string * list value)) :
  c <> c' -> lookup_col c' (set_col c vs cols) = lookup_col c' cols.
Proof.
  intros Hne. induction cols as [|[k ws] cols IH]; simpl.
  - now rewrite bool_decide_eq_false_2.
  - destruct (bool_decide (k = c)) eqn:Hk; simpl.
    + apply bool_decide_eq_true_1 in Hk as ->.
      now rewrite !bool_decide_eq_false_2.
    + now rewrite IH.
Qed.

Lemma set_col_same (c : string) (vs : list value) (cols : list (string * list value)) :
  lookup_col c cols = Some vs -> set_col c vs cols = cols.
Proof.
  induction cols as [|[k ws] cols IH]; simpl; [discriminate|].
  destruct (bool_decide (k = c)) eqn:Hk.
  - apply bool_decide_eq_true_1 in Hk as ->. now intros [= ->].
  - intros H. now rewrite IH.
Qed.

(** Storing a column back changes nothing. *)
Lemma setitem_same (df : DataFrame) (c : string) (vs : list value) :
  lookup_col c (df_columns df) = Some vs -> length vs = len df ->
  setitem df c (Ser (mkSeries (df_index df) vs)) = Ok df.
Proof.
  intros Hc Hlen. unfold setitem, reindex_for_setitem. simpl.
  rewrite bool_decide_eq_true_2 by reflexivity. simpl.
  rewrite bool_decide_eq_true_2 by exact Hlen.
  rewrite (set_col_same _ _ _ Hc). now destruct df.
Qed.

Lemma map_id_on {A : Type} (f : A -> A) (ok : A -> bool) (l : list A) :
  (forall x, ok x = true -> f x = x) -> forallb ok l = true -> map f l = l.
Proof.
  intros Hf. induction l as [|x l IH]; simpl; [reflexivity|].
  intros H. apply andb_prop in H as [Hx Hl]. now rewrite Hf, IH.
Qed.

Lemma forallb_impl {A : Type} (p q : A -> bool) (l : list A) :
  (forall x, p x = true -> q x = true) -> forallb p l = true -> forallb q l = true.
Proof.
  intros Hpq. induction l as [|x l IH]; simpl; [reflexivity|].
  intros H. apply andb_prop in H as [Hx Hl]. now rewrite Hpq, IH.
Qed.

Lemma forallb_map_all {A B : Type} (f : A -> B) (q : B -> bool) (l : list A) :
  (forall x, q (f x) = true) -> forallb q (map f l) = true.
Proof. intros H. induction l as [|x l IH]; simpl; [reflexivity|]. now rewrite H, IH. Qed.

Lemma fillna_cell_notna (fill v : value) : notna v = true -> fillna_cell fill v = v.
Proof. unfold notna, fillna_cell. now destruct (isna v). Qed.

Lemma fillna_cell_fills (fill v : value) : notna fill = true -> notna (fillna_cell fill v) = true.
Proof. unfold fillna_cell. destruct (isna v) eqn:H; [easy|]. unfold notna. now rewrite H. Qed.

Lemma nonneg_notna (v : value) : nonneg v = true -> notna v = true.
Proof.
  destruct v as [|f| |]; try discriminate. unfold nonneg, notna. simpl.
  now intros H%andb_prop.
Qed.

Lemma to_numeric_cell_nonneg (v : value) : nonneg v = true -> to_numeric_cell parse v = v.
Proof. now destruct v. Qed.

Lemma clip_lower_cell_nonneg (v : value) : nonneg v = true -> clip_lower_cell 0 v = v.
Proof.
  destruct v as [|f| |]; try discriminate. simpl. intros H%andb_prop.
  destruct H as [_ ->]. now rewrite orb_true_r.
Qed.

Lemma clean_cell_nonneg (v : value) : nonneg (clean_cell parse v) = true.
Proof.
  unfold clean_cell, to_numeric_cell, fillna_cell.
  set (f := match v with VNone => nan | VFloat f => f | VInt z => Z2float z
                       | VStr s => default nan (parse s) end).
  simpl. destruct (PrimFloat.is_nan f) eqn:Hnan; simpl.
  - reflexivity.
  - rewrite Hnan. simpl. destruct (PrimFloat.leb 0 f) eqn:Hle; simpl.
    + now rewrite Hnan, Hle.
    + reflexivity.
Qed.

Lemma clean_cell_id (v : value) : nonneg v = true -> clean_cell parse v = v.
Proof.
  intros H. unfold clean_cell.
  rewrite (to_numeric_cell_nonneg _ H), (fillna_cell_notna _ _ (nonneg_notna _ H)).
  now apply clip_lower_cell_nonneg.
Qed.

Lemma result_bind_ok {A B : Type} (a : A) (f : A -> result B) : (Ok a ≫= f) = f a.
Proof. reflexivity. Qed.

Lemma get_present (df : DataFrame) (c : string) (vs : list value) (d : pyobj) :
  lookup_col c (df_columns df) = Some vs -> get df c d = Ser (mkSeries (df_index df) vs).
Proof. unfold get. now intros ->. Qed.

Lemma getitem_present (df : DataFrame) (c : string) (vs : list value) :
  lookup_col c (df_columns df) = Some vs -> getitem df c = Ok (mkSeries (df_index df) vs).
Proof. unfold getitem. now intros ->. Qed.

Lemma has_col_present (df : DataFrame) (c : string) (vs : list value) :
  lookup_col c (df_columns df) = Some vs -> has_col df c = true.
Proof. unfold has_col. intros ->. now apply bool_decide_eq_true_2. Qed.

Lemma fillna_notna (fill : value) (idx : list Z) (vs : list value) :
  forallb notna vs = true -> fillna fill (mkSeries idx vs) = mkSeries idx vs.
Proof.
  intros H. unfold fillna. simpl. f_equal.
  apply (map_id_on _ notna); [apply fillna_cell_notna|exact H].
Qed.

Lemma to_numeric_nonneg (idx : list Z) (vs : list value) :
  forallb nonneg vs = true ->
  to_numeric parse (Ser (mkSeries idx vs)) = Ser (mkSeries idx vs).
Proof.
  intros H. unfold to_numeric. simpl. do 2 f_equal.
  apply (map_id_on _ nonneg); [apply to_numeric_cell_nonneg|exact H].
Qed.

Lemma clip_lower_nonneg (idx : list Z) (vs : list value) :
  forallb nonneg vs = true -> clip_lower 0 (mkSeries idx vs) = mkSeries idx vs.
Proof.
  intros H. unfold clip_lower. simpl. f_equal.
  apply (map_id_on _ nonneg); [apply clip_lower_cell_nonneg|exact H].
Qed.

Lemma nonneg_all_notna (vs : list value) :
  forallb nonneg vs = true -> forallb notna vs = true.
Proof. apply forallb_impl, nonneg_notna. Qed.

(** No row of a column without nulls is picked by the mask. *)
Lemma loc_set_notna (vs ts : list value) (v : value) :
  forallb notna vs = true ->
  loc_set (zip_with andb (map isna vs) (map eq_zero_cell ts)) v vs = vs.
Proof.
  revert ts. induction vs as [|x vs IH]; intros ts; simpl; [reflexivity|].
  intros H. apply andb_prop in H as [Hx Hvs].
  destruct ts as [|t ts]; simpl; [reflexivity|].
  unfold notna in Hx. destruct (isna x); [discriminate|]. simpl. now rewrite IH.
Qed.

(** On a column that is present the closing loop's body maps [clean_cell]. *)
Lemma clean_numeric_present (df : DataFrame) (c : string) (vs : list value) :
  lookup_col c (df_columns df) = Some vs ->
  clean_numeric parse df c =
    setitem df c (Ser (mkSeries (df_index df) (map (clean_cell parse) vs))).
Proof.
  intros Hc. unfold clean_numeric.
  rewrite (has_col_present _ _ _ Hc), (getitem_present _ _ _ Hc), result_bind_ok.
  unfold to_numeric, obj_fillna, fillna, clip_lower. simpl.
  now rewrite !map_map.
Qed.

Lemma clean_numeric_clean (df : DataFrame) (c : string) :
  column_ok nonneg c df -> clean_numeric parse df c = Ok df.
Proof.
  intros (vs & Hc & Hlen & Hok). rewrite (clean_numeric_present _ _ _ Hc).
  rewrite (map_id_on _ nonneg _ clean_cell_id Hok). now apply setitem_same.
Qed.

(** Cleaning a clean frame changes nothing. *)
Lemma basic_preprocess_clean (df : DataFrame) :
  is_clean df -> basic_preprocess parse df = Ok df.
Proof.
  intros (Htr & Hfu & Hen & Hpo & Hta).
  pose proof (clean_numeric_clean _ _ Hen) as Hen'.
  pose proof (clean_numeric_clean _ _ Hpo) as Hpo'.
  pose proof (clean_numeric_clean _ _ Hta) as Hta'.
  destruct Htr as (tr & Htr & Htrlen & Htrok), Hfu as (fu & Hfu & Hfulen & Hfuok),
    Hen as (en & Hen & Henlen & Henok), Hpo as (po & Hpo & Hpolen & Hpook),
    Hta as (ta & Hta & Htalen & Htaok).
  unfold basic_preprocess.
  rewrite (get_present _ _ _ _ Htr), (setitem_same _ _ _ Htr Htrlen), result_bind_ok.
  rewrite (getitem_present _ _ _ Htr), result_bind_ok.
  rewrite (fillna_notna _ _ _ Htrok), (setitem_same _ _ _ Htr Htrlen), result_bind_ok.
  rewrite (get_present _ _ _ _ Hen), (to_numeric_nonneg _ _ Henok).
  unfold obj_fillna. rewrite (fillna_notna _ _ _ (nonneg_all_notna _ Henok)), result_bind_ok.
  rewrite (setitem_same _ _ _ Hen Henlen), result_bind_ok.
  rewrite (get_present _ _ _ _ Hpo), (to_numeric_nonneg _ _ Hpook).
  rewrite (setitem_same _ _ _ Hpo Hpolen), result_bind_ok.
  rewrite (getitem_present _ _ _ Hpo), result_bind_ok.
  rewrite (getitem_present _ _ _ Hta), result_bind_ok.
  cbv zeta. unfold loc_setitem. rewrite Hpo. simpl s_values. simpl default.
  rewrite (loc_set_notna _ _ _ (nonneg_all_notna _ Hpook)).
  rewrite (set_col_same _ _ _ Hpo).
  replace (mkFrame (df_index df) (df_columns df)) with df by now destruct df.
  rewrite (getitem_present _ _ _ Hpo), !result_bind_ok.
  rewrite (fillna_notna _ _ _ (nonneg_all_notna _ Hpook)).
  rewrite (setitem_same _ _ _ Hpo Hpolen), result_bind_ok.
  rewrite (get_present _ _ _ _ Hfu). unfold obj_fillna.
  rewrite (fillna_notna _ _ _ Hfuok), result_bind_ok.
  rewrite (setitem_same _ _ _ Hfu Hfulen), result_bind_ok.
  simpl foldl. rewrite Hta'. rewrite result_bind_ok. rewrite Hen', result_bind_ok.
  exact Hpo'.
Qed.

Lemma updates_len (c : string) (df df' : DataFrame) : updates c df df' -> len df' = len df.
Proof. intros [H _]. unfold len. now rewrite H. Qed.

Lemma updates_lookup (c c' : string) (df df' : DataFrame) :
  updates c df df' -> c <> c' ->
  lookup_col c' (df_columns df') = lookup_col c' (df_columns df).
Proof. intros (_ & vs & ->) Hne. now apply lookup_set_col_ne. Qed.

Lemma updates_column_ok (ok : value -> bool) (c c' : string) (df df' : DataFrame) :
  updates c df df' -> c <> c' -> column_ok ok c' df -> column_ok ok c' df'.
Proof.
  intros Hup Hne (vs & Hc & Hlen & Hok). exists vs.
  rewrite (updates_lookup _ _ _ _ Hup Hne), (updates_len _ _ _ Hup). auto.
Qed.

Lemma setitem_updates (df df' : DataFrame) (c : string) (o : pyobj) :
  setitem df c o = Ok df' -> updates c df df'.
Proof.
  unfold setitem. destruct o as [v|s].
  - intros [= <-]. split; [reflexivity|]. now eexists.
  - destruct (reindex_for_setitem s df) as [vs|]; [|discriminate].
    rewrite result_bind_ok. destruct (bool_decide _); [|discriminate].
    intros [= <-]. split; [reflexivity|]. now eexists.
Qed.

Lemma setitem_present (df df' : DataFrame) (c : string) (o : pyobj) :
  setitem df c o = Ok df' -> exists vs, lookup_col c (df_columns df') = Some vs.
Proof.
  intros (_ & vs & ->)%setitem_updates. exists vs. apply lookup_set_col_eq.
Qed.

Lemma loc_setitem_updates (df : DataFrame) (mask : list bool) (c : string) (v : value) :
  updates c df (loc_setitem df mask c v).
Proof. split; [reflexivity|]. now eexists. Qed.

(** Storing a series that carries the frame's index and whose cells are all
    [ok] gives an [ok] column. *)
Lemma setitem_column_ok (ok : value -> bool) (df df' : DataFrame) (c : string) (s : Series) :
  setitem df c (Ser s) = Ok df' -> s_index s = df_index df ->
  forallb ok (s_values s) = true -> column_ok ok c df'.
Proof.
  unfold setitem, reindex_for_setitem. intros H Hidx Hok. revert H.
  rewrite bool_decide_eq_true_2 by exact Hidx. simpl. rewrite ?result_bind_ok.
  destruct (bool_decide (length (s_values s) = len df)) eqn:Hlen; [|discriminate].
  apply bool_decide_eq_true_1 in Hlen. intros [= <-].
  exists (s_values s). simpl. rewrite lookup_set_col_eq. auto.
Qed.

Lemma getitem_inv (df : DataFrame) (c : string) (s : Series) :
  getitem df c = Ok s ->
  s_index s = df_index df /\ lookup_col c (df_columns df) = Some (s_values s).
Proof.
  unfold getitem. destruct (lookup_col c (df_columns df)); [|discriminate].
  now intros [= <-].
Qed.

Lemma clean_numeric_ok (df df' : DataFrame) (c : string) (vs : list value) :
  clean_numeric parse df c = Ok df' -> lookup_col c (df_columns df) = Some vs ->
  updates c df df' /\ column_ok nonneg c df'.
Proof.
  intros H Hc. rewrite (clean_numeric_present _ _ _ Hc) in H. split.
  - exact (setitem_updates _ _ _ _ H).
  - apply (setitem_column_ok _ _ _ _ _ H); [reflexivity|].
    apply forallb_map_all, clean_cell_nonneg.
Qed.

Lemma forallb_replicate {A : Type} (p : A -> bool) (n : nat) (x : A) :
  p x = true -> forallb p (replicate n x) = true.
Proof. intros H. induction n as [|n IH]; simpl; [reflexivity|]. now rewrite H, IH. Qed.

Ltac inv_bind H a E :=
  match type of H with
  | mbind _ ?m = Ok _ =>
      destruct m as [a|?] eqn:E; [rewrite result_bind_ok in H | discriminate H]
  end.

(** Cleaning gives a clean frame, as long as the fuel-type column is there or
    the rows are labelled 0, 1, ... *)
Lemma basic_preprocess_is_clean (df out : DataFrame) :
  has_col df "fuel_type" = true \/ df_index df = RangeIndex (len df) ->
  basic_preprocess parse df = Ok out -> is_clean out.
Proof.
  intros Hfuel H. unfold basic_preprocess in H.
  inv_bind H d1 H1. inv_bind H s2 H2. inv_bind H d2 H3.
  inv_bind H e H4. inv_bind H d3 H5. inv_bind H d4 H6.
  inv_bind H p H7. inv_bind H t H8. cbv zeta in H.
  set (d5 := loc_setitem d4 _ "power_ps" (VFloat 0)) in H.
  inv_bind H p2 H9. inv_bind H p3 H10. inv_bind H d6 H11.
  inv_bind H f H12. inv_bind H d7 H13.
  simpl foldl in H. rewrite ?result_bind_ok in H.
  inv_bind H d9 H15. inv_bind H15 d8 H14.
  pose proof (setitem_updates _ _ _ _ H1) as U1.
  pose proof (setitem_updates _ _ _ _ H3) as U2.
  pose proof (setitem_updates _ _ _ _ H5) as U3.
  pose proof (setitem_updates _ _ _ _ H6) as U4.
  assert (updates "power_ps" d4 d5) as U5 by apply loc_setitem_updates.
  pose proof (setitem_updates _ _ _ _ H11) as U6.
  pose proof (setitem_updates _ _ _ _ H13) as U7.
  (* the three numeric columns are present when the loop starts *)
  destruct (getitem_inv _ _ _ H8) as [_ Hta4].
  assert (lookup_col TARGET (df_columns d7) = Some (s_values t)) as Hta7.
  { rewrite (updates_lookup _ _ _ _ U7), (updates_lookup _ _ _ _ U6),
      (updates_lookup _ _ _ _ U5) by discriminate. exact Hta4. }
  destruct (clean_numeric_ok _ _ _ _ H14 Hta7) as [U8 Kta].
  destruct (setitem_present _ _ _ _ H5) as [en Hen3].
  assert (lookup_col "engine_size_cm3" (df_columns d8) = Some en) as Hen8.
  { rewrite (updates_lookup _ _ _ _ U8), (updates_lookup _ _ _ _ U7),
      (updates_lookup _ _ _ _ U6), (updates_lookup _ _ _ _ U5),
      (updates_lookup _ _ _ _ U4) by discriminate. exact Hen3. }
  destruct (clean_numeric_ok _ _ _ _ H15 Hen8) as [U9 Ken].
  destruct (setitem_present _ _ _ _ H11) as [po Hpo6].
  assert (lookup_col "power_ps" (df_columns d9) = Some po) as Hpo9.
  { rewrite (updates_lookup _ _ _ _ U9), (updates_lookup _ _ _ _ U8),
      (updates_lookup _ _ _ _ U7) by discriminate. exact Hpo6. }
  destruct (clean_numeric_ok _ _ _ _ H Hpo9) as [U10 Kpo].
  (* transmission type: filled right after the assignment *)
  assert (column_ok notna "transmission_type" d2) as Ktr.
  { destruct (getitem_inv _ _ _ H2) as [Hidx _].
    apply (setitem_column_ok _ _ _ _ _ H3); [exact Hidx|].
    apply forallb_map_all. intros x. now apply fillna_cell_fills. }
  (* fuel type: filled before the assignment *)
  assert (column_ok notna "fuel_type" d7) as Kfu.
  { assert (df_index d6 = df_index df) as Hidx6.
    { destruct U1 as [E1 _], U2 as [E2 _], U3 as [E3 _], U4 as [E4 _],
        U5 as [E5 _], U6 as [E6 _]. congruence. }
    assert (lookup_col "fuel_type" (df_columns d6) = lookup_col "fuel_type" (df_columns df))
      as Hfu6.
    { rewrite (updates_lookup _ _ _ _ U6), (updates_lookup _ _ _ _ U5),
        (updates_lookup _ _ _ _ U4), (updates_lookup _ _ _ _ U3),
        (updates_lookup _ _ _ _ U2), (updates_lookup _ _ _ _ U1) by discriminate.
      reflexivity. }
    unfold get in H12. rewrite Hfu6 in H12.
    destruct (lookup_col "fuel_type" (df_columns df)) as [fu|] eqn:Hfu0.
    - injection H12 as <-. apply (setitem_column_ok _ _ _ _ _ H13); [reflexivity|].
      apply forallb_map_all. intros x. now apply fillna_cell_fills.
    - destruct Hfuel as [Hhas|Hrange].
      { unfold has_col in Hhas. rewrite Hfu0 in Hhas.
        apply bool_decide_eq_true_1 in Hhas. now destruct Hhas. }
      injection H12 as <-. apply (setitem_column_ok _ _ _ _ _ H13).
      + simpl. unfold len. now rewrite Hidx6.
      + apply forallb_map_all. intros x. now apply fillna_cell_fills. }
  repeat split.
  - do 8 (eapply updates_column_ok; [eassumption|discriminate|]). exact Ktr.
  - do 3 (eapply updates_column_ok; [eassumption|discriminate|]). exact Kfu.
  - eapply updates_column_ok; [eassumption|discriminate|]. exact Ken.
  - exact Kpo.
  - do 2 (eapply updates_column_ok; [eassumption|discriminate|]). exact Kta.
Qed.

(** Cleaning twice is cleaning once on every frame that has a fuel-type
    column or whose rows are labelled 0, 1, ... *)
Theorem basic_preprocess_idempotent (df : DataFrame) :
  has_col df "fuel_type" = true \/ df_index df = RangeIndex (len df) ->
  (basic_preprocess parse df ≫= basic_preprocess parse) = basic_preprocess parse df.
Proof.
  intros Hfuel. destruct (basic_preprocess parse df) as [out|e] eqn:H; [|reflexivity].
  rewrite result_bind_ok. apply basic_preprocess_clean.
  exact (basic_preprocess_is_clean _ _ Hfuel H).
Qed.

End Idempotence.

Lemma basic_preprocess_idempotent_witness :
  has_col Toy.training_batch "fuel_type" = true /\
  (basic_preprocess (fun _ => None) Toy.training_batch
     ≫= basic_preprocess (fun _ => None)) =
    basic_preprocess (fun _ => None) Toy.training_batch.
Proof.
  split; [reflexivity|].
  exact (basic_preprocess_idempotent (fun _ => None) Toy.training_batch (or_introl eq_refl)).
Defined.

(** ** Cleaning twice *)

Section Cleaning.

Import Toy.

(** C6 on a frame that was filtered and has no fuel-type column: the first
    cleaning leaves the fuel type null in both rows (the default series is
    labelled 0, 1 and the frame 5, 6, so nothing lines up), and the second
    cleaning fills it; cleaning twice is not cleaning once. *)
Theorem basic_preprocess_twice_differs (parse : string -> option float) :
  basic_preprocess parse filtered_batch = Ok (cleaned [VFloat nan; VFloat nan]) /\
  basic_preprocess parse (cleaned [VFloat nan; VFloat nan]) =
    Ok (cleaned [VStr "Petrol"; VStr "Petrol"]) /\
  (basic_preprocess parse filtered_batch ≫= basic_preprocess parse) <>
    basic_preprocess parse filtered_batch.
Proof.
  assert (basic_preprocess parse filtered_batch = Ok (cleaned [VFloat nan; VFloat nan]))
    as Honce by (vm_compute; reflexivity).
  assert (basic_preprocess parse (cleaned [VFloat nan; VFloat nan]) =
          Ok (cleaned [VStr "Petrol"; VStr "Petrol"]))
    as Htwice by (vm_compute; reflexivity).
  split; [exact Honce|]. split; [exact Htwice|].
  rewrite Honce. simpl. rewrite Htwice. intros H.
  apply (f_equal (fun r => match r with
                           | Ok df => lookup_col "fuel_type" (df_columns df)
                           | Err _ => None
                           end)) in H.
  vm_compute in H. discriminate.
Qed.

(** The sibling column is filled in both rows by the first cleaning. *)
Example transmission_filled_at_once :
  lookup_col "transmission_type" (df_columns (cleaned [VFloat nan; VFloat nan])) =
    Some [VStr "Automatic"; VStr "Automatic"].
Proof. reflexivity. Qed.

End Cleaning.

(** ** More on the inference call *)

Section InferenceFacts.

Context {L : MLLib}.

Lemma returns_ret {A : Type} (a : A) (P : A -> Prop) : P a -> returns (mret a) P.
Proof. intros H w a' w' [= <- _]. exact H. Qed.

Lemma returns_bind {A B : Type} (m : M A) (f : A -> M B) (P : B -> Prop) :
  (forall a, returns (f a) P) -> returns (m ≫= f) P.
Proof.
  intros Hf w b w'. unfold mbind, M_bind.
  destruct (m w) as [[a|e] w1]; [apply Hf|discriminate].
Qed.

(** X2: The call never writes to the model directory, whatever it returns or
    raises. *)
Theorem process_realtime_record_read_only (record : gmap string value) :
  read_only (process_realtime_record record).
Proof. unfold process_realtime_record. effects. Qed.

(** X3: With one of the four artifact files missing the call raises at the load,
    before the record is read and before any estimator is called. *)
Theorem process_missing_artifact (record : gmap string value) (w : world) (path : string) :
  path ∈ artifact_paths -> files w !! path = None ->
  exists e, process_realtime_record record w = (Err e, w) /\
            (e = FileNotFoundError \/ e = XGBoostError).
Proof.
  intros Hin Hnone. unfold process_realtime_record.
  unfold mbind at 1. unfold M_bind at 1. unfold joblib_load at 1.
  destruct (files w !! path_join MODEL_DIR "preproc.joblib") as [pre|] eqn:H1;
    [|eexists; split; [reflexivity|now left]].
  unfold mbind at 1. unfold M_bind at 1. unfold load_model at 1.
  destruct (files w !! path_join MODEL_DIR "xgb_co2_model.json") as [[| b | | |]|] eqn:H2;
    try (eexists; split; [reflexivity|now right]).
  unfold mbind at 1. unfold M_bind at 1. unfold joblib_load at 1.
  destruct (files w !! path_join MODEL_DIR "anomaly_if.joblib") as [iso|] eqn:H3;
    [|eexists; split; [reflexivity|now left]].
  unfold mbind at 1. unfold M_bind at 1. unfold joblib_load at 1.
  destruct (files w !! path_join MODEL_DIR "maintenance_tree.joblib") as [tree|] eqn:H4;
    [|eexists; split; [reflexivity|now left]].
  unfold artifact_paths in Hin.
  repeat (apply elem_of_cons in Hin as [->|Hin]; [congruence|]).
  now apply elem_of_nil in Hin.
Qed.

(** X4: A result is never partly filled: it is the anomaly result, or it carries
    both predictions and the action decided from them. *)
Theorem process_result_shape (record : gmap string value) (w w' : world) (res : inference) :
  process_realtime_record record w = (Ok res, w') -> result_shape record res.
Proof.
  revert w res w'. change (returns (process_realtime_record record) (result_shape record)).
  unfold process_realtime_record.
  do 8 (apply returns_bind; intros ?).
  destruct (_ =? -1).
  - apply returns_ret. left. auto.
  - do 7 (apply returns_bind; intros ?). apply returns_ret. right.
    split; [reflexivity|]. eexists _, _. auto.
Qed.

Lemma calls_after_gate (record : gmap string value) (w : world)
  (p : Preproc) (b : Booster) (iso : obj) (t : DTree)
  (df X_num X : DataFrame) (flag : Z) (X_trans : matrix) (preds days : list float)
  (pred_co2 : float) :
  artifacts_load w (OPreproc p) b iso (OTree t) ->
  gated record w df X_num flag ->
  flag <> -1 ->
  select df (NUMERIC_FEATURES ++ CATEGORICAL_FEATURES) = Ok X ->
  transform p X = Ok X_trans ->
  booster_predict b (mkDMatrix X_trans None) = Ok (pred_co2 :: preds) ->
  tree_predict t X_trans = Ok days ->
  calls (snd (process_realtime_record record w)) =
    calls w ++ [CallIsoPredict X_num; CallTransform X;
                CallBoosterPredict (mkDMatrix X_trans None); CallTreePredict X_trans].
Proof.
  intros Hload Hg Hflag HX Ht Hb Hd.
  destruct (process_gate _ _ _ _ _ Hg) as (pre & b' & i & tree & Hload' & ->).
  destruct (artifacts_load_inj _ _ _ _ _ _ _ _ _ Hload Hload') as (<- & <- & _ & <-).
  destruct (Z.eqb_spec flag (-1)) as [|_]; [contradiction|].
  unfold after_flag.
  rewrite (bind_ok _ _ _ _ _ (lift_ok _ _ _ HX)).
  unfold preproc_transform, tree_predict_call.
  rewrite (bind_ok _ _ _ _ _ (invoke_ok _ _ _ _ Ht)).
  cbv zeta.
  rewrite (bind_ok _ _ _ _ _ (invoke_ok _ _ _ _ Hb)).
  rewrite (bind_ok _ _ _ _ pred_co2 (lift_ok (item0 (pred_co2 :: preds)) _ _ eq_refl)).
  rewrite (bind_ok _ _ _ _ _ (invoke_ok _ _ _ _ Hd)).
  unfold mbind, M_bind, lift, mret, M_ret.
  destruct (item0 days) as [raw|e]; [destruct (py_int raw)|]; simpl;
    now rewrite <- !app_assoc.
Qed.

(** X5: In a run that is not flagged each estimator is called once, in the order
    gate, transform, regressor, tree.  The transform is handed the five
    feature values of the record as given (an absent field by its default,
    nothing cleaned), without the observed co2, and the regressor and the tree
    are handed the same transformed row. *)
Theorem process_full_run_calls (record : gmap string value) (w : world)
  (p : Preproc) (b : Booster) (i : IsoForest) (t : DTree)
  (engine power co2 : float) (flag : Z) (flags : list Z)
  (X_trans : matrix) (pred_co2 : float) (preds days : list float) :
  artifacts_load w (OPreproc p) b (OIso i) (OTree t) ->
  py_float parse_float (dict_get record "engine_size_cm3" (VFloat 0)) = Ok engine ->
  py_float parse_float (dict_get record "power_ps" (VFloat 0)) = Ok power ->
  py_float parse_float (dict_get record "co2" (VFloat 0)) = Ok co2 ->
  iso_predict i (raw_numeric engine power) = Ok (flag :: flags) ->
  flag <> -1 ->
  transform p (record_features record engine power) = Ok X_trans ->
  booster_predict b (mkDMatrix X_trans None) = Ok (pred_co2 :: preds) ->
  tree_predict t X_trans = Ok days ->
  calls (snd (process_realtime_record record w)) =
    calls w ++ [CallIsoPredict (raw_numeric engine power);
                CallTransform (record_features record engine power);
                CallBoosterPredict (mkDMatrix X_trans None);
                CallTreePredict X_trans].
Proof.
  intros Hload He Hp Hc Hgate Hflag Ht Hb Hd.
  pose proof (record_frame_fields record engine power co2 He Hp Hc) as Hdf.
  eapply calls_after_gate; try eassumption.
  - eapply Gated; [exact Hload|exact Hdf|reflexivity|reflexivity|exact Hgate].
  - reflexivity.
Qed.

(** Two records that give the same value to each of the six fields the call
    reads are answered alike. *)
Lemma process_same_fields (r1 r2 : gmap string value) (w : world) :
  (forall k d, (k, d) ∈ record_defaults -> dict_get r1 k d = dict_get r2 k d) ->
  process_realtime_record r1 w = process_realtime_record r2 w.
Proof.
  intros H. unfold process_realtime_record, record_frame.
  rewrite (H "engine_size_cm3" (VFloat 0)), (H "power_ps" (VFloat 0)),
    (H "fuel_type" (VStr "Petrol")), (H "transmission_type" (VStr "Automatic")),
    (H "manufacturer" (VStr "Unknown")), (H "co2" (VFloat 0));
    [reflexivity|unfold record_defaults; set_solver..].
Qed.

(** X6: A key that is not one of the six fields (a vehicle id, a region, a
    timestamp) plays no part in the answer. *)
Theorem process_ignores_other_keys (record : gmap string value) (w : world)
  (k : string) (v : value) :
  k ∉ map fst record_defaults ->
  process_realtime_record (<[k := v]> record) w = process_realtime_record record w.
Proof.
  intros Hk. apply process_same_fields. intros k' d Hin.
  unfold dict_get. rewrite lookup_insert_ne; [reflexivity|].
  intros ->. apply Hk. apply list_elem_of_fmap. now exists (k', d).
Qed.

(** X7: A field that is absent is read as its default: writing the default into
    the record changes nothing. *)
Theorem process_missing_field_is_default (record : gmap string value) (w : world)
  (k : string) (d : value) :
  (k, d) ∈ record_defaults -> record !! k = None ->
  process_realtime_record (<[k := d]> record) w = process_realtime_record record w.
Proof.
  intros Hkd Hnone. apply process_same_fields. intros k' d' Hin.
  unfold dict_get. destruct (decide (k = k')) as [<-|Hne].
  - rewrite lookup_insert_eq, Hnone.
    unfold record_defaults in Hkd, Hin.
    repeat (apply elem_of_cons in Hkd as [Hkd|Hkd]);
      try (now apply elem_of_nil in Hkd);
      injection Hkd as -> ->;
      repeat (apply elem_of_cons in Hin as [Hin|Hin]);
      try (now apply elem_of_nil in Hin); congruence.
  - now rewrite lookup_insert_ne.
Qed.

End InferenceFacts.

Section ToyInference.

Import Toy.

Lemma process_missing_artifact_witness :
  path_join MODEL_DIR "anomaly_if.joblib" ∈ artifact_paths /\
  files trained !! path_join MODEL_DIR "anomaly_if.joblib" = None /\
  exists e,
    process_realtime_record (L := lib) (reading "Petrol") trained = (Err e, trained) /\
    (e = FileNotFoundError \/ e = XGBoostError).
Proof.
  assert (path_join MODEL_DIR "anomaly_if.joblib" ∈ artifact_paths) as Hin
    by (right; right; left).
  assert (files trained !! path_join MODEL_DIR "anomaly_if.joblib" = None) as Hnone
    by reflexivity.
  split; [exact Hin|]. split; [exact Hnone|].
  exact (process_missing_artifact (L := lib) (reading "Petrol") trained _ Hin Hnone).
Defined.

Lemma process_result_shape_witness :
  process_realtime_record (L := lib) (reading "Petrol") (start 1200 30) =
    (Ok (mkInference false OK_ACTION (Some 1200%float) (Some 30)),
     snd (process_realtime_record (L := lib) (reading "Petrol") (start 1200 30))) /\
  result_shape (reading "Petrol") (mkInference false OK_ACTION (Some 1200%float) (Some 30)).
Proof.
  assert (process_realtime_record (L := lib) (reading "Petrol") (start 1200 30) =
          (Ok (mkInference false OK_ACTION (Some 1200%float) (Some 30)),
           snd (process_realtime_record (L := lib) (reading "Petrol") (start 1200 30))))
    as Hrun by reflexivity.
  split; [exact Hrun|].
  exact (process_result_shape (L := lib) (reading "Petrol") (start 1200 30) _ _ Hrun).
Defined.

Lemma process_full_run_calls_witness :
  artifacts_load (L := lib) (start 1200 30) (OPreproc tt) 1200%float (OIso 10000%float)
    (OTree 30%float) /\
  calls (snd (process_realtime_record (L := lib) (reading "Petrol") (start 1200 30))) =
    calls (start 1200 30) ++
      [CallIsoPredict (raw_numeric 1200 90);
       CallTransform (record_features (reading "Petrol") 1200 90);
       CallBoosterPredict (mkDMatrix [[0.4; -0.2; 0; 1]]%float None);
       CallTreePredict [[0.4; -0.2; 0; 1]]%float].
Proof.
  assert (artifacts_load (L := lib) (start 1200 30) (OPreproc tt) 1200%float
            (OIso 10000%float) (OTree 30%float)) as Hload by (repeat split).
  split; [exact Hload|].
  refine (process_full_run_calls (L := lib) (reading "Petrol") (start 1200 30)
            (tt : @Preproc lib) (1200%float : @Booster lib) (10000%float : @IsoForest lib)
            (30%float : @DTree lib) 1200 90 110 1 []
            [[0.4; -0.2; 0; 1]]%float 1200%float [] [30%float]
            Hload eq_refl eq_refl eq_refl eq_refl _ eq_refl eq_refl eq_refl).
  discriminate.
Defined.

Lemma process_ignores_other_keys_witness :
  ("nox" ∉ map fst record_defaults) /\
  process_realtime_record (L := lib) (<["nox" := VFloat 0.4]> (reading "Diesel"))
      (start 1600 10) =
    process_realtime_record (L := lib) (reading "Diesel") (start 1600 10).
Proof.
  assert ("nox" ∉ map fst record_defaults) as Hk.
  { unfold record_defaults. simpl. rewrite !not_elem_of_cons.
    repeat split; try discriminate. apply not_elem_of_nil. }
  split; [exact Hk|].
  exact (process_ignores_other_keys (L := lib) (reading "Diesel") (start 1600 10)
           "nox" (VFloat 0.4) Hk).
Defined.

Lemma process_missing_field_is_default_witness :
  ("manufacturer", VStr "Unknown") ∈ record_defaults /\
  reading "Diesel" !! "manufacturer" = None /\
  process_realtime_record (L := lib) (<["manufacturer" := VStr "Unknown"]> (reading "Diesel"))
      (start 1600 10) =
    process_realtime_record (L := lib) (reading "Diesel") (start 1600 10).
Proof.
  assert (("manufacturer", VStr "Unknown") ∈ record_defaults) as Hin
    by (do 4 right; left).
  assert (reading "Diesel" !! "manufacturer" = None) as Hnone by reflexivity.
  split; [exact Hin|]. split; [exact Hnone|].
  exact (process_missing_field_is_default (L := lib) (reading "Diesel") (start 1600 10)
           "manufacturer" (VStr "Unknown") Hin Hnone).
Defined.

End ToyInference.

(** ** Cleaning, column by column *)

Section CleaningColumns.

Variable parse : string -> option float.

Lemma well_formed_lookup (df : DataFrame) (c : string) (vs : list value) :
  well_formed df -> lookup_col c (df_columns df) = Some vs -> length vs = len df.
Proof.
  intros [Hwf _]. revert Hwf. generalize (len df) as n. intros n.
  induction (df_columns df) as [|[k ws] cols IH]; simpl; [discriminate|].
  intros Hwf. apply Forall_cons in Hwf as [Hk Hwf].
  destruct (bool_decide (k = c)); [now intros [= <-]|now apply IH].
Qed.

Lemma Forall_set_col (P : string * list value -> Prop) (c : string) (vs : list value)
  (cols : list (string * list value)) :
  P (c, vs) -> Forall P cols -> Forall P (set_col c vs cols).
Proof.
  intros Hc. induction 1 as [|[k ws] cols Hk Hcols IH]; simpl.
  - now constructor.
  - destruct (bool_decide (k = c)); now constructor.
Qed.

Lemma set_col_names (x c : string) (vs : list value) (cols : list (string * list value)) :
  x ∈ map fst (set_col c vs cols) -> x = c \/ x ∈ map fst cols.
Proof.
  induction cols as [|[k ws] cols IH]; simpl.
  - intros H. apply list_elem_of_singleton in H. now left.
  - destruct (bool_decide (k = c)) eqn:Hk; simpl; intros H.
    + apply elem_of_cons in H as [->|H]; [now left|]. right. now right.
    + apply elem_of_cons in H as [->|H]; [right; left|].
      destruct (IH H) as [->|Hin]; [now left|]. right. now right.
Qed.

(** Writing a column keeps the names distinct. *)
Lemma NoDup_set_col (c : string) (vs : list value) (cols : list (string * list value)) :
  NoDup (map fst cols) -> NoDup (map fst (set_col c vs cols)).
Proof.
  induction cols as [|[k ws] cols IH]; simpl; intros Hnd.
  - apply NoDup_singleton.
  - apply NoDup_cons in Hnd as [Hk Hnd].
    destruct (bool_decide (k = c)) eqn:Hkc; simpl.
    + apply bool_decide_eq_true_1 in Hkc as ->. now apply NoDup_cons.
    + apply bool_decide_eq_false_1 in Hkc. apply NoDup_cons. split; [|now apply IH].
      intros [->|Hin]%set_col_names; [now apply Hkc|now apply Hk].
Qed.

Lemma well_formed_set_col (idx : list Z) (c : string) (vs : list value)
  (cols : list (string * list value)) :
  well_formed (mkFrame idx cols) -> length vs = length idx ->
  well_formed (mkFrame idx (set_col c vs cols)).
Proof.
  intros [Hwf Hnd] Hlen. split; [now apply Forall_set_col|now apply NoDup_set_col].
Qed.

(** Storing a series that carries the frame's index. *)
Lemma setitem_aligned (idx : list Z) (cols : list (string * list value)) (c : string)
  (vs : list value) :
  length vs = length idx ->
  setitem (mkFrame idx cols) c (Ser (mkSeries idx vs)) = Ok (mkFrame idx (set_col c vs cols)).
Proof.
  intros Hlen. unfold setitem, reindex_for_setitem. simpl.
  rewrite bool_decide_eq_true_2 by reflexivity. simpl.
  now rewrite bool_decide_eq_true_2 by exact Hlen.
Qed.

Lemma label_lookup_range (l : Z) (v : value) (n a : nat) :
  label_lookup l (map Z.of_nat (seq a n)) (replicate n v) =
    if (Z.of_nat a <=? l) && (l <? Z.of_nat (a + n)) then v else VFloat nan.
Proof.
  revert a. induction n as [|n IH]; intros a; simpl.
  - replace (a + 0)%nat with a by lia.
    destruct (Z.leb_spec (Z.of_nat a) l), (Z.ltb_spec l (Z.of_nat a)); simpl;
      try reflexivity; lia.
  - destruct (Z.eqb_spec (Z.of_nat a) l) as [<-|Hne].
    + rewrite Z.leb_refl. simpl.
      destruct (Z.ltb_spec (Z.of_nat a) (Z.of_nat (a + S n))); [reflexivity|lia].
    + rewrite IH.
      destruct (Z.leb_spec (Z.of_nat (S a)) l), (Z.leb_spec (Z.of_nat a) l),
        (Z.ltb_spec l (Z.of_nat (S a + n))), (Z.ltb_spec l (Z.of_nat (a + S n)));
        simpl; try reflexivity; lia.
Qed.

Lemma NoDup_RangeIndex (n : nat) : NoDup (RangeIndex n).
Proof.
  unfold RangeIndex. apply NoDup_fmap_2; [intros x y; lia|apply NoDup_seq].
Qed.

Lemma replicate_as_map (n : nat) (v : value) :
  replicate n v = map (fun l => if in_range n l then v else VFloat nan) (RangeIndex n).
Proof.
  unfold RangeIndex. rewrite map_map.
  assert (forall a m, (a + m <= n)%nat ->
            replicate m v =
              map (fun x => if in_range n (Z.of_nat x) then v else VFloat nan) (seq a m))
    as H.
  { intros a m. revert a. induction m as [|m IH]; intros a Hle; simpl; [reflexivity|].
    rewrite <- IH by lia. unfold in_range.
    destruct (Z.leb_spec 0 (Z.of_nat a)), (Z.ltb_spec (Z.of_nat a) (Z.of_nat n));
      simpl; try reflexivity; lia. }
  apply (H 0%nat n). lia.
Qed.

(** Storing the default series of a missing column: its labels are 0, ...,
    n-1 and only the rows of the frame that carry such a label get a value. *)
Lemma setitem_const (df : DataFrame) (c : string) (v : value) :
  setitem df c (Ser (Series_const v (len df))) =
    Ok (mkFrame (df_index df) (set_col c (aligned_const df v) (df_columns df))).
Proof.
  unfold setitem, reindex_for_setitem, Series_const, aligned_const. simpl.
  destruct (bool_decide (RangeIndex (len df) = df_index df)) eqn:Hidx; simpl.
  - apply bool_decide_eq_true_1 in Hidx.
    rewrite length_replicate, bool_decide_eq_true_2 by reflexivity.
    rewrite <- Hidx at 3. now rewrite <- replicate_as_map.
  - destruct (bool_decide (len df = 0%nat)) eqn:Hlen; simpl.
    + apply bool_decide_eq_true_1 in Hlen. rewrite Hlen. simpl.
      unfold len in Hlen. apply length_zero_iff_nil in Hlen. rewrite Hlen. simpl.
      reflexivity.
    + unfold reindex. simpl.
      rewrite bool_decide_eq_true_2 by apply NoDup_RangeIndex. simpl.
      rewrite length_map, bool_decide_eq_true_2 by reflexivity.
      do 3 f_equal. apply map_ext. intros l. unfold RangeIndex.
      rewrite label_lookup_range. reflexivity.
Qed.

Lemma aligned_const_length (df : DataFrame) (v : value) :
  length (aligned_const df v) = len df.
Proof. unfold aligned_const. now rewrite length_map. Qed.

Lemma fillna_aligned_const (df : DataFrame) (v : value) :
  notna v = true ->
  map (fillna_cell v) (aligned_const df v) = replicate (len df) v.
Proof.
  intros Hv. unfold aligned_const, len. rewrite map_map. generalize (length (df_index df)) at 1.
  intros n. induction (df_index df) as [|l idx IH]; simpl; [reflexivity|].
  rewrite IH. f_equal. destruct (in_range n l); [now apply fillna_cell_notna|reflexivity].
Qed.

Lemma loc_set_length (mask : list bool) (v : value) (vs : list value) :
  length (loc_set mask v vs) = length vs.
Proof.
  revert vs. induction mask as [|b mask IH]; intros [|x vs]; simpl; try reflexivity.
  now rewrite IH.
Qed.

(** Cleaning a cell that the engine-size line has already filled. *)
Lemma clean_cell_filled (v : value) :
  clean_cell parse (fillna_cell (VFloat 0) (to_numeric_cell parse v)) = clean_cell parse v.
Proof.
  unfold clean_cell, to_numeric_cell.
  set (g := match v with VNone => nan | VFloat f => f | VInt z => Z2float z
                       | VStr s => default nan (parse s) end).
  unfold fillna_cell at 2 3. simpl isna.
  destruct (PrimFloat.is_nan g) eqn:Hnan; [reflexivity|].
  unfold fillna_cell. simpl isna. now rewrite Hnan.
Qed.

Lemma power_numeric_length (df : DataFrame) :
  well_formed df -> length (power_numeric parse df) = len df.
Proof.
  intros Hwf. unfold power_numeric.
  destruct (lookup_col "power_ps" (df_columns df)) as [po|] eqn:Hpo.
  - rewrite length_map. exact (well_formed_lookup _ _ _ Hwf Hpo).
  - apply length_replicate.
Qed.

Lemma getitem_mk (idx : list Z) (cols : list (string * list value)) (c : string)
  (vs : list value) :
  lookup_col c cols = Some vs -> getitem (mkFrame idx cols) c = Ok (mkSeries idx vs).
Proof. intros H. unfold getitem. simpl. now rewrite H. Qed.

Lemma get_mk (idx : list Z) (cols : list (string * list value)) (c : string)
  (d : pyobj) :
  get (mkFrame idx cols) c d =
    match lookup_col c cols with
    | Some vs => Ser (mkSeries idx vs)
    | None => d
    end.
Proof. reflexivity. Qed.

Ltac lookup_through :=
  repeat (rewrite lookup_set_col_ne by discriminate);
  first [apply lookup_set_col_eq | eassumption | reflexivity].

(** Cleaning a frame that has an engine-size and a target column succeeds,
    and each of the five columns it writes is a function of the columns it
    found. *)
Lemma basic_preprocess_forward (df : DataFrame) (engine target : list value) :
  well_formed df ->
  lookup_col "engine_size_cm3" (df_columns df) = Some engine ->
  lookup_col TARGET (df_columns df) = Some target ->
  exists out, basic_preprocess parse df = Ok out /\ cleaned_as parse df engine target out.
Proof.
  intros Hwf Hen Hta.
  pose proof (well_formed_lookup _ _ _ Hwf Hen) as Henlen.
  pose proof (well_formed_lookup _ _ _ Hwf Hta) as Htalen.
  pose proof (power_numeric_length _ Hwf) as Hpolen.
  unfold cleaned_as, transmission_cleaned, fuel_cleaned, power_cleaned, power_zeroed.
  unfold power_numeric in *.
  destruct df as [idx cols]. unfold len in *. simpl in Hen, Hta, Henlen, Htalen, Hpolen.
  simpl df_index. simpl df_columns.
  (* transmission_type *)
  set (tr1 := match lookup_col "transmission_type" cols with
              | Some tr => tr
              | None => aligned_const (mkFrame idx cols) (VStr "Automatic")
              end).
  assert (length tr1 = length idx) as Htr1len.
  { unfold tr1. destruct (lookup_col "transmission_type" cols) as [tr|] eqn:Htr.
    - exact (well_formed_lookup (mkFrame idx cols) _ _ Hwf Htr).
    - apply aligned_const_length. }
  assert (setitem (mkFrame idx cols) "transmission_type"
            (get (mkFrame idx cols) "transmission_type"
               (Ser (Series_const (VStr "Automatic") (len (mkFrame idx cols))))) =
          Ok (mkFrame idx (set_col "transmission_type" tr1 cols))) as E1.
  { rewrite get_mk. unfold tr1.
    destruct (lookup_col "transmission_type" cols) as [tr|] eqn:Htr.
    - apply setitem_aligned. exact (well_formed_lookup (mkFrame idx cols) _ _ Hwf Htr).
    - apply setitem_const. }
  set (p1 := match lookup_col "power_ps" cols with
             | Some po => map (to_numeric_cell parse) po
             | None => replicate (length idx) (VFloat 0)
             end) in *.
  set (fu1 := match lookup_col "fuel_type" cols with
              | Some fu => map (fillna_cell (VStr "Petrol")) fu
              | None => aligned_const (mkFrame idx cols) (VStr "Petrol")
              end).
  eexists. split.
  - unfold basic_preprocess. rewrite E1, result_bind_ok.
    rewrite (getitem_mk _ _ "transmission_type" tr1) by lookup_through.
    rewrite result_bind_ok.
    unfold fillna. simpl s_index. simpl s_values.
    rewrite setitem_aligned by now rewrite length_map.
    rewrite result_bind_ok.
    (* engine_size_cm3 *)
    rewrite get_mk. repeat (rewrite lookup_set_col_ne by discriminate). rewrite Hen.
    unfold to_numeric, obj_fillna, fillna. simpl s_index. simpl s_values.
    rewrite result_bind_ok.
    rewrite setitem_aligned by now rewrite !length_map.
    rewrite result_bind_ok.
    (* power_ps *)
    rewrite get_mk. repeat (rewrite lookup_set_col_ne by discriminate).
    match goal with
    | |- context [setitem (mkFrame idx ?cs) "power_ps" ?o] =>
        assert (setitem (mkFrame idx cs) "power_ps" o =
                Ok (mkFrame idx (set_col "power_ps" p1 cs))) as ->
    end.
    { unfold p1 in *. destruct (lookup_col "power_ps" cols) as [po|].
      - apply setitem_aligned. exact Hpolen.
      - reflexivity. }
    rewrite result_bind_ok.
    rewrite (getitem_mk _ _ "power_ps" p1) by lookup_through. rewrite result_bind_ok.
    rewrite (getitem_mk _ _ TARGET target) by lookup_through. rewrite result_bind_ok.
    cbv zeta. simpl s_values. unfold loc_setitem. simpl df_columns. simpl df_index.
    rewrite lookup_set_col_eq. simpl default.
    erewrite !getitem_mk by lookup_through. rewrite !result_bind_ok.
    unfold fillna. simpl s_index. simpl s_values.
    rewrite setitem_aligned by now rewrite length_map, loc_set_length.
    rewrite result_bind_ok.
    (* fuel_type *)
    rewrite get_mk. repeat (rewrite lookup_set_col_ne by discriminate).
    match goal with
    | |- (?m ≫= _) = _ =>
        assert (m = Ok (match lookup_col "fuel_type" cols with
                        | Some fu => mkSeries idx (map (fillna_cell (VStr "Petrol")) fu)
                        | None => Series_const (VStr "Petrol") (length idx)
                        end)) as ->
    end.
    { destruct (lookup_col "fuel_type" cols) as [fu|]; [reflexivity|].
      unfold Series_const, len. simpl. now rewrite fmap_replicate. }
    rewrite result_bind_ok.
    match goal with
    | |- context [setitem (mkFrame idx ?cs) "fuel_type" ?o] =>
        assert (setitem (mkFrame idx cs) "fuel_type" o =
                Ok (mkFrame idx (set_col "fuel_type" fu1 cs))) as ->
    end.
    { unfold fu1. destruct (lookup_col "fuel_type" cols) as [fu|] eqn:Hfu.
      - apply setitem_aligned. rewrite length_map.
        exact (well_formed_lookup (mkFrame idx cols) _ _ Hwf Hfu).
      - match goal with
        | |- setitem ?d _ _ = _ => exact (setitem_const d "fuel_type" (VStr "Petrol"))
        end. }
    rewrite result_bind_ok.
    (* the closing loop *)
    simpl foldl. rewrite ?result_bind_ok.
    rewrite (clean_numeric_present parse _ TARGET target) by (simpl; lookup_through).
    simpl df_index. rewrite setitem_aligned by now rewrite length_map.
    rewrite result_bind_ok.
    rewrite (clean_numeric_present parse _ "engine_size_cm3"
               (map (fillna_cell (VFloat 0)) (map (to_numeric_cell parse) engine)))
      by (simpl; lookup_through).
    simpl df_index. rewrite setitem_aligned by now rewrite !length_map.
    rewrite result_bind_ok.
    erewrite (clean_numeric_present parse _ "power_ps") by (simpl; lookup_through).
    simpl df_index. rewrite setitem_aligned by now rewrite !length_map, loc_set_length.
    reflexivity.
  - simpl df_index. simpl df_columns.
    assert (length fu1 = length idx) as Hfu1len.
    { unfold fu1. destruct (lookup_col "fuel_type" cols) as [fu|] eqn:Hfu.
      - rewrite length_map. exact (well_formed_lookup (mkFrame idx cols) _ _ Hwf Hfu).
      - apply aligned_const_length. }
    split; [reflexivity|]. split.
    { repeat (apply well_formed_set_col;
              [|rewrite ?length_map, ?loc_set_length; assumption]).
      exact Hwf. }
    split.
    { repeat (rewrite lookup_set_col_ne by discriminate). rewrite lookup_set_col_eq.
      f_equal. unfold tr1. destruct (lookup_col "transmission_type" cols); [reflexivity|].
      now apply (fillna_aligned_const (mkFrame idx cols)). }
    split; [lookup_through|]. split.
    { repeat (rewrite lookup_set_col_ne by discriminate). rewrite lookup_set_col_eq.
      f_equal. rewrite !map_map. apply map_ext. intros v. apply clean_cell_filled. }
    split; [lookup_through|]. split; [lookup_through|].
    intros c Hc. unfold cleaned_names in Hc.
    repeat (rewrite lookup_set_col_ne by (intros <-; apply Hc; set_solver)).
    reflexivity.
Qed.

Lemma getitem_absent (idx : list Z) (cols : list (string * list value)) (c : string) :
  lookup_col c cols = None -> getitem (mkFrame idx cols) c = Err KeyError.
Proof. intros H. unfold getitem. simpl. now rewrite H. Qed.

(** The first two lines of the cleaning never fail on a well-formed frame. *)
Lemma transmission_lines (df : DataFrame) :
  well_formed df ->
  exists tr1 tr2,
    length tr2 = len df /\
    forall (K : DataFrame -> result DataFrame),
      (setitem df "transmission_type"
         (get df "transmission_type" (Ser (Series_const (VStr "Automatic") (len df))))
       ≫= fun d => getitem d "transmission_type"
       ≫= fun s => setitem d "transmission_type" (Ser (fillna (VStr "Automatic") s))
       ≫= K) =
      K (mkFrame (df_index df)
           (set_col "transmission_type" tr2
              (set_col "transmission_type" tr1 (df_columns df)))).
Proof.
  intros Hwf. destruct df as [idx cols]. unfold len. simpl df_index. simpl df_columns.
  set (tr1 := match lookup_col "transmission_type" cols with
              | Some tr => tr
              | None => aligned_const (mkFrame idx cols) (VStr "Automatic")
              end).
  assert (length tr1 = length idx) as Htr1len.
  { unfold tr1. destruct (lookup_col "transmission_type" cols) as [tr|] eqn:Htr.
    - exact (well_formed_lookup (mkFrame idx cols) _ _ Hwf Htr).
    - apply aligned_const_length. }
  exists tr1, (map (fillna_cell (VStr "Automatic")) tr1).
  split; [now rewrite length_map|]. intros K.
  assert (setitem (mkFrame idx cols) "transmission_type"
            (get (mkFrame idx cols) "transmission_type"
               (Ser (Series_const (VStr "Automatic") (length idx)))) =
          Ok (mkFrame idx (set_col "transmission_type" tr1 cols))) as ->.
  { rewrite get_mk. unfold tr1.
    destruct (lookup_col "transmission_type" cols) as [tr|] eqn:Htr.
    - apply setitem_aligned. exact (well_formed_lookup (mkFrame idx cols) _ _ Hwf Htr).
    - apply (setitem_const (mkFrame idx cols)). }
  rewrite result_bind_ok.
  rewrite (getitem_mk _ _ "transmission_type" tr1) by lookup_through.
  rewrite result_bind_ok. unfold fillna. simpl s_index. simpl s_values.
  rewrite setitem_aligned by now rewrite length_map.
  reflexivity.
Qed.

(** Without an engine-size column the default of [df.get] is a float, which
    has no [fillna]. *)
Lemma basic_preprocess_no_engine (df : DataFrame) :
  well_formed df -> lookup_col "engine_size_cm3" (df_columns df) = None ->
  basic_preprocess parse df = Err AttributeError.
Proof.
  intros Hwf Hen. destruct (transmission_lines df Hwf) as (tr1 & tr2 & Hlen & E).
  unfold basic_preprocess. rewrite E.
  rewrite get_mk. repeat (rewrite lookup_set_col_ne by discriminate). rewrite Hen.
  reflexivity.
Qed.

(** Without a target column the mask of the power rule cannot be built. *)
Lemma basic_preprocess_no_target (df : DataFrame) (engine : list value) :
  well_formed df -> lookup_col "engine_size_cm3" (df_columns df) = Some engine ->
  lookup_col TARGET (df_columns df) = None ->
  basic_preprocess parse df = Err KeyError.
Proof.
  intros Hwf Hen Hta. destruct (transmission_lines df Hwf) as (tr1 & tr2 & Hlen & E).
  pose proof (well_formed_lookup _ _ _ Hwf Hen) as Henlen.
  pose proof (power_numeric_length _ Hwf) as Hpolen.
  unfold basic_preprocess. rewrite E. clear E.
  destruct df as [idx cols]. unfold len, power_numeric in *.
  simpl in Hen, Hta, Henlen, Hpolen, Hlen. simpl df_index. simpl df_columns.
  rewrite get_mk. repeat (rewrite lookup_set_col_ne by discriminate). rewrite Hen.
  change (obj_fillna (VFloat 0) (to_numeric parse (Ser (mkSeries idx engine))))
    with (Ok (mkSeries idx (map (fillna_cell (VFloat 0))
                              (map (to_numeric_cell parse) engine)))).
  rewrite result_bind_ok.
  rewrite setitem_aligned by now rewrite !length_map.
  rewrite result_bind_ok.
  rewrite get_mk. repeat (rewrite lookup_set_col_ne by discriminate).
  match goal with
  | |- context [setitem (mkFrame idx ?cs) "power_ps" ?o] =>
      assert (exists p1, setitem (mkFrame idx cs) "power_ps" o =
                Ok (mkFrame idx (set_col "power_ps" p1 cs))) as [p1 ->]
  end.
  { destruct (lookup_col "power_ps" cols) as [po|].
    - eexists. apply setitem_aligned. exact Hpolen.
    - eexists. reflexivity. }
  rewrite result_bind_ok.
  rewrite (getitem_mk _ _ "power_ps" p1) by lookup_through. rewrite result_bind_ok.
  rewrite getitem_absent; [reflexivity|].
  repeat (rewrite lookup_set_col_ne by discriminate). exact Hta.
Qed.

Lemma basic_preprocess_inv (df out : DataFrame) :
  well_formed df -> basic_preprocess parse df = Ok out ->
  exists engine target,
    lookup_col "engine_size_cm3" (df_columns df) = Some engine /\
    lookup_col TARGET (df_columns df) = Some target /\
    cleaned_as parse df engine target out.
Proof.
  intros Hwf H.
  destruct (lookup_col "engine_size_cm3" (df_columns df)) as [en|] eqn:Hen.
  - destruct (lookup_col TARGET (df_columns df)) as [ta|] eqn:Hta.
    + destruct (basic_preprocess_forward df en ta Hwf Hen Hta) as (out' & H' & Hc).
      rewrite H in H'. injection H' as <-. eauto.
    + rewrite (basic_preprocess_no_target df en Hwf Hen Hta) in H. discriminate.
  - rewrite (basic_preprocess_no_engine df Hwf Hen) in H. discriminate.
Qed.

Lemma loc_set_lookup (mask : list bool) (v : value) (vs : list value) (i : nat)
  (b : bool) (x : value) :
  mask !! i = Some b -> vs !! i = Some x ->
  loc_set mask v vs !! i = Some (if b then v else x).
Proof.
  revert vs i. induction mask as [|m mask IH]; intros [|y vs] [|i]; simpl;
    try discriminate.
  - now intros [= ->] [= ->].
  - apply IH.
Qed.

Lemma forallb_aligned_const (n : nat) (v : value) (idx : list Z) :
  notna v = true ->
  forallb notna (map (fun l => if in_range n l then v else VFloat nan) idx) =
    forallb (in_range n) idx.
Proof.
  intros Hv. induction idx as [|l idx IH]; simpl; [reflexivity|].
  rewrite IH. now destruct (in_range n l); [rewrite Hv|].
Qed.

(** ** Theorems on cleaning *)

(** X8: When cleaning returns and when it raises: on a well-formed frame it
    succeeds exactly when the engine-size and the target column are there; a
    missing engine-size column raises [AttributeError], a missing target
    column [KeyError].  The other three columns may be missing. *)
Theorem basic_preprocess_outcome (df : DataFrame) :
  well_formed df ->
  match basic_preprocess parse df with
  | Ok _ => has_col df "engine_size_cm3" = true /\ has_col df TARGET = true
  | Err e =>
      (has_col df "engine_size_cm3" = false /\ e = AttributeError) \/
      (has_col df "engine_size_cm3" = true /\ has_col df TARGET = false /\ e = KeyError)
  end.
Proof.
  intros Hwf. unfold has_col.
  destruct (lookup_col "engine_size_cm3" (df_columns df)) as [en|] eqn:Hen.
  - destruct (lookup_col TARGET (df_columns df)) as [ta|] eqn:Hta.
    + destruct (basic_preprocess_forward df en ta Hwf Hen Hta) as (out & -> & _).
      split; apply bool_decide_eq_true_2; eauto.
    + rewrite (basic_preprocess_no_target df en Hwf Hen Hta). right.
      split; [apply bool_decide_eq_true_2; eauto|].
      split; [|reflexivity]. apply bool_decide_eq_false_2. now intros [? ?].
  - rewrite (basic_preprocess_no_engine df Hwf Hen). left.
    split; [|reflexivity]. apply bool_decide_eq_false_2. now intros [? ?].
Qed.

(** X9: Cleaning keeps the rows, their labels and every column other than the
    five it cleans; it adds no manufacturer column. *)
Theorem basic_preprocess_keeps_rest (df out : DataFrame) :
  well_formed df -> basic_preprocess parse df = Ok out ->
  df_index out = df_index df /\ well_formed out /\
  forall c, c ∉ cleaned_names ->
            lookup_col c (df_columns out) = lookup_col c (df_columns df).
Proof.
  intros Hwf H.
  destruct (basic_preprocess_inv df out Hwf H) as (en & ta & _ & _ & Hc).
  destruct Hc as (Hidx & Hwf' & _ & _ & _ & _ & _ & Hrest). auto.
Qed.

(** X10: The engine-size and the target column are cleaned cell by cell: each cell
    is read as a number, 0.0 if it is null or does not read, and clipped at
    0.0, whatever the other cells hold. *)
Theorem numeric_columns_cleaned (df out : DataFrame) (c : string) (vs : list value) :
  well_formed df -> basic_preprocess parse df = Ok out ->
  c = "engine_size_cm3" \/ c = TARGET ->
  lookup_col c (df_columns df) = Some vs ->
  lookup_col c (df_columns out) = Some (map (clean_cell parse) vs) /\
  column_ok nonneg c out.
Proof.
  intros Hwf H Hc Hvs.
  destruct (basic_preprocess_inv df out Hwf H) as (en & ta & Hen & Hta & Hout).
  destruct Hout as (Hidx & Hwf' & _ & _ & Hen' & _ & Hta' & _).
  assert (lookup_col c (df_columns out) = Some (map (clean_cell parse) vs)) as Hout.
  { destruct Hc as [-> | ->]; congruence. }
  split; [exact Hout|]. eexists. split; [exact Hout|]. split.
  - exact (well_formed_lookup _ _ _ Hwf' Hout).
  - apply forallb_map_all, clean_cell_nonneg.
Qed.

(** X11: A null transmission type becomes Automatic and a null fuel type Petrol;
    the other cells of the two columns are kept.  A frame without a
    transmission-type column gets one that reads Automatic in every row. *)
Theorem categorical_columns_filled (df out : DataFrame) :
  well_formed df -> basic_preprocess parse df = Ok out ->
  lookup_col "transmission_type" (df_columns out) =
    Some (match lookup_col "transmission_type" (df_columns df) with
          | Some tr => map (fillna_cell (VStr "Automatic")) tr
          | None => replicate (len df) (VStr "Automatic")
          end) /\
  forall fu, lookup_col "fuel_type" (df_columns df) = Some fu ->
             lookup_col "fuel_type" (df_columns out) =
               Some (map (fillna_cell (VStr "Petrol")) fu).
Proof.
  intros Hwf H.
  destruct (basic_preprocess_inv df out Hwf H) as (en & ta & _ & _ & Hout).
  destruct Hout as (_ & _ & Htr & Hfu & _).
  split; [exact Htr|]. intros fu Hfu0. unfold fuel_cleaned in Hfu.
  now rewrite Hfu0 in Hfu.
Qed.

(** X12: A frame without a fuel-type column gets Petrol only in the rows whose
    label is one of 0, ..., n-1, and NaN in the others: the column is without
    nulls exactly when every label is in that range. *)
Theorem missing_fuel_filled_by_label (df out : DataFrame) :
  well_formed df -> basic_preprocess parse df = Ok out ->
  has_col df "fuel_type" = false ->
  lookup_col "fuel_type" (df_columns out) =
    Some (map (fun l => if in_range (len df) l then VStr "Petrol" else VFloat nan)
              (df_index df)) /\
  (column_ok notna "fuel_type" out <-> forallb (in_range (len df)) (df_index df) = true).
Proof.
  intros Hwf H Hno.
  destruct (basic_preprocess_inv df out Hwf H) as (en & ta & _ & _ & Hout).
  destruct Hout as (Hidx & _ & _ & Hfu & _).
  unfold fuel_cleaned in Hfu. unfold has_col in Hno.
  destruct (lookup_col "fuel_type" (df_columns df)) as [fu|].
  { apply bool_decide_eq_false_1 in Hno. exfalso. apply Hno. eauto. }
  unfold aligned_const in Hfu. split; [exact Hfu|]. split.
  - intros (vs & Hvs & _ & Hok). rewrite Hfu in Hvs. injection Hvs as <-.
    now rewrite forallb_aligned_const in Hok.
  - intros Hok. eexists. split; [exact Hfu|]. split.
    + unfold len. now rewrite length_map, Hidx.
    + now rewrite forallb_aligned_const.
Qed.

(** X13: The power rule, row by row.  With [x] the power read as a number and [y]
    the target of the row: a power that is there is clipped at 0.0; a null
    power becomes 0.0 when the target is zero, and otherwise the median of the
    column as it stands after those zeros were written, clipped at 0.0. *)
Theorem power_rule (df out : DataFrame) (target : list value) (i : nat) (x y : value) :
  well_formed df -> basic_preprocess parse df = Ok out ->
  lookup_col TARGET (df_columns df) = Some target ->
  power_numeric parse df !! i = Some x -> target !! i = Some y ->
  exists power,
    lookup_col "power_ps" (df_columns out) = Some power /\
    power !! i =
      Some (if isna x
            then if eq_zero_cell y then VFloat 0
                 else clean_cell parse
                        (VFloat (median (mkSeries (df_index df)
                                           (power_zeroed parse df target))))
            else clean_cell parse x).
Proof.
  intros Hwf H Hta Hx Hy.
  destruct (basic_preprocess_inv df out Hwf H) as (en & ta & _ & Hta' & Hout).
  rewrite Hta in Hta'. injection Hta' as <-.
  destruct Hout as (_ & _ & _ & _ & _ & Hpo & _).
  eexists. split; [exact Hpo|]. unfold power_cleaned.
  rewrite !list_lookup_fmap.
  assert (power_zeroed parse df target !! i =
          Some (if isna x && eq_zero_cell y then VFloat 0 else x)) as ->.
  { unfold power_zeroed. apply loc_set_lookup; [|exact Hx].
    rewrite lookup_zip_with, !list_lookup_fmap, Hx, Hy. reflexivity. }
  simpl. f_equal. unfold fillna_cell at 1.
  destruct (isna x) eqn:Hna; simpl.
  - destruct (eq_zero_cell y); simpl; [reflexivity|]. now rewrite Hna.
  - now rewrite Hna.
Qed.

End CleaningColumns.

(** ** The training frame *)

Section TrainingFrame.

Context {L : MLLib}.

Lemma keep_all {A : Type} (mask : list bool) (l : list A) :
  forallb id mask = true -> length mask = length l -> keep mask l = l.
Proof.
  revert l. induction mask as [|b mask IH]; intros [|x l]; simpl; try discriminate;
    try reflexivity.
  intros H%andb_prop Hlen. destruct H as [-> H]. simpl. f_equal. apply IH; [exact H|lia].
Qed.

(** A mask that holds everywhere selects the whole frame. *)
Lemma filter_rows_all (df : DataFrame) (mask : list bool) :
  well_formed df -> forallb id mask = true -> length mask = len df ->
  filter_rows df mask = df.
Proof.
  intros [Hwf _] Hall Hlen. destruct df as [idx cols].
  assert (Forall (fun kv : string * list value => length (snd kv) = length mask) cols)
    as Hcols by (rewrite Hlen; exact Hwf).
  unfold filter_rows, len in *. simpl in *. f_equal; [now apply keep_all|].
  clear Hwf. induction Hcols as [|[k vs] rest Hk Hrest IH]; simpl; [reflexivity|].
  simpl in Hk. rewrite IH. now rewrite keep_all by congruence.
Qed.

Lemma notna_mask (vs : list value) :
  forallb nonneg vs = true -> forallb id (map (fun v => negb (isna v)) vs) = true.
Proof.
  intros H. induction vs as [|v vs IH]; simpl; [reflexivity|].
  simpl in H. apply andb_prop in H as [Hv Hvs].
  rewrite IH by exact Hvs. apply nonneg_notna in Hv. unfold notna in Hv.
  now rewrite Hv.
Qed.

(** Cleaned cells are floats, which [astype(float)] keeps. *)
Lemma astype_float_nonneg (parse : string -> option float) (vs : list value) :
  forallb nonneg vs = true ->
  exists ys, astype_float parse vs = Ok ys /\ map VFloat ys = vs.
Proof.
  induction vs as [|v vs IH]; simpl; [now exists []|].
  intros H%andb_prop. destruct H as [Hv Hvs].
  destruct (IH Hvs) as (ys & -> & Hys).
  destruct v as [|f| |]; try discriminate. exists (f :: ys). simpl. now rewrite Hys.
Qed.

Lemma manufacturer_not_cleaned : "manufacturer" ∉ cleaned_names.
Proof.
  unfold cleaned_names. rewrite !not_elem_of_cons.
  repeat split; try discriminate. apply not_elem_of_nil.
Qed.

Lemma select_mk (idx : list Z) (cols : list (string * list value)) (names : list string) :
  select (mkFrame idx cols) names =
    (cs ← select_cols names cols; Ok (mkFrame idx cs)).
Proof. reflexivity. Qed.

(** The frame training works on: the five feature columns of the cleaned
    frame, with every row of the batch. *)
Lemma training_frame_forward (df : DataFrame) (engine target maker : list value) :
  well_formed df ->
  lookup_col "engine_size_cm3" (df_columns df) = Some engine ->
  lookup_col TARGET (df_columns df) = Some target ->
  lookup_col "manufacturer" (df_columns df) = Some maker ->
  exists y,
    training_frame df =
      Ok (mkFrame (df_index df)
            [("engine_size_cm3", map (clean_cell parse_numeric) engine);
             ("power_ps", power_cleaned parse_numeric df target);
             ("fuel_type", fuel_cleaned df);
             ("transmission_type", transmission_cleaned df);
             ("manufacturer", maker)], y) /\
    map VFloat y = map (clean_cell parse_numeric) target.
Proof.
  intros Hwf Hen Hta Hma.
  destruct (basic_preprocess_forward parse_numeric df engine target Hwf Hen Hta)
    as (out & Hout & Hidx & Hwf' & Htr & Hfu & Hen' & Hpo & Hta' & Hrest).
  assert (forallb nonneg (map (clean_cell parse_numeric) target) = true) as Hok.
  { apply forallb_map_all, clean_cell_nonneg. }
  destruct (astype_float_nonneg parse_float _ Hok) as (y & Hy & Hyv).
  exists y. split; [|exact Hyv].
  unfold training_frame. rewrite Hout, result_bind_ok.
  rewrite (getitem_present _ _ _ Hta'), result_bind_ok. cbv zeta. simpl s_values.
  rewrite filter_rows_all;
    [|exact Hwf'|now apply notna_mask
     |rewrite length_map; exact (well_formed_lookup _ _ _ Hwf' Hta')].
  rewrite (getitem_present _ _ _ Hta').
  destruct out as [idx' cols']. simpl in *. subst idx'.
  rewrite select_mk. simpl select_cols.
  rewrite Hen', Hpo, Hfu, Htr, Hrest, Hma by apply manufacturer_not_cleaned.
  simpl. rewrite Hy. reflexivity.
Qed.

Lemma training_frame_no_manufacturer (df : DataFrame) :
  well_formed df -> lookup_col "manufacturer" (df_columns df) = None ->
  exists e, training_frame df = Err e /\ (e = AttributeError \/ e = KeyError).
Proof.
  intros Hwf Hma. unfold training_frame.
  destruct (lookup_col "engine_size_cm3" (df_columns df)) as [en|] eqn:Hen;
    [|rewrite (basic_preprocess_no_engine _ df Hwf Hen); eauto].
  destruct (lookup_col TARGET (df_columns df)) as [ta|] eqn:Hta;
    [|rewrite (basic_preprocess_no_target _ df en Hwf Hen Hta); eauto].
  destruct (basic_preprocess_forward parse_numeric df en ta Hwf Hen Hta)
    as (out & Hout & Hidx & Hwf' & Htr & Hfu & Hen' & Hpo & Hta' & Hrest).
  rewrite Hout, result_bind_ok, (getitem_present _ _ _ Hta'), result_bind_ok.
  cbv zeta. simpl s_values.
  rewrite filter_rows_all;
    [|exact Hwf'|apply notna_mask, forallb_map_all, clean_cell_nonneg
     |rewrite length_map; exact (well_formed_lookup _ _ _ Hwf' Hta')].
  destruct out as [idx' cols']. simpl in *.
  rewrite select_mk. simpl select_cols.
  rewrite Hen', Hpo, Hfu, Htr, Hrest, Hma by apply manufacturer_not_cleaned.
  eexists. split; [reflexivity|now right].
Qed.

Lemma clean_cell_null (parse : string -> option float) (v : value) :
  isna v = true -> clean_cell parse v = VFloat 0.
Proof.
  destruct v as [|f| |]; try discriminate; simpl; [reflexivity|].
  intros Hnan. unfold clean_cell, to_numeric_cell, fillna_cell. simpl.
  now rewrite Hnan.
Qed.

(** X14: The filter that is to drop the rows without a target never drops one:
    cleaning has replaced a missing target by 0.0 before the filter runs.
    The training frame has every row of the batch, and a row whose target was
    null is trained on with the label 0.0. *)
Theorem training_frame_keeps_every_row (df X : DataFrame) (y : list float)
  (target : list value) :
  well_formed df -> training_frame df = Ok (X, y) ->
  lookup_col TARGET (df_columns df) = Some target ->
  df_index X = df_index df /\ length y = len df /\
  forall i v, target !! i = Some v -> isna v = true -> y !! i = Some 0%float.
Proof.
  intros Hwf H Hta.
  destruct (lookup_col "manufacturer" (df_columns df)) as [ma|] eqn:Hma;
    [|destruct (training_frame_no_manufacturer df Hwf Hma) as (e & He & _); congruence].
  destruct (lookup_col "engine_size_cm3" (df_columns df)) as [en|] eqn:Hen;
    [|unfold training_frame in H;
      rewrite (basic_preprocess_no_engine _ df Hwf Hen) in H; discriminate].
  destruct (training_frame_forward df en target ma Hwf Hen Hta Hma) as (y' & H' & Hy).
  rewrite H in H'. injection H' as -> <-.
  split; [reflexivity|]. split.
  - rewrite <- (length_map VFloat), Hy, length_map.
    exact (well_formed_lookup _ _ _ Hwf Hta).
  - intros i v Hi Hv.
    assert (map VFloat y !! i = Some (VFloat 0)) as Hyi.
    { rewrite Hy, list_lookup_fmap, Hi. simpl. now rewrite clean_cell_null. }
    rewrite list_lookup_fmap in Hyi. destruct (y !! i) as [f|]; [|discriminate].
    simpl in Hyi.
    apply (f_equal (fun o => match o with Some (VFloat g) => Some g | _ => None end)) in Hyi.
    exact Hyi.
Qed.

End TrainingFrame.

(** ** Training runs *)

Section TrainingRuns.

Context {L : MLLib}.

Lemma bind_inv_ok {A B : Type} (m : M A) (f : A -> M B) (w w' : world) (b : B) :
  (m ≫= f) w = (Ok b, w') -> exists a w1, m w = (Ok a, w1) /\ f a w1 = (Ok b, w').
Proof.
  unfold mbind, M_bind. destruct (m w) as [[a|e] w1]; [eauto|discriminate].
Qed.

Lemma lift_inv_ok {A : Type} (r : result A) (w w' : world) (a : A) :
  lift r w = (Ok a, w') -> r = Ok a /\ w' = w.
Proof. unfold lift. now intros [= -> ->]. Qed.

Lemma invoke_inv_ok {A : Type} (c : call) (r : result A) (w w' : world) (a : A) :
  invoke c r w = (Ok a, w') -> r = Ok a /\ w' = mkWorld (files w) (calls w ++ [c]).
Proof. unfold invoke, mbind, M_bind, log, lift. simpl. now intros [= -> <-]. Qed.

Lemma joblib_load_inv_ok (path : string) (w w' : world) (o : obj) :
  joblib_load path w = (Ok o, w') -> files w !! path = Some o /\ w' = w.
Proof.
  unfold joblib_load. destruct (files w !! path); [|discriminate]. now intros [= -> ->].
Qed.

Lemma load_model_inv_ok (path : string) (w w' : world) (b : Booster) :
  load_model path w = (Ok b, w') -> files w !! path = Some (OBooster b) /\ w' = w.
Proof.
  unfold load_model. destruct (files w !! path) as [[]|]; try discriminate.
  now intros [= -> ->].
Qed.

Lemma read_only_for_each {A S : Type} (l : list A) (body : A -> S -> M S) (s : S) :
  (forall x s, read_only (body x s)) -> read_only (for_each l body s).
Proof.
  intros Hbody. revert s. induction l as [|x l IH]; intros s; simpl.
  - apply read_only_ret.
  - apply read_only_bind; [apply Hbody|exact IH].
Qed.

Lemma read_only_grid_step (dtrain : DMatrix) (eta : float) (md : Z) (ss cs : float)
  (st : search_state) :
  read_only (grid_step dtrain eta md ss cs st).
Proof. unfold grid_step. effects. Qed.

Lemma read_only_grid_search (dtrain : DMatrix) : read_only (grid_search dtrain).
Proof.
  unfold grid_search.
  repeat (apply read_only_for_each; intros ? ?). apply read_only_grid_step.
Qed.

(** **** What a training run leaves behind *)


Lemma train_xgboost_files (df : DataFrame) (model_path : option string)
  (w w' : world) (b : Booster) (a : artifacts) :
  train_xgboost df model_path w = (Ok (b, a), w') ->
  files w' =
    <[path_join MODEL_DIR "artifacts.joblib" := OArtifacts a]>
      (<[default (path_join MODEL_DIR "xgb_co2_model.json") model_path := OBooster b]>
         (<[path_join MODEL_DIR "preproc.joblib" := OPreproc (art_preprocessor a)]>
            (files w))).
Proof.
  intros H. unfold train_xgboost in H.
  apply bind_inv_ok in H as ([X y] & w1 & H1 & H).
  apply lift_inv_ok in H1 as [_ ->].
  apply bind_inv_ok in H as ([preproc X_trans] & w2 & H2 & H).
  apply invoke_inv_ok in H2 as [_ ->]. cbv zeta in H.
  apply bind_inv_ok in H as ([rmse best] & w3 & H3 & H).
  pose proof (read_only_grid_search (mkDMatrix X_trans (Some y))
                (mkWorld (files w) (calls w ++ [CallFitTransform X]))) as Hro.
  rewrite H3 in Hro. simpl in Hro.
  destruct best as [[full_params num_boost]|]; [|discriminate].
  apply bind_inv_ok in H as (booster & w4 & H4 & H).
  apply invoke_inv_ok in H4 as [_ ->].
  unfold mbind, M_bind, save_model, joblib_dump, mret, M_ret in H. simpl in H.
  injection H as -> <- <-. simpl. now rewrite Hro.
Qed.

(** X16: A training run that returns has written the transform, the regressor and
    the artifacts, in that order, and nothing else; what it returns is what a
    later load of the files gives back, unless the regressor was asked to be
    saved at the path of the artifacts, whose dump then replaces it. *)
Theorem train_xgboost_persists (df : DataFrame) (model_path : option string)
  (w w' : world) (b : Booster) (a : artifacts) :
  train_xgboost df model_path w = (Ok (b, a), w') ->
  let path := default (path_join MODEL_DIR "xgb_co2_model.json") model_path in
  files w' =
    <[path_join MODEL_DIR "artifacts.joblib" := OArtifacts a]>
      (<[path := OBooster b]>
         (<[path_join MODEL_DIR "preproc.joblib" := OPreproc (art_preprocessor a)]>
            (files w))) /\
  joblib_load (path_join MODEL_DIR "artifacts.joblib") w' = (Ok (OArtifacts a), w') /\
  (path <> path_join MODEL_DIR "artifacts.joblib" -> load_model path w' = (Ok b, w')) /\
  (path = path_join MODEL_DIR "artifacts.joblib" ->
   load_model path w' = (Err XGBoostError, w')).
Proof.
  intros H path. pose proof (train_xgboost_files _ _ _ _ _ _ H) as Hfiles.
  fold path in Hfiles. split; [exact Hfiles|].
  unfold joblib_load, load_model. rewrite Hfiles.
  split; [now rewrite lookup_insert_eq|]. split.
  - intros Hne. now rewrite lookup_insert_ne, lookup_insert_eq by congruence.
  - intros ->. now rewrite lookup_insert_eq.
Qed.

Lemma search_without_score (cv : params -> list float) (l : list params) :
  (forall p, p ∈ l -> PrimFloat.ltb (min_skipna (cv p)) infinity = false) ->
  search cv l = (infinity, None).
Proof.
  unfold search. induction l as [|p l IH] using rev_ind; intros H; [reflexivity|].
  rewrite foldl_app. simpl. rewrite IH by (intros q Hq; apply H, elem_of_app; now left).
  unfold search_step. simpl. rewrite H; [reflexivity|].
  apply elem_of_app. right. left.
Qed.

(** X17: When no combination of the grid scores below infinity (every table is
    empty, or its scores are NaN or infinite), the run raises
    [AttributeError] after the 36 cross-validations: there are no best
    parameters to train with, no model is trained and no file is written. *)
Theorem train_xgboost_no_finite_score (df : DataFrame) (model_path : option string)
  (w : world) (X : DataFrame) (y : list float) (preproc : Preproc) (X_trans : matrix)
  (cv : params -> list float) :
  training_frame df = Ok (X, y) ->
  fit_transform X = Ok (preproc, X_trans) ->
  (forall p, p ∈ grid -> xgb_cv p (mkDMatrix X_trans (Some y)) = Ok (cv p)) ->
  (forall p, p ∈ grid -> PrimFloat.ltb (min_skipna (cv p)) infinity = false) ->
  train_xgboost df model_path w =
    (Err AttributeError,
     mkWorld (files w)
       (calls w ++ CallFitTransform X ::
          map (fun p => CallCv p (mkDMatrix X_trans (Some y))) grid)).
Proof.
  intros Hframe Hfit Hcv Hnone. unfold train_xgboost.
  rewrite (bind_ok _ _ _ _ _ (lift_ok _ _ _ Hframe)).
  rewrite (bind_ok _ _ _ _ _ (invoke_ok _ _ _ _ Hfit)).
  cbv zeta.
  rewrite (bind_ok _ _ _ _ _ (grid_search_runs _ cv _ Hcv)).
  rewrite (search_without_score cv grid Hnone).
  unfold lift. simpl. now rewrite <- app_assoc.
Qed.

(** X18: The manufacturer column is not optional: cleaning never adds it, so a
    batch without it makes training raise before any estimator is called and
    before any file is written. *)
Theorem train_xgboost_needs_manufacturer (df : DataFrame) (model_path : option string)
  (w : world) :
  well_formed df -> has_col df "manufacturer" = false ->
  exists e, train_xgboost df model_path w = (Err e, w) /\
            (e = AttributeError \/ e = KeyError).
Proof.
  intros Hwf Hno. unfold has_col in Hno.
  destruct (lookup_col "manufacturer" (df_columns df)) as [ma|] eqn:Hma.
  { apply bool_decide_eq_false_1 in Hno. exfalso. apply Hno. eauto. }
  destruct (training_frame_no_manufacturer df Hwf Hma) as (e & He & Hcls).
  exists e. split; [|exact Hcls].
  unfold train_xgboost. apply bind_err. unfold lift. now rewrite He.
Qed.

(** **** Updates and the detector *)

(** X19: An update that returns has overwritten the regressor file and no other:
    the transform is applied as it was persisted, not fitted again, training
    continues from the saved regressor for 50 rounds with the parameters of
    the artifacts, and the artifacts keep the round count of the first
    training. *)
Theorem incremental_update_success (new_df : DataFrame)
  (existing_model_path artifacts_path : string) (w w' : world) (updated : Booster) :
  incremental_update new_df existing_model_path artifacts_path w = (Ok updated, w') ->
  exists p a b X y X_trans,
    files w !! path_join MODEL_DIR "preproc.joblib" = Some (OPreproc p) /\
    files w !! artifacts_path = Some (OArtifacts a) /\
    files w !! existing_model_path = Some (OBooster b) /\
    training_frame new_df = Ok (X, y) /\
    transform p X = Ok X_trans /\
    xgb_train (art_best_params a) (mkDMatrix X_trans (Some y)) 50 (Some b) = Ok updated /\
    files w' = <[existing_model_path := OBooster updated]> (files w) /\
    calls w' = calls w ++
      [CallTransform X;
       CallTrain (art_best_params a) (mkDMatrix X_trans (Some y)) 50 (Some b)].
Proof.
  intros H. unfold incremental_update in H.
  apply bind_inv_ok in H as (pre & w1 & H1 & H).
  apply joblib_load_inv_ok in H1 as [Hpre ->].
  apply bind_inv_ok in H as (arts & w1 & H1 & H).
  apply joblib_load_inv_ok in H1 as [Harts ->].
  apply bind_inv_ok in H as (b & w1 & H1 & H).
  apply load_model_inv_ok in H1 as [Hb ->].
  apply bind_inv_ok in H as ([X y] & w1 & H1 & H).
  apply lift_inv_ok in H1 as [Hframe ->].
  apply bind_inv_ok in H as (X_trans & w1 & H1 & H).
  destruct pre as [p| | | |]; simpl in H1;
    try (apply lift_inv_ok in H1 as [? _]; discriminate).
  apply invoke_inv_ok in H1 as [Ht ->]. cbv zeta in H.
  apply bind_inv_ok in H as (params & w1 & H1 & H).
  apply lift_inv_ok in H1 as [Hparams ->].
  destruct arts as [| | | |a]; try discriminate. injection Hparams as <-.
  apply bind_inv_ok in H as (b' & w1 & H1 & H).
  apply invoke_inv_ok in H1 as [Htrain ->].
  unfold mbind, M_bind, save_model, joblib_dump, mret, M_ret in H. simpl in H.
  injection H as <- <-.
  exists p, a, b, X, y, X_trans. simpl. rewrite <- app_assoc. auto 10.
Qed.

Lemma build_anomaly_detector_files (train_df : DataFrame) (w w' : world)
  (iso : IsoForest) :
  build_anomaly_detector train_df w = (Ok iso, w') ->
  files w' = <[path_join MODEL_DIR "anomaly_if.joblib" := OIso iso]> (files w).
Proof.
  unfold build_anomaly_detector, mbind, M_bind, lift, invoke, log, joblib_dump, mret, M_ret.
  destruct (basic_preprocess parse_numeric train_df) as [df|e]; [|discriminate].
  destruct (select df NUMERIC_FEATURES) as [X|e]; [|discriminate].
  cbv zeta. unfold mbind, M_bind. simpl.
  destruct (iso_fit (df_fillna (VFloat 0) X)) as [i|e]; [|discriminate].
  now intros [= <- <-].
Qed.

(** X20: Building the detector writes the detector file and no other, and only
    once the forest is fitted: a run that raises has written nothing.  The
    forest is fitted on the two numeric columns of the cleaned batch, without
    the target. *)
Theorem build_anomaly_detector_outcome (train_df : DataFrame) (w w' : world)
  (r : result IsoForest) :
  build_anomaly_detector train_df w = (r, w') ->
  match r with
  | Ok iso =>
      exists df X,
        basic_preprocess parse_numeric train_df = Ok df /\
        select df NUMERIC_FEATURES = Ok X /\
        iso_fit (df_fillna (VFloat 0) X) = Ok iso /\
        files w' = <[path_join MODEL_DIR "anomaly_if.joblib" := OIso iso]> (files w) /\
        calls w' = calls w ++ [CallIsoFit (df_fillna (VFloat 0) X)]
  | Err _ => files w' = files w
  end.
Proof.
  unfold build_anomaly_detector, mbind, M_bind, lift, invoke, log, joblib_dump, mret, M_ret.
  destruct (basic_preprocess parse_numeric train_df) as [df|e] eqn:Hdf;
    [|now intros [= <- <-]].
  destruct (select df NUMERIC_FEATURES) as [X|e] eqn:HX; [|now intros [= <- <-]].
  cbv zeta. unfold mbind, M_bind. simpl.
  destruct (iso_fit (df_fillna (VFloat 0) X)) as [iso|e] eqn:Hfit; intros [= <- <-].
  - exists df, X. auto.
  - reflexivity.
Qed.

(** X21: An update after a training run with the default path finds the three
    files it loads and continues that run: it applies the transform training
    fitted, starts from the regressor training returned, and trains with the
    parameters the grid search chose. *)
Theorem update_continues_training (df new_df : DataFrame) (w w1 : world)
  (b updated : Booster) (a : artifacts) (X : DataFrame) (y : list float)
  (X_trans : matrix) :
  train_xgboost df None w = (Ok (b, a), w1) ->
  training_frame new_df = Ok (X, y) ->
  transform (art_preprocessor a) X = Ok X_trans ->
  xgb_train (art_best_params a) (mkDMatrix X_trans (Some y)) 50 (Some b) = Ok updated ->
  incremental_update new_df (path_join MODEL_DIR "xgb_co2_model.json")
    (path_join MODEL_DIR "artifacts.joblib") w1 =
    (Ok updated,
     mkWorld (<[path_join MODEL_DIR "xgb_co2_model.json" := OBooster updated]> (files w1))
       (calls w1 ++
          [CallTransform X;
           CallTrain (art_best_params a) (mkDMatrix X_trans (Some y)) 50 (Some b)])).
Proof.
  intros Htrain Hframe Ht Hupd.
  apply train_xgboost_files in Htrain. simpl default in Htrain.
  assert (files w1 !! path_join MODEL_DIR "preproc.joblib" =
          Some (OPreproc (art_preprocessor a))) as Hpre.
  { rewrite Htrain, !lookup_insert_ne by (unfold path_join, MODEL_DIR; simpl; discriminate).
    apply lookup_insert_eq. }
  assert (files w1 !! path_join MODEL_DIR "artifacts.joblib" = Some (OArtifacts a)) as Harts.
  { rewrite Htrain. apply lookup_insert_eq. }
  assert (files w1 !! path_join MODEL_DIR "xgb_co2_model.json" = Some (OBooster b)) as Hb.
  { rewrite Htrain, lookup_insert_ne by (unfold path_join, MODEL_DIR; simpl; discriminate).
    apply lookup_insert_eq. }
  unfold incremental_update.
  rewrite (bind_ok _ _ _ _ _ (joblib_load_ok _ _ _ Hpre)).
  rewrite (bind_ok _ _ _ _ _ (joblib_load_ok _ _ _ Harts)).
  rewrite (bind_ok _ _ _ _ _ (load_model_ok _ _ _ Hb)).
  rewrite (bind_ok _ _ _ _ _ (lift_ok _ _ _ Hframe)).
  unfold preproc_transform.
  rewrite (bind_ok _ _ _ _ _ (invoke_ok _ _ _ _ Ht)). cbv zeta.
  rewrite (bind_ok _ _ _ _ (art_best_params a) (lift_ok _ _ _ eq_refl)).
  rewrite (bind_ok _ _ _ _ _ (invoke_ok _ _ _ _ Hupd)).
  unfold mbind, M_bind, save_model, joblib_dump, mret, M_ret. simpl.
  now rewrite <- app_assoc.
Qed.

End TrainingRuns.

(** ** Loading *)

Section Loading.

Context {L : MLLib} {T : Toolkit L}.

Lemma lookup_rename_other (c k v : string) (cols : list (string * list value)) :
  c <> k -> c <> v ->
  lookup_col c (map (fun kv => (if bool_decide (fst kv = k) then v else fst kv, snd kv))
                    cols) =
    lookup_col c cols.
Proof.
  intros Hk Hv. induction cols as [|[n vs] cols IH]; simpl; [reflexivity|].
  rewrite IH. destruct (bool_decide (n = k)) eqn:Hn.
  - apply bool_decide_eq_true_1 in Hn as ->.
    now rewrite !bool_decide_eq_false_2 by congruence.
  - reflexivity.
Qed.

Lemma lookup_rename_new (k v : string) (cols : list (string * list value)) :
  lookup_col v cols = None ->
  lookup_col v (map (fun kv => (if bool_decide (fst kv = k) then v else fst kv, snd kv))
                    cols) =
    lookup_col k cols.
Proof.
  induction cols as [|[n vs] cols IH]; simpl; [reflexivity|].
  destruct (bool_decide (n = v)) eqn:Hv; [discriminate|]. intros Hnone.
  destruct (bool_decide (n = k)) eqn:Hk.
  - now rewrite bool_decide_eq_true_2.
  - rewrite Hv. now apply IH.
Qed.

(** An entry that names a column as it is already named does nothing: its
    test never holds. *)
Lemma rename_identity_entries (df : DataFrame) (l : list (string * string)) :
  Forall (fun kv => fst kv = snd kv) l ->
  foldl (fun df kv =>
           if has_col df (fst kv) && negb (has_col df (snd kv))
           then rename df (fst kv) (snd kv)
           else df) df l = df.
Proof.
  induction 1 as [|[k v] l Hkv Hl IH]; simpl; [reflexivity|].
  simpl in Hkv. subst v. now rewrite andb_negb_r.
Qed.

(** Seven of the eight entries of the mapping are of that kind. *)
Lemma rename_columns_co2 (df : DataFrame) :
  rename_columns df =
    if has_col df "co2" && negb (has_col df TARGET) then rename df "co2" TARGET else df.
Proof.
  unfold rename_columns.
  change COL_MAP with (removelast COL_MAP ++ [("co2", TARGET)]).
  rewrite foldl_app, (rename_identity_entries df (removelast COL_MAP))
    by (repeat constructor).
  reflexivity.
Qed.

(** X22: Loading changes at most the name of one column: the target of the loaded
    frame is the target column of the file if it has one, and its "co2"
    column otherwise; the rows, the labels and every other column are those
    of the file.  A file with both columns keeps both, and "co2" is not
    read. *)
Theorem load_dataset_target (path : string) (df : DataFrame) :
  read_csv path = Ok df ->
  exists out,
    load_dataset path = Ok out /\
    df_index out = df_index df /\
    lookup_col TARGET (df_columns out) =
      match lookup_col TARGET (df_columns df) with
      | Some t => Some t
      | None => lookup_col "co2" (df_columns df)
      end /\
    (forall c, c <> "co2" -> c <> TARGET ->
               lookup_col c (df_columns out) = lookup_col c (df_columns df)) /\
    (has_col df TARGET = true -> out = df).
Proof.
  intros Hread. unfold load_dataset. rewrite Hread, result_bind_ok.
  eexists. split; [reflexivity|]. rewrite rename_columns_co2. unfold has_col.
  destruct (lookup_col TARGET (df_columns df)) as [t|] eqn:Ht.
  - rewrite (bool_decide_eq_true_2 (is_Some (Some t))) by eauto.
    rewrite andb_false_r. rewrite Ht. auto.
  - rewrite (bool_decide_eq_false_2 (is_Some None)) by (now intros [? ?]).
    rewrite andb_true_r.
    destruct (lookup_col "co2" (df_columns df)) as [c|] eqn:Hc.
    + rewrite (bool_decide_eq_true_2 (is_Some (Some c))) by eauto. simpl.
      split; [reflexivity|]. split; [now rewrite lookup_rename_new|].
      split; [|discriminate]. intros n H1 H2. now apply lookup_rename_other.
    + rewrite (bool_decide_eq_false_2 (is_Some None)) by (now intros [? ?]).
      rewrite Ht. split; [reflexivity|]. split; [reflexivity|].
      split; [reflexivity|discriminate].
Qed.

End Loading.

(** ** The labels of the maintenance tree *)

Section MaintenanceLabels.

Lemma np_maximum_floor (x : float) :
  PrimFloat.is_nan (np_maximum 7 x) = true \/ PrimFloat.leb 7 (np_maximum 7 x) = true.
Proof.
  unfold np_maximum. simpl PrimFloat.is_nan at 1.
  destruct (PrimFloat.is_nan x) eqn:Hnan; simpl; [now left|].
  destruct (PrimFloat.ltb 7 x) eqn:Hlt; right; [|reflexivity].
  destruct (PrimFloat.leb 7 x) eqn:Hle; [reflexivity|].
  rewrite <- Hle. clear Hle. revert Hlt.
  rewrite FloatAxioms.ltb_spec, FloatAxioms.leb_spec. unfold SFltb, SFleb.
  now destruct (SFcompare (Prim2SF 7) (Prim2SF x)) as [[]|].
Qed.

(** X23: No label is below 7: a label is 7.0 or more, or it is NaN. *)
Theorem maintenance_labels_floor (t : list float) (y : float) :
  y ∈ maintenance_labels t ->
  PrimFloat.is_nan y = true \/ PrimFloat.leb 7 y = true.
Proof.
  unfold maintenance_labels. cbv zeta. intros (x & -> & _)%list_elem_of_fmap.
  apply np_maximum_floor.
Qed.

Lemma eqb_zero (x : float) :
  PrimFloat.eqb x 0 = true -> x = 0%float \/ x = (-0)%float.
Proof.
  rewrite FloatAxioms.eqb_spec. intros H.
  rewrite <- (FloatAxioms.SF2Prim_Prim2SF x).
  destruct (Prim2SF x) as [[]| | |]; try discriminate H; auto.
  - destruct s; discriminate H.
  - simpl in H. unfold SFeqb in H. simpl in H. destruct s; discriminate H.
Qed.

Lemma fmax_zero (l : list float) (acc : float) :
  acc = 0%float \/ acc = (-0)%float ->
  (forall x, x ∈ l -> x = 0%float \/ x = (-0)%float) ->
  foldl fmax acc l = 0%float \/ foldl fmax acc l = (-0)%float.
Proof.
  revert acc. induction l as [|x l IH]; intros acc Hacc Hl; simpl; [exact Hacc|].
  apply IH; [|intros z Hz; apply Hl; now right].
  unfold fmax. destruct (PrimFloat.ltb acc x); [apply Hl; left|exact Hacc].
Qed.

(** X24: A batch whose target is zero in every row has no label at all: the
    highest target is zero, each quotient is 0/0, and every label is NaN. *)
Theorem maintenance_labels_all_zero (t : list float) (y : float) :
  (forall x, x ∈ t -> PrimFloat.eqb x 0 = true) ->
  y ∈ maintenance_labels t -> PrimFloat.is_nan y = true.
Proof.
  intros Hzero. unfold maintenance_labels. cbv zeta.
  intros (x & -> & Hx)%list_elem_of_fmap.
  assert (forall z, z ∈ t -> z = 0%float \/ z = (-0)%float) as Hz
    by (intros z Hin; apply eqb_zero, Hzero, Hin).
  assert (filter (fun z => negb (PrimFloat.is_nan z)) t = t) as Hfilter.
  { clear Hx. induction t as [|z t IH]; [reflexivity|].
    rewrite filter_cons.
    destruct (decide (negb (PrimFloat.is_nan z))) as [_|Hn].
    - f_equal. apply IH; intros; [apply Hzero|apply Hz]; now right.
    - exfalso. apply Hn. destruct (Hz z) as [-> | ->]; [left|reflexivity|reflexivity]. }
  assert (max_skipna t = 0%float \/ max_skipna t = (-0)%float) as Htop.
  { unfold max_skipna. rewrite Hfilter. destruct t as [|z t].
    - now apply elem_of_nil in Hx.
    - apply fmax_zero; [apply Hz; left|intros; apply Hz; now right]. }
  destruct (Hz x Hx) as [-> | ->], Htop as [-> | ->]; reflexivity.
Qed.

End MaintenanceLabels.

(** ** The tree and the training branch *)

Section PipelineRuns.

Context {L : MLLib} {T : Toolkit L}.

Lemma read_only_evaluate_on_test (booster : Booster) (df_test : DataFrame) :
  read_only (evaluate_on_test booster df_test).
Proof. unfold evaluate_on_test. effects. Qed.

Lemma train_maintenance_tree_ok (df : DataFrame) (w w' : world) (tree : DTree) :
  train_maintenance_tree df w = (Ok tree, w') ->
  exists out X target t p X_trans,
    basic_preprocess parse_numeric df = Ok out /\
    select out (NUMERIC_FEATURES ++ CATEGORICAL_FEATURES) = Ok X /\
    lookup_col TARGET (df_columns out) = Some target /\
    operands target = Ok t /\
    files w !! path_join MODEL_DIR "preproc.joblib" = Some (OPreproc p) /\
    transform p X = Ok X_trans /\
    tree_fit X_trans (maintenance_labels t) = Ok tree /\
    files w' = <[path_join MODEL_DIR "maintenance_tree.joblib" := OTree tree]> (files w) /\
    calls w' = calls w ++ [CallTransform X].
Proof.
  intros H. unfold train_maintenance_tree in H.
  apply bind_inv_ok in H as (out & w1 & H1 & H).
  apply lift_inv_ok in H1 as [Hout ->].
  apply bind_inv_ok in H as (X & w1 & H1 & H).
  apply lift_inv_ok in H1 as [HX ->].
  apply bind_inv_ok in H as (s & w1 & H1 & H).
  apply lift_inv_ok in H1 as [Hs ->].
  apply bind_inv_ok in H as (t & w1 & H1 & H).
  apply lift_inv_ok in H1 as [Ht ->]. cbv zeta in H.
  apply bind_inv_ok in H as (pre & w1 & H1 & H).
  apply joblib_load_inv_ok in H1 as [Hpre ->].
  apply bind_inv_ok in H as (X_trans & w1 & H1 & H).
  destruct pre as [p| | | |]; simpl in H1;
    try (apply lift_inv_ok in H1 as [? _]; discriminate).
  apply invoke_inv_ok in H1 as [Htrans ->].
  apply bind_inv_ok in H as (tree' & w1 & H1 & H).
  apply lift_inv_ok in H1 as [Hfit ->].
  unfold mbind, M_bind, joblib_dump, mret, M_ret in H. simpl in H.
  injection H as <- <-.
  apply getitem_inv in Hs as [_ Hs].
  exists out, X, (s_values s), t, p, X_trans. simpl. auto 10.
Qed.

Lemma train_maintenance_tree_failure_keeps (df : DataFrame) :
  failure_keeps_files (train_maintenance_tree df).
Proof.
  unfold train_maintenance_tree.
  repeat first
    [ progress cbv zeta
    | apply failure_keeps_files_bind; [solve [auto with effects]|intros ?] ].
  intros w e w'. discriminate.
Qed.

(** X25: Fitting the tree needs the persisted transform, which it applies without
    fitting it again; a run that returns has written the tree file and no
    other, and the tree was fitted on the labels computed from the cleaned
    target; a run that raises has written nothing. *)
Theorem train_maintenance_tree_outcome (df : DataFrame) (w w' : world)
  (r : result DTree) :
  train_maintenance_tree df w = (r, w') ->
  match r with
  | Ok tree =>
      exists out X target t p X_trans,
        basic_preprocess parse_numeric df = Ok out /\
        select out (NUMERIC_FEATURES ++ CATEGORICAL_FEATURES) = Ok X /\
        lookup_col TARGET (df_columns out) = Some target /\
        operands target = Ok t /\
        files w !! path_join MODEL_DIR "preproc.joblib" = Some (OPreproc p) /\
        transform p X = Ok X_trans /\
        tree_fit X_trans (maintenance_labels t) = Ok tree /\
        files w' =
          <[path_join MODEL_DIR "maintenance_tree.joblib" := OTree tree]> (files w) /\
        calls w' = calls w ++ [CallTransform X]
  | Err _ => files w' = files w
  end.
Proof.
  destruct r as [tree|e]; intros H.
  - exact (train_maintenance_tree_ok df w w' tree H).
  - exact (train_maintenance_tree_failure_keeps df w e w' H).
Qed.

(** The files of the model directory after a training branch that returns. *)
Lemma do_train_files (path : string) (do_anomaly : bool) (w w' : world) :
  do_train (Some path) do_anomaly w = (Ok tt, w') ->
  exists (b : Booster) (a : artifacts) (tree : DTree) (mid : gmap string obj),
    files w' = <[path_join MODEL_DIR "maintenance_tree.joblib" := OTree tree]> mid /\
    (if do_anomaly
     then exists iso, mid = <[path_join MODEL_DIR "anomaly_if.joblib" := OIso iso]>
                              (<[path_join MODEL_DIR "artifacts.joblib" := OArtifacts a]>
                                 (<[path_join MODEL_DIR "artifacts.joblib" := OArtifacts a]>
                                    (<[path_join MODEL_DIR "xgb_co2_model.json" := OBooster b]>
                                       (<[path_join MODEL_DIR "preproc.joblib" :=
                                            OPreproc (art_preprocessor a)]> (files w)))))
     else mid = <[path_join MODEL_DIR "artifacts.joblib" := OArtifacts a]>
                  (<[path_join MODEL_DIR "artifacts.joblib" := OArtifacts a]>
                     (<[path_join MODEL_DIR "xgb_co2_model.json" := OBooster b]>
                        (<[path_join MODEL_DIR "preproc.joblib" :=
                             OPreproc (art_preprocessor a)]> (files w))))).
Proof.
  intros H. unfold do_train in H.
  apply bind_inv_ok in H as (df & w1 & H1 & H).
  apply lift_inv_ok in H1 as [_ ->].
  apply bind_inv_ok in H as (df' & w1 & H1 & H).
  apply lift_inv_ok in H1 as [_ ->].
  apply bind_inv_ok in H as ([train_df test_df] & w1 & H1 & H).
  apply lift_inv_ok in H1 as [_ ->].
  apply bind_inv_ok in H as ([b a] & w1 & H1 & H).
  apply train_xgboost_files in H1. simpl default in H1.
  apply bind_inv_ok in H as ([] & w2 & H2 & H).
  unfold joblib_dump in H2. injection H2 as <-.
  apply bind_inv_ok in H as (scores & w3 & H3 & H).
  pose proof (read_only_evaluate_on_test b test_df
                (mkWorld (<[path_join MODEL_DIR "artifacts.joblib" := OArtifacts a]>
                            (files w1)) (calls w1))) as Hro.
  rewrite H3 in Hro. simpl in Hro.
  apply bind_inv_ok in H as ([] & w4 & H4 & H).
  apply bind_inv_ok in H as (tree & w5 & H5 & H).
  injection H as <-.
  apply train_maintenance_tree_ok in H5
    as (_ & _ & _ & _ & _ & _ & _ & _ & _ & _ & _ & _ & _ & Hfiles & _).
  exists b, a, tree, (files w4). split; [exact Hfiles|].
  destruct do_anomaly.
  - apply bind_inv_ok in H4 as (iso & w6 & H6 & H4). injection H4 as <-.
    apply build_anomaly_detector_files in H6. exists iso. now rewrite H6, Hro, H1.
  - injection H4 as <-. now rewrite Hro, H1.
Qed.

Ltac other_path := unfold path_join, MODEL_DIR; simpl; discriminate.

(** X26: Trained without [--do_anomaly] on a model directory that holds no
    detector, the engine cannot serve: the transform and the regressor load,
    and the load of the detector raises [FileNotFoundError] for every
    record. *)
Theorem do_train_without_detector (path : string) (w w' : world)
  (record : gmap string value) :
  files w !! path_join MODEL_DIR "anomaly_if.joblib" = None ->
  do_train (Some path) false w = (Ok tt, w') ->
  process_realtime_record record w' = (Err FileNotFoundError, w').
Proof.
  intros Hnone H.
  destruct (do_train_files path false w w' H) as (b & a & tree & mid & Hfiles & ->).
  assert (files w' !! path_join MODEL_DIR "preproc.joblib" =
          Some (OPreproc (art_preprocessor a))) as Hpre.
  { rewrite Hfiles, !lookup_insert_ne by other_path. apply lookup_insert_eq. }
  assert (files w' !! path_join MODEL_DIR "xgb_co2_model.json" = Some (OBooster b)) as Hb.
  { rewrite Hfiles, !lookup_insert_ne by other_path. apply lookup_insert_eq. }
  unfold process_realtime_record.
  rewrite (bind_ok _ _ _ _ _ (joblib_load_ok _ _ _ Hpre)).
  rewrite (bind_ok _ _ _ _ _ (load_model_ok _ _ _ Hb)).
  apply bind_err. unfold joblib_load. rewrite Hfiles.
  rewrite !lookup_insert_ne by other_path. now rewrite Hnone.
Qed.

(** X27: Trained with [--do_anomaly], the branch leaves the four artifacts the
    inference call loads, each of the class the call expects. *)
Theorem do_train_with_detector (path : string) (w w' : world) :
  do_train (Some path) true w = (Ok tt, w') ->
  exists p b i t, artifacts_load w' (OPreproc p) b (OIso i) (OTree t).
Proof.
  intros H.
  destruct (do_train_files path true w w' H)
    as (b & a & tree & mid & Hfiles & iso & ->).
  exists (art_preprocessor a), b, iso, tree. unfold artifacts_load. rewrite Hfiles.
  repeat split.
  - rewrite !lookup_insert_ne by other_path. apply lookup_insert_eq.
  - rewrite !lookup_insert_ne by other_path. apply lookup_insert_eq.
  - rewrite lookup_insert_ne by other_path. apply lookup_insert_eq.
  - apply lookup_insert_eq.
Qed.

End PipelineRuns.

(** ** The theorems on the small fleet *)

Section FleetCleaning.

Import Toy Fleet.

Lemma fleet_well_formed : well_formed fleet.
Proof. split; [repeat constructor|compute_done]. Qed.

Lemma fleet_cleans : basic_preprocess (fun _ => None) fleet = Ok cleaned.
Proof. vm_compute. reflexivity. Qed.

Lemma filtered_batch_well_formed : well_formed filtered_batch.
Proof. split; [repeat constructor|compute_done]. Qed.

Lemma basic_preprocess_outcome_witness :
  well_formed fleet /\
  match basic_preprocess (fun _ => None) fleet with
  | Ok _ => has_col fleet "engine_size_cm3" = true /\ has_col fleet TARGET = true
  | Err e =>
      (has_col fleet "engine_size_cm3" = false /\ e = AttributeError) \/
      (has_col fleet "engine_size_cm3" = true /\ has_col fleet TARGET = false /\
       e = KeyError)
  end.
Proof.
  split; [exact fleet_well_formed|].
  exact (basic_preprocess_outcome (fun _ => None) fleet fleet_well_formed).
Defined.

(** A frame with a power but without an engine size is rejected, although
    the call that reads the column names a default. *)
Example cleaning_without_engine_size :
  basic_preprocess (fun _ => None)
    (mkFrame [0; 1] [("power_ps", [VFloat 90; VFloat 120]);
                     (TARGET, [VFloat 110; VFloat 150])]) = Err AttributeError.
Proof. reflexivity. Qed.

Lemma basic_preprocess_keeps_rest_witness :
  well_formed fleet /\
  basic_preprocess (fun _ => None) fleet = Ok cleaned /\
  df_index cleaned = df_index fleet /\ well_formed cleaned /\
  forall c, c ∉ cleaned_names ->
            lookup_col c (df_columns cleaned) = lookup_col c (df_columns fleet).
Proof.
  split; [exact fleet_well_formed|]. split; [exact fleet_cleans|].
  exact (basic_preprocess_keeps_rest (fun _ => None) fleet cleaned
           fleet_well_formed fleet_cleans).
Defined.

Lemma numeric_columns_cleaned_witness :
  well_formed fleet /\
  basic_preprocess (fun _ => None) fleet = Ok cleaned /\
  lookup_col TARGET (df_columns fleet) = Some target /\
  lookup_col TARGET (df_columns cleaned) = Some (map (clean_cell (fun _ => None)) target) /\
  column_ok nonneg TARGET cleaned.
Proof.
  split; [exact fleet_well_formed|]. split; [exact fleet_cleans|].
  split; [reflexivity|].
  exact (numeric_columns_cleaned (fun _ => None) fleet cleaned TARGET target
           fleet_well_formed fleet_cleans (or_intror eq_refl) eq_refl).
Defined.

Lemma categorical_columns_filled_witness :
  well_formed fleet /\
  basic_preprocess (fun _ => None) fleet = Ok cleaned /\
  lookup_col "transmission_type" (df_columns cleaned) =
    Some (match lookup_col "transmission_type" (df_columns fleet) with
          | Some tr => map (fillna_cell (VStr "Automatic")) tr
          | None => replicate (len fleet) (VStr "Automatic")
          end) /\
  forall fu, lookup_col "fuel_type" (df_columns fleet) = Some fu ->
             lookup_col "fuel_type" (df_columns cleaned) =
               Some (map (fillna_cell (VStr "Petrol")) fu).
Proof.
  split; [exact fleet_well_formed|]. split; [exact fleet_cleans|].
  exact (categorical_columns_filled (fun _ => None) fleet cleaned
           fleet_well_formed fleet_cleans).
Defined.

Lemma missing_fuel_filled_by_label_witness :
  well_formed filtered_batch /\
  basic_preprocess (fun _ => None) filtered_batch =
    Ok (Toy.cleaned [VFloat nan; VFloat nan]) /\
  has_col filtered_batch "fuel_type" = false /\
  lookup_col "fuel_type" (df_columns (Toy.cleaned [VFloat nan; VFloat nan])) =
    Some (map (fun l => if in_range (len filtered_batch) l then VStr "Petrol"
                        else VFloat nan)
              (df_index filtered_batch)) /\
  (column_ok notna "fuel_type" (Toy.cleaned [VFloat nan; VFloat nan]) <->
   forallb (in_range (len filtered_batch)) (df_index filtered_batch) = true).
Proof.
  assert (basic_preprocess (fun _ => None) filtered_batch =
          Ok (Toy.cleaned [VFloat nan; VFloat nan])) as Hrun by (vm_compute; reflexivity).
  split; [exact filtered_batch_well_formed|]. split; [exact Hrun|].
  split; [reflexivity|].
  exact (missing_fuel_filled_by_label (fun _ => None) filtered_batch
           (Toy.cleaned [VFloat nan; VFloat nan]) filtered_batch_well_formed Hrun eq_refl).
Defined.

Lemma power_rule_witness :
  well_formed fleet /\
  basic_preprocess (fun _ => None) fleet = Ok cleaned /\
  power_numeric (fun _ => None) fleet !! 2%nat = Some (VFloat nan) /\
  target !! 2%nat = Some (VFloat 200) /\
  exists power,
    lookup_col "power_ps" (df_columns cleaned) = Some power /\
    power !! 2%nat =
      Some (if isna (VFloat nan)
            then if eq_zero_cell (VFloat 200) then VFloat 0
                 else clean_cell (fun _ => None)
                        (VFloat (median (mkSeries (df_index fleet)
                                           (power_zeroed (fun _ => None) fleet target))))
            else clean_cell (fun _ => None) (VFloat nan)).
Proof.
  split; [exact fleet_well_formed|]. split; [exact fleet_cleans|].
  split; [reflexivity|]. split; [reflexivity|].
  exact (power_rule (fun _ => None) fleet cleaned target 2 (VFloat nan) (VFloat 200)
           fleet_well_formed fleet_cleans eq_refl eq_refl eq_refl).
Defined.

(** On the fleet the median is taken over 0, 80, 100 and 120: the zero
    written for the electric car counts. *)
Example fleet_power_median :
  median (mkSeries (df_index fleet) (power_zeroed (fun _ => None) fleet target)) = 90%float.
Proof. reflexivity. Qed.

End FleetCleaning.

Section FleetTraining.

Import Toy Fleet.

(** A run is known by its result. *)
Lemma run_eta {L : MLLib} {A : Type} (m : M A) (w : world) (r : result A) :
  fst (m w) = r -> m w = (r, snd (m w)).
Proof. intros <-. now destruct (m w). Qed.

Lemma training_frame_keeps_every_row_witness :
  well_formed fleet /\
  training_frame (L := lib) fleet = Ok (features, [0; 150; 200; 100; 0]%float) /\
  df_index features = df_index fleet /\
  length [0; 150; 200; 100; 0]%float = len fleet /\
  forall i v, target !! i = Some v -> isna v = true ->
              [0; 150; 200; 100; 0]%float !! i = Some 0%float.
Proof.
  assert (training_frame (L := lib) fleet = Ok (features, [0; 150; 200; 100; 0]%float))
    as Hframe by (vm_compute; reflexivity).
  split; [exact fleet_well_formed|]. split; [exact Hframe|].
  exact (training_frame_keeps_every_row (L := lib) fleet features _ target
           fleet_well_formed Hframe eq_refl).
Defined.


Lemma toy_training_run :
  train_xgboost (L := lib) training_batch None (mkWorld ∅ []) =
    (Ok (3%float, mkArtifacts tt (combination 0.01 6 0.7 0.6) 3),
     snd (train_xgboost (L := lib) training_batch None (mkWorld ∅ []))).
Proof. apply run_eta. reflexivity. Qed.

Lemma train_xgboost_persists_witness :
  let w' := snd (train_xgboost (L := lib) training_batch None (mkWorld ∅ [])) in
  let a := mkArtifacts (L := lib) tt (combination 0.01 6 0.7 0.6) 3 in
  train_xgboost (L := lib) training_batch None (mkWorld ∅ []) = (Ok (3%float, a), w') /\
  let path := default (path_join MODEL_DIR "xgb_co2_model.json") None in
  files w' =
    <[path_join MODEL_DIR "artifacts.joblib" := OArtifacts a]>
      (<[path := OBooster (L := lib) 3%float]>
         (<[path_join MODEL_DIR "preproc.joblib" := OPreproc (art_preprocessor a)]> ∅)) /\
  joblib_load (path_join MODEL_DIR "artifacts.joblib") w' = (Ok (OArtifacts a), w') /\
  (path <> path_join MODEL_DIR "artifacts.joblib" ->
   load_model path w' = (Ok (3%float : @Booster lib), w')) /\
  (path = path_join MODEL_DIR "artifacts.joblib" ->
   load_model path w' = (Err XGBoostError, w')).
Proof.
  split; [exact toy_training_run|].
  exact (train_xgboost_persists (L := lib) training_batch None (mkWorld ∅ []) _ _ _
           toy_training_run).
Defined.

Lemma scoreless_grid (p : params) :
  p ∈ grid -> PrimFloat.ltb (min_skipna [nan]) infinity = false.
Proof. reflexivity. Qed.

Lemma train_xgboost_no_finite_score_witness :
  training_frame (L := scoreless) training_batch = Ok (training_X, training_y) /\
  train_xgboost (L := scoreless) training_batch None (mkWorld ∅ []) =
    (Err AttributeError,
     mkWorld ∅
       ([] ++ CallFitTransform training_X ::
          map (fun p => CallCv p (mkDMatrix [[0.4; -0.2; 0; 1]; [1.2; 0.4; 1; 0]]%float
                                    (Some training_y))) grid)).
Proof.
  split; [reflexivity|].
  exact (train_xgboost_no_finite_score (L := scoreless) training_batch None (mkWorld ∅ [])
           training_X training_y (tt : @Preproc scoreless)
           [[0.4; -0.2; 0; 1]; [1.2; 0.4; 1; 0]]%float (fun _ => [nan])
           eq_refl eq_refl (fun _ _ => eq_refl) scoreless_grid).
Defined.

Lemma train_xgboost_needs_manufacturer_witness :
  well_formed filtered_batch /\
  has_col filtered_batch "manufacturer" = false /\
  exists e,
    train_xgboost (L := lib) filtered_batch None (mkWorld ∅ []) = (Err e, mkWorld ∅ []) /\
    (e = AttributeError \/ e = KeyError).
Proof.
  split; [exact filtered_batch_well_formed|]. split; [reflexivity|].
  exact (train_xgboost_needs_manufacturer (L := lib) filtered_batch None (mkWorld ∅ [])
           filtered_batch_well_formed eq_refl).
Defined.

Lemma toy_update_run :
  incremental_update (L := lib) training_batch "models/xgb_co2_model.json"
    "models/artifacts.joblib" trained =
    (Ok 50%float,
     snd (incremental_update (L := lib) training_batch "models/xgb_co2_model.json"
            "models/artifacts.joblib" trained)).
Proof. apply run_eta. reflexivity. Qed.

Lemma incremental_update_success_witness :
  let w' := snd (incremental_update (L := lib) training_batch "models/xgb_co2_model.json"
                   "models/artifacts.joblib" trained) in
  incremental_update (L := lib) training_batch "models/xgb_co2_model.json"
    "models/artifacts.joblib" trained = (Ok 50%float, w') /\
  exists p a b X y X_trans,
    files trained !! path_join MODEL_DIR "preproc.joblib" = Some (OPreproc p) /\
    files trained !! "models/artifacts.joblib" = Some (OArtifacts a) /\
    files trained !! "models/xgb_co2_model.json" = Some (OBooster b) /\
    training_frame training_batch = Ok (X, y) /\
    transform p X = Ok X_trans /\
    xgb_train (art_best_params a) (mkDMatrix X_trans (Some y)) 50 (Some b) = Ok 50%float /\
    files w' = <["models/xgb_co2_model.json" := OBooster 50%float]> (files trained) /\
    calls w' = calls trained ++
      [CallTransform X;
       CallTrain (art_best_params a) (mkDMatrix X_trans (Some y)) 50 (Some b)].
Proof.
  split; [exact toy_update_run|].
  exact (incremental_update_success (L := lib) training_batch "models/xgb_co2_model.json"
           "models/artifacts.joblib" trained _ _ toy_update_run).
Defined.

Lemma build_anomaly_detector_outcome_witness :
  let w' := snd (build_anomaly_detector (L := lib) training_batch (mkWorld ∅ [])) in
  build_anomaly_detector (L := lib) training_batch (mkWorld ∅ []) = (Ok 10000%float, w') /\
  exists df X,
    basic_preprocess parse_numeric training_batch = Ok df /\
    select df NUMERIC_FEATURES = Ok X /\
    iso_fit (df_fillna (VFloat 0) X) = Ok 10000%float /\
    files w' = <[path_join MODEL_DIR "anomaly_if.joblib" := OIso 10000%float]> ∅ /\
    calls w' = [] ++ [CallIsoFit (df_fillna (VFloat 0) X)].
Proof.
  assert (build_anomaly_detector (L := lib) training_batch (mkWorld ∅ []) =
          (Ok 10000%float,
           snd (build_anomaly_detector (L := lib) training_batch (mkWorld ∅ []))))
    as Hrun by (apply run_eta; reflexivity).
  split; [exact Hrun|].
  exact (build_anomaly_detector_outcome (L := lib) training_batch (mkWorld ∅ []) _
           (Ok 10000%float) Hrun).
Defined.

Lemma update_continues_training_witness :
  let w1 := snd (train_xgboost (L := lib) training_batch None (mkWorld ∅ [])) in
  let a := mkArtifacts (L := lib) tt (combination 0.01 6 0.7 0.6) 3 in
  train_xgboost (L := lib) training_batch None (mkWorld ∅ []) = (Ok (3%float, a), w1) /\
  training_frame (L := lib) fleet = Ok (features, [0; 150; 200; 100; 0]%float) /\
  incremental_update (L := lib) fleet (path_join MODEL_DIR "xgb_co2_model.json")
    (path_join MODEL_DIR "artifacts.joblib") w1 =
    (Ok 50%float,
     mkWorld (<[path_join MODEL_DIR "xgb_co2_model.json" := OBooster 50%float]> (files w1))
       (calls w1 ++
          [CallTransform features;
           CallTrain (art_best_params a)
             (mkDMatrix [[-2; -2; 0; 0]; [1.2; 0.4; 1; 0]; [2; -0.2; 0; 1];
                         [0; -0.4; 0; 1]; [0.8; 0; 0; 1]]%float
                        (Some [0; 150; 200; 100; 0]%float))
             50 (Some 3%float)])).
Proof.
  assert (training_frame (L := lib) fleet = Ok (features, [0; 150; 200; 100; 0]%float))
    as Hframe by (vm_compute; reflexivity).
  split; [exact toy_training_run|]. split; [exact Hframe|].
  exact (update_continues_training (L := lib) training_batch fleet (mkWorld ∅ []) _
           (3%float : @Booster lib) (50%float : @Booster lib) _ features _
           [[-2; -2; 0; 0]; [1.2; 0.4; 1; 0]; [2; -0.2; 0; 1];
            [0; -0.4; 0; 1]; [0.8; 0; 0; 1]]%float
           toy_training_run Hframe eq_refl eq_refl).
Defined.

End FleetTraining.

Section FleetPipeline.

Import Toy Fleet.

Lemma load_dataset_target_witness :
  read_csv "fleet.csv" = Ok file /\
  exists out,
    load_dataset "fleet.csv" = Ok out /\
    df_index out = df_index file /\
    lookup_col TARGET (df_columns out) =
      match lookup_col TARGET (df_columns file) with
      | Some t => Some t
      | None => lookup_col "co2" (df_columns file)
      end /\
    (forall c, c <> "co2" -> c <> TARGET ->
               lookup_col c (df_columns out) = lookup_col c (df_columns file)) /\
    (has_col file TARGET = true -> out = file).
Proof.
  split; [reflexivity|].
  exact (load_dataset_target (T := tools) "fleet.csv" file eq_refl).
Defined.

(** The file's "co2" column is the target of the loaded frame. *)
Example fleet_loads : load_dataset "fleet.csv" = Ok fleet.
Proof. reflexivity. Qed.

Lemma maintenance_labels_floor_witness :
  7%float ∈ maintenance_labels [0; 150; 200; 100]%float /\
  (PrimFloat.is_nan 7 = true \/ PrimFloat.leb 7 7 = true).
Proof.
  assert (7%float ∈ maintenance_labels [0; 150; 200; 100]%float) as Hin
    by (vm_compute; right; right; left).
  split; [exact Hin|].
  exact (maintenance_labels_floor [0; 150; 200; 100]%float 7 Hin).
Defined.

(** The labels of the four cars: the car that emits most is due in 7 days. *)
Example fleet_labels :
  maintenance_labels [0; 150; 200; 100]%float = [180; 45; 7; 90]%float.
Proof. reflexivity. Qed.

Lemma zero_targets (x : float) : x ∈ [0; -0]%float -> PrimFloat.eqb x 0 = true.
Proof.
  intros H. apply elem_of_cons in H as [->|H]; [reflexivity|].
  apply elem_of_cons in H as [->|H]; [reflexivity|]. now apply elem_of_nil in H.
Qed.

Lemma maintenance_labels_all_zero_witness :
  nan ∈ maintenance_labels [0; -0]%float /\ PrimFloat.is_nan nan = true.
Proof.
  assert (nan ∈ maintenance_labels [0; -0]%float) as Hin by (vm_compute; left).
  split; [exact Hin|].
  exact (maintenance_labels_all_zero [0; -0]%float nan zero_targets Hin).
Defined.

Lemma toy_tree_run :
  train_maintenance_tree (L := lib) fleet trained =
    (Ok 7%float, snd (train_maintenance_tree (L := lib) fleet trained)).
Proof. apply run_eta. reflexivity. Qed.

Lemma train_maintenance_tree_outcome_witness :
  let w' := snd (train_maintenance_tree (L := lib) fleet trained) in
  train_maintenance_tree (L := lib) fleet trained = (Ok 7%float, w') /\
  exists out X target t p X_trans,
    basic_preprocess parse_numeric fleet = Ok out /\
    select out (NUMERIC_FEATURES ++ CATEGORICAL_FEATURES) = Ok X /\
    lookup_col TARGET (df_columns out) = Some target /\
    operands target = Ok t /\
    files trained !! path_join MODEL_DIR "preproc.joblib" = Some (OPreproc p) /\
    transform p X = Ok X_trans /\
    tree_fit X_trans (maintenance_labels t) = Ok 7%float /\
    files w' =
      <[path_join MODEL_DIR "maintenance_tree.joblib" := OTree 7%float]> (files trained) /\
    calls w' = calls trained ++ [CallTransform X].
Proof.
  split; [exact toy_tree_run|].
  exact (train_maintenance_tree_outcome (L := lib) fleet trained _ (Ok 7%float)
           toy_tree_run).
Defined.

Lemma toy_branch_run (do_anomaly : bool) :
  do_train (L := lib) (Some "fleet.csv") do_anomaly (mkWorld ∅ []) =
    (Ok tt, snd (do_train (L := lib) (Some "fleet.csv") do_anomaly (mkWorld ∅ []))).
Proof. apply run_eta. destruct do_anomaly; reflexivity. Qed.

Lemma do_train_without_detector_witness :
  let w' := snd (do_train (L := lib) (Some "fleet.csv") false (mkWorld ∅ [])) in
  files (mkWorld (L := lib) ∅ []) !! path_join MODEL_DIR "anomaly_if.joblib" = None /\
  do_train (L := lib) (Some "fleet.csv") false (mkWorld ∅ []) = (Ok tt, w') /\
  process_realtime_record (reading "Petrol") w' = (Err FileNotFoundError, w').
Proof.
  split; [reflexivity|]. split; [exact (toy_branch_run false)|].
  exact (do_train_without_detector (L := lib) "fleet.csv" (mkWorld ∅ []) _
           (reading "Petrol") eq_refl (toy_branch_run false)).
Defined.

Lemma do_train_with_detector_witness :
  let w' := snd (do_train (L := lib) (Some "fleet.csv") true (mkWorld ∅ [])) in
  do_train (L := lib) (Some "fleet.csv") true (mkWorld ∅ []) = (Ok tt, w') /\
  exists p b i t, artifacts_load w' (OPreproc p) b (OIso i) (OTree t).
Proof.
  split; [exact (toy_branch_run true)|].
  exact (do_train_with_detector (L := lib) "fleet.csv" (mkWorld ∅ []) _
           (toy_branch_run true)).
Defined.

(** With the detector the fleet's model directory serves a reading. *)
Example serving_after_training :
  fst (process_realtime_record (reading "Petrol")
         (snd (do_train (L := lib) (Some "fleet.csv") true (mkWorld ∅ [])))) =
    Ok (mkInference false (NOTICE_ACTION 7) (Some 3%float) (Some 7)).
Proof. reflexivity. Qed.

End FleetPipeline.
